(** * yuzu: emulated wall clock and GameCube-adapter input capture

    A shallow embedding of [src/common/wall_clock.cpp] and
    [src/input_common/gcadapter/gc_poller.cpp], followed by the properties
    of the cycle converter, of the digital and analog capture protocols and
    of the device objects.

    Conventions.
    - Machine integers are [Z] with the wrap-around written out.
    - [float] values are IEEE-754 binary32 numbers, [double] values binary64
      numbers, both through the executable specification of the standard
      library ([SpecFloat]), rounding to nearest even.
    - The analog stick is written over an arithmetic interface, whose
      instance is binary32, as the compiled code computes.
    - A call that throws ([.at] on a missing key) returns [None]. *)

From Stdlib Require Import ZArith List Lia String QArith Qabs.
From Stdlib Require Import Floats.SpecFloat.
From stdpp Require Import base option list gmap strings.
From Bignums Require BigQ.BigQ.

Local Open Scope Z_scope.

(* ===================================================================== *)
(** * Common: 64/128-bit arithmetic and the standard wall clock          *)
(* ===================================================================== *)

Module Common.

(** [u64]: unsigned 64-bit integers, wrapping. *)
Definition u64_modulus : Z := 2 ^ 64.

Definition to_u64 (n : Z) : Z := n mod u64_modulus.

(** [u128] is [std::array<u64, 2>]: index 0 holds the low word. *)
Definition u128 : Type := (Z * Z)%type.

Definition u128_value (x : u128) : Z := fst x + snd x * u64_modulus.

(** Modelled from the spec: [Common::Multiply64Into128] of
    [common/uint128.h], which is not among the sources.  The spec (4.1)
    asks for "a 128-bit (or equivalent double-width) intermediate product":
    the full product of two 64-bit words, split into its two words. *)
Definition Multiply64Into128 (a b : Z) : u128 :=
  let p := to_u64 a * to_u64 b in
  (p mod u64_modulus, (p / u64_modulus) mod u64_modulus).

(** Modelled from the spec: [Common::Divide128On32] of [common/uint128.h],
    which is not among the sources.  The spec (4.1) asks for "an exact
    integer division, truncating toward zero"; the result is the pair of
    the quotient and the remainder, each returned in a [u64]. *)
Definition Divide128On32 (dividend : u128) (divisor : Z) : Z * Z :=
  let n := u128_value dividend in
  (to_u64 (Z.quot n divisor), to_u64 (Z.rem n divisor)).

(** [StandardWallClock]: the two emulated frequencies (held as [u64] by the
    base class) and the instant of construction, in nanoseconds of the
    steady clock. *)
Record StandardWallClock : Type := {
  emulated_cpu_frequency : Z;
  emulated_clock_frequency : Z;
  start_time : Z
}.

(** [GetTimeNS]: the steady clock is read ([current]) and the elapsed time
    is returned as a signed 64-bit count of nanoseconds. *)
Definition GetTimeNS (c : StandardWallClock) (current : Z) : Z :=
  current - start_time c.

(** [GetClockCycles]; [time_now.count()] is converted to [u64] when it is
    passed to [Multiply64Into128]. *)
Definition GetClockCycles (c : StandardWallClock) (current : Z) : Z :=
  let time_now := GetTimeNS c current in
  let temporary := Multiply64Into128 time_now (emulated_clock_frequency c) in
  fst (Divide128On32 temporary 1000000000).

Definition GetCPUCycles (c : StandardWallClock) (current : Z) : Z :=
  let time_now := GetTimeNS c current in
  let temporary := Multiply64Into128 time_now (emulated_cpu_frequency c) in
  fst (Divide128On32 temporary 1000000000).

(** Ten years in nanoseconds, every year counted with 366 days. *)
Definition ten_years_ns : Z := 10 * 366 * 24 * 3600 * 1000000000.

(** [GetTimeUS] and [GetTimeMS]: the same elapsed time, brought to
    microseconds and milliseconds by [duration_cast], which truncates
    toward zero. *)
Definition GetTimeUS (c : StandardWallClock) (current : Z) : Z :=
  Z.quot (current - start_time c) 1000.

Definition GetTimeMS (c : StandardWallClock) (current : Z) : Z :=
  Z.quot (current - start_time c) 1000000.

(** [Pause]: "Do nothing in this clock type." *)
Definition Pause (c : StandardWallClock) (is_paused : bool) : StandardWallClock := c.

(** [u32]: the type of the two parameters of [CreateBestMatchingClock]. *)
Definition to_u32 (n : Z) : Z := n mod 2 ^ 32.

(** [CreateBestMatchingClock]: both branches of the [#ifdef] make a
    [StandardWallClock]; its constructor widens the two [u32] frequencies
    to [u64] and reads the steady clock ([now]). *)
Definition CreateBestMatchingClock (cpu_frequency clock_frequency : Z) (now : Z)
  : StandardWallClock :=
  {| emulated_cpu_frequency := to_u64 (to_u32 cpu_frequency);
     emulated_clock_frequency := to_u64 (to_u32 clock_frequency);
     start_time := now |}.

End Common.

(* ===================================================================== *)
(** * Floating point                                                     *)
(* ===================================================================== *)

(** IEEE-754 binary32 ([float]) and binary64 ([double]) values.  A decimal
    literal is the correctly rounded quotient of its numerator and
    denominator, both of which are exactly representable for the literals
    of the sources. *)
Module Float32.

Definition float : Type := spec_float.

Definition prec : Z := 24.
Definition emax : Z := 128.

Definition of_int (n : Z) : float := binary_normalize prec emax n 0 false.
Definition add : float -> float -> float := SFadd prec emax.
Definition sub : float -> float -> float := SFsub prec emax.
Definition mul : float -> float -> float := SFmul prec emax.
Definition div : float -> float -> float := SFdiv prec emax.
Definition sqrt : float -> float := SFsqrt prec emax.
Definition neg : float -> float := SFopp.
Definition abs : float -> float := SFabs.
Definition ltb : float -> float -> bool := SFltb.
Definition leb : float -> float -> bool := SFleb.
Definition gtb (a b : float) : bool := SFltb b a.

Definition lit (q : Q) : float := div (of_int (Qnum q)) (of_int (Zpos (Qden q))).

Definition is_nan (x : float) : bool :=
  match x with S754_nan => true | _ => false end.

(** [std::clamp(v, lo, hi)]. *)
Definition clamp (v lo hi : float) : float :=
  if ltb v lo then lo else if ltb hi v then hi else v.

(** The rational value of a finite number ([None] for infinities and NaN). *)
Definition to_Q (x : float) : option Q :=
  match x with
  | S754_zero _ => Some 0%Q
  | S754_finite s m e =>
      let v := (inject_Z (Zpos m) * Qpower 2 e)%Q in
      Some (if s then Qopp v else v)
  | _ => None
  end.

(** [x] is the finite number whose value is the rational [q]. *)
Definition represents (x : float) (q : Q) : Prop :=
  match to_Q x with
  | Some v => (v == q)%Q
  | None => False
  end.

End Float32.

Module Float64.

Definition double : Type := spec_float.

Definition prec : Z := 53.
Definition emax : Z := 1024.

Definition of_int (n : Z) : double := binary_normalize prec emax n 0 false.
Definition div : double -> double -> double := SFdiv prec emax.
Definition ltb : double -> double -> bool := SFltb.

Definition lit (q : Q) : double := div (of_int (Qnum q)) (of_int (Zpos (Qden q))).

(** The implicit conversion of a [float] to a [double]: the value is kept,
    the mantissa is brought to 53 bits. *)
Definition of_float (x : Float32.float) : double :=
  match x with
  | S754_finite s m e => binary_normalize prec emax (cond_Zopp s (Zpos m)) e s
  | _ => x
  end.

End Float64.

(** The arithmetic the analog stick is written over. *)
Module Arith.

Class Ops (F : Type) : Type := {
  of_int : Z -> F;
  lit : Q -> F;
  add : F -> F -> F;
  sub : F -> F -> F;
  mul : F -> F -> F;
  div : F -> F -> F;
  sqrt : F -> F;
  neg : F -> F;
  gtb : F -> F -> bool;
  ltb : F -> F -> bool
}.

End Arith.

(** binary32, as the compiled code computes. *)
#[export] Instance float_arith : Arith.Ops Float32.float := {|
  Arith.of_int := Float32.of_int;
  Arith.lit := Float32.lit;
  Arith.add := Float32.add;
  Arith.sub := Float32.sub;
  Arith.mul := Float32.mul;
  Arith.div := Float32.div;
  Arith.sqrt := Float32.sqrt;
  Arith.neg := Float32.neg;
  Arith.gtb := Float32.gtb;
  Arith.ltb := Float32.ltb
|}.

(* ===================================================================== *)
(** * Collaborators of the poller                                        *)
(* ===================================================================== *)

(** Modelled from the spec: [Common::ParamPackage] of
    [common/param_package.h], which is not among the sources: a "mapping
    of string keys to primitive values" (spec, 3) in which "missing
    optional parameters fall back to fixed defaults" (spec, 7).  How a
    stored value is read back at a requested type belongs to the storage
    type; the three conversions are parameters ([ParamReader]), and a read
    that cannot convert yields the default as well. *)
Module ParamPackage.

Inductive ParamValue : Type :=
| PStr (s : string)
| PInt (n : Z)
| PFloat (f : Float32.float).

Abbreviation t := (gmap string ParamValue).

Class ParamReader : Type := {
  read_int : ParamValue -> option Z;
  read_float : ParamValue -> option Float32.float;
  read_text : ParamValue -> option string
}.

(** A reader that returns a value stored at the requested type only. *)
Definition typed_reader : ParamReader := {|
  read_int := fun v => match v with PInt n => Some n | _ => None end;
  read_float := fun v => match v with PFloat f => Some f | _ => None end;
  read_text := fun v => match v with PStr s => Some s | _ => None end
|}.

Definition Set_text (key value : string) (p : t) : t := <[key := PStr value]> p.
Definition Set_int (key : string) (value : Z) (p : t) : t := <[key := PInt value]> p.

Definition Has (p : t) (key : string) : bool :=
  match p !! key with Some _ => true | None => false end.

Section Get.
Context {reader : ParamReader}.

Definition Get_int (p : t) (key : string) (default_value : Z) : Z :=
  match p !! key with
  | Some v => default default_value (read_int v)
  | None => default_value
  end.

Definition Get_float (p : t) (key : string) (default_value : Float32.float)
  : Float32.float :=
  match p !! key with
  | Some v => default default_value (read_float v)
  | None => default_value
  end.

Definition Get_text (p : t) (key : string) (default_value : string) : string :=
  match p !! key with
  | Some v => default default_value (read_text v)
  | None => default_value
  end.

End Get.

End ParamPackage.

(** The adapter ([input_common/gcadapter/gc_adapter.h], not among the
    sources): pad samples, the button masks, the per-port queues and the
    per-port state. *)
Module GCAdapter.

(** Modelled from the spec: [PadAxes], the "optional id" of the axis a
    sample reports (spec, 3); [Undefined] is the absent case.  [Axis id]
    carries the numeric value of the enumerator. *)
Inductive PadAxes : Type :=
| Undefined
| Axis (id : Z).

(** [static_cast<u8>(pad.axis)], for a defined axis. *)
Definition axis_u8 (id : Z) : Z := id mod 256.

(** Modelled from the spec: [GCPadStatus], a pad sample "{port, button
    mask, optional axis, raw axis byte}" (spec, 3); the port is the index of
    the queue that holds the sample. *)
Record GCPadStatus : Type := {
  button : Z;
  axis : PadAxes;
  axis_value : Z
}.

(** The button masks.  Their values are fixed by the adapter header; they
    are parameters here and every property holds for any values. *)
Class PadButton : Type := {
  PAD_BUTTON_A : Z;
  PAD_BUTTON_B : Z;
  PAD_BUTTON_X : Z;
  PAD_BUTTON_Y : Z;
  PAD_BUTTON_DOWN : Z;
  PAD_BUTTON_LEFT : Z;
  PAD_BUTTON_RIGHT : Z;
  PAD_BUTTON_UP : Z;
  PAD_TRIGGER_L : Z;
  PAD_TRIGGER_R : Z;
  PAD_TRIGGER_Z : Z;
  PAD_BUTTON_START : Z;
  PAD_STICK : Z
}.

(** A concrete choice of masks, one bit each, used by the worked examples. *)
Definition example_masks : PadButton := {|
  PAD_BUTTON_A := 0x0100;
  PAD_BUTTON_B := 0x0200;
  PAD_BUTTON_X := 0x0400;
  PAD_BUTTON_Y := 0x0800;
  PAD_BUTTON_DOWN := 0x0004;
  PAD_BUTTON_LEFT := 0x0001;
  PAD_BUTTON_RIGHT := 0x0002;
  PAD_BUTTON_UP := 0x0008;
  PAD_TRIGGER_L := 0x0040;
  PAD_TRIGGER_R := 0x0020;
  PAD_TRIGGER_Z := 0x0010;
  PAD_BUTTON_START := 0x1000;
  PAD_STICK := 0x2000
|}.

(** Modelled from the spec: [GCState], the live state of one port,
    "{buttons: id -> bool, axes: id -> byte}" (spec, 3). *)
Record GCState : Type := {
  buttons : gmap Z bool;
  axes : gmap Z Z
}.

(** The adapter as the poller sees it: the per-port sample queues (front of
    the queue first), the per-port state and the capture mode of the
    producer. *)
Record Adapter : Type := {
  pad_queue : list (list GCPadStatus);
  pad_state : list GCState;
  configuring : bool
}.

Definition set_pad_queue (qs : list (list GCPadStatus)) (a : Adapter) : Adapter :=
  {| pad_queue := qs; pad_state := pad_state a; configuring := configuring a |}.

(** [GetPadState()[port]]; an index outside the array has no value. *)
Definition GetPadState (a : Adapter) (port : Z) : option GCState :=
  if port <? 0 then None else pad_state a !! Z.to_nat port.

(** [GetPadState()[port].axes.at(axis)] and [.buttons.at(button)]; [at]
    throws on a missing key. *)
Definition axes_at (a : Adapter) (port axis : Z) : option Z :=
  st ← GetPadState a port; axes st !! axis.

Definition buttons_at (a : Adapter) (port button : Z) : option bool :=
  st ← GetPadState a port; buttons st !! button.

(** Modelled from the spec: [queue(port).pop()], the "non-blocking dequeue"
    (spec, 6) of [common/threadsafe_queue.h]. *)
Definition Pop (qs : list (list GCPadStatus)) (i : nat)
  : option (GCPadStatus * list (list GCPadStatus)) :=
  match qs !! i with
  | Some (pad :: rest) => Some (pad, <[i := rest]> qs)
  | _ => None
  end.

(** Modelled from the spec: [queue(port).clear()] (spec, 6). *)
Definition Clear (qs : list (list GCPadStatus)) (i : nat)
  : list (list GCPadStatus) :=
  <[i := []]> qs.

(** Modelled from the spec: [Adapter::BeginConfiguration] and
    [Adapter::EndConfiguration], which enable and disable "capture mode on
    the producer" (spec, 4.3). *)
Definition BeginConfiguration (a : Adapter) : Adapter :=
  {| pad_queue := pad_queue a; pad_state := pad_state a; configuring := true |}.

Definition EndConfiguration (a : Adapter) : Adapter :=
  {| pad_queue := pad_queue a; pad_state := pad_state a; configuring := false |}.

End GCAdapter.

(* ===================================================================== *)
(** * InputCommon: devices and capture factories of the poller           *)
(* ===================================================================== *)

Module InputCommon.

Import GCAdapter ParamPackage.

(** The messages handed to the logging collaborator. *)
Inductive LogEntry : Type :=
| LOG_ERROR (class message : string).

(** ** Digital button *)
Module GCButton.

Record t : Type := {
  port : Z;
  button : Z
}.

(** The constructor receives an axis as well and drops it. *)
Definition make (port_ button_ axis_ : Z) : t :=
  {| port := port_; button := button_ |}.

Definition GetStatus (d : t) (a : Adapter) : option bool :=
  buttons_at a (port d) (button d).

End GCButton.

(** ** Axis read as a button *)
Module GCAxisButton.

Record t : Type := {
  port : Z;
  axis : Z;
  threshold : Float32.float;
  trigger_if_greater : bool
}.

(** [(raw - 128.0f) / 128.0f] *)
Definition axis_value_of (raw : Z) : Float32.float :=
  Float32.div (Float32.sub (Float32.of_int raw) (Float32.lit 128))
              (Float32.lit 128).

Definition GetStatus (d : t) (a : Adapter) : option bool :=
  raw ← axes_at a (port d) (axis d);
  let axis_value := axis_value_of raw in
  if trigger_if_greater d then
    Some (Float32.gtb axis_value (Float32.lit (1 # 10)))
  else
    Some (Float32.ltb axis_value (Float32.neg (Float32.lit (1 # 10)))).

End GCAxisButton.

Inductive ButtonDevice : Type :=
| Button (d : GCButton.t)
| AxisButton (d : GCAxisButton.t).

(** ** Button factory *)
Module GCButtonFactory.

Record t : Type := {
  polling : bool
}.

Section Create.
Context {reader : ParamReader}.

Definition Create (params : ParamPackage.t) : ButtonDevice * list LogEntry :=
  let button_id := Get_int params "button" 0 in
  let port := Get_int params "port" 0 in
  if Has params "axis" then
    let axis := Get_int params "axis" 0 in
    let threshold := Get_float params "threshold" (Float32.lit (5 # 10)) in
    let direction_name := Get_text params "direction" "" in
    let '(trigger_if_greater, log) :=
      if String.eqb direction_name "+" then (true, [])
      else if String.eqb direction_name "-" then (false, [])
      else (true, [LOG_ERROR "Input" ("Unknown direction " ++ direction_name)]) in
    (AxisButton {| GCAxisButton.port := port;
                   GCAxisButton.axis := axis;
                   GCAxisButton.threshold := threshold;
                   GCAxisButton.trigger_if_greater := trigger_if_greater |},
     log)
  else
    (Button (GCButton.make port button_id (Get_int params "axis" 0)), []).

End Create.

Section Capture.
Context {masks : PadButton}.

(** The order in which [GetNextInput] tests the masks. *)
Definition button_order : list Z :=
  [ PAD_BUTTON_A; PAD_BUTTON_B; PAD_BUTTON_X; PAD_BUTTON_Y;
    PAD_BUTTON_DOWN; PAD_BUTTON_LEFT; PAD_BUTTON_RIGHT; PAD_BUTTON_UP;
    PAD_TRIGGER_L; PAD_TRIGGER_R; PAD_TRIGGER_Z; PAD_BUTTON_START ].

(** [pad.button & mask] *)
Definition pressed (pad : GCPadStatus) (mask : Z) : bool :=
  negb (Z.land (GCAdapter.button pad) mask =? 0).

(** The body of the [while] loop for the sample [pad] popped from the queue
    of port [i]; the boolean tells whether the body ends in [break]. *)
Definition capture_pad (i : nat) (pad : GCPadStatus) (params : ParamPackage.t)
  : ParamPackage.t * bool :=
  let params := Set_text "engine" "gcpad" params in
  let params := Set_int "port" (Z.of_nat i) params in
  match List.find (pressed pad) button_order with
  | Some mask => (Set_int "button" mask params, true)
  | None =>
      match GCAdapter.axis pad with
      | Axis id =>
          let params := Set_int "axis" (axis_u8 id) params in
          let params := Set_int "button" PAD_STICK params in
          if 128 <? axis_value pad then
            let params := Set_text "direction" "+" params in
            (Set_text "threshold" "0.5" params, true)
          else
            let params := Set_text "direction" "-" params in
            (Set_text "threshold" "-0.5" params, true)
      | Undefined => (params, false)
      end
  end.

(** [while (queue[i].Pop(pad)) { ... }] on the queue [q] of port [i]:
    returns what is left of the queue and the parameters. *)
Fixpoint capture_while (i : nat) (q : list GCPadStatus) (params : ParamPackage.t)
  : list GCPadStatus * ParamPackage.t :=
  match q with
  | [] => ([], params)
  | pad :: q' =>
      match capture_pad i pad params with
      | (params', true) => (q', params')
      | (params', false) => capture_while i q' params'
      end
  end.

(** One round of the [for] loop. *)
Definition capture_port (s : list (list GCPadStatus) * ParamPackage.t) (i : nat)
  : list (list GCPadStatus) * ParamPackage.t :=
  match s.1 !! i with
  | Some q =>
      let '(q', params') := capture_while i q s.2 in
      (<[i := q']> s.1, params')
  | None => s
  end.

Definition GetNextInput (a : Adapter) : ParamPackage.t * Adapter :=
  let '(qs, params) := foldl capture_port (pad_queue a, ∅) (seq 0 4) in
  (params, set_pad_queue qs a).

End Capture.

Definition clear_queues (qs : list (list GCPadStatus)) : list (list GCPadStatus) :=
  foldl Clear qs (seq 0 4).

Definition BeginConfiguration (f : t) (a : Adapter) : t * Adapter :=
  ({| polling := true |},
   GCAdapter.BeginConfiguration (set_pad_queue (clear_queues (pad_queue a)) a)).

Definition EndConfiguration (f : t) (a : Adapter) : t * Adapter :=
  ({| polling := false |},
   GCAdapter.EndConfiguration (set_pad_queue (clear_queues (pad_queue a)) a)).

End GCButtonFactory.

(** ** Analog stick *)
Module GCAnalog.

Record t (F : Type) : Type := {
  port : Z;
  axis_x : Z;
  axis_y : Z;
  deadzone : F
}.
Arguments port {F}.
Arguments axis_x {F}.
Arguments axis_y {F}.
Arguments deadzone {F}.

Inductive AnalogDirection : Type := RIGHT | LEFT | UP | DOWN.

Section Device.
Import Arith.
Context {F : Type} {arith : Arith.Ops F}.

Definition GetAxis (d : t F) (a : Adapter) (axis : Z) : option F :=
  raw ← axes_at a (port d) axis;
  Some (div (sub (of_int raw) (lit 128)) (lit 95)).

Definition GetAnalog (d : t F) (a : Adapter) (axis_x axis_y : Z) : option (F * F) :=
  x ← GetAxis d a axis_x;
  y ← GetAxis d a axis_y;
  let r := add (mul x x) (mul y y) in
  if gtb r (lit 1) then
    let r := sqrt r in
    Some (div x r, div y r)
  else
    Some (x, y).

Definition GetStatus (d : t F) (a : Adapter) : option (F * F) :=
  '(x, y) ← GetAnalog d a (axis_x d) (axis_y d);
  let r := sqrt (add (mul x x) (mul y y)) in
  if gtb r (deadzone d) then
    Some (div (mul (div x r) (sub r (deadzone d))) (sub (of_int 1) (deadzone d)),
          div (mul (div y r) (sub r (deadzone d))) (sub (of_int 1) (deadzone d)))
  else
    Some (lit 0, lit 0).

Definition GetAnalogDirectionStatus (d : t F) (a : Adapter)
  (direction : AnalogDirection) : option bool :=
  '(x, y) ← GetStatus d a;
  let directional_deadzone := lit (4 # 10) in
  Some match direction with
       | RIGHT => gtb x directional_deadzone
       | LEFT => ltb x (neg directional_deadzone)
       | UP => gtb y directional_deadzone
       | DOWN => ltb y (neg directional_deadzone)
       end.

End Device.

End GCAnalog.

(** ** Analog factory *)
Module GCAnalogFactory.

(** [analog_x_axis], [analog_y_axis] and [controller_number] hold [-1]
    while they are unset. *)
Record t : Type := {
  polling : bool;
  analog_x_axis : Z;
  analog_y_axis : Z;
  controller_number : Z
}.

(** Modelled from the spec: the member initialisers of the factory, in
    [gc_poller.h], which is not among the sources: no half-binding is
    pending before the first capture (spec, 4.4). *)
Definition initial : t :=
  {| polling := false; analog_x_axis := -1; analog_y_axis := -1;
     controller_number := -1 |}.

Section Create.
Context {reader : ParamReader}.

Definition Create (params : ParamPackage.t) : GCAnalog.t Float32.float :=
  let guid := Get_text params "guid" "0" in
  let port := Get_int params "port" 0 in
  let axis_x := Get_int params "axis_x" 0 in
  let axis_y := Get_int params "axis_y" 1 in
  let deadzone :=
    Float32.clamp (Get_float params "deadzone" (Float32.lit 0))
                  (Float32.lit 0) (Float32.lit (99 # 100)) in
  {| GCAnalog.port := port; GCAnalog.axis_x := axis_x;
     GCAnalog.axis_y := axis_y; GCAnalog.deadzone := deadzone |}.

End Create.

Definition clear_queues (qs : list (list GCPadStatus)) : list (list GCPadStatus) :=
  foldl Clear qs (seq 0 4).

Definition set_polling (b : bool) (f : t) : t :=
  {| polling := b; analog_x_axis := analog_x_axis f;
     analog_y_axis := analog_y_axis f;
     controller_number := controller_number f |}.

Definition BeginConfiguration (f : t) (a : Adapter) : t * Adapter :=
  (set_polling true f,
   GCAdapter.BeginConfiguration (set_pad_queue (clear_queues (pad_queue a)) a)).

Definition EndConfiguration (f : t) (a : Adapter) : t * Adapter :=
  (set_polling false f,
   GCAdapter.EndConfiguration (set_pad_queue (clear_queues (pad_queue a)) a)).

(** [std::abs((pad.axis_value - 128.0f) / 128.0f) < 0.1]: the left side is
    a [float], the literal a [double], the comparison is made in [double]. *)
Definition in_deadzone (axis_value : Z) : bool :=
  Float64.ltb
    (Float64.of_float
       (Float32.abs
          (Float32.div (Float32.sub (Float32.of_int axis_value) (Float32.lit 128))
                       (Float32.lit 128))))
    (Float64.lit (1 # 10)).

(** The body of the [while] loop for the sample [pad] popped from the queue
    of port [i]. *)
Definition pair_pad (i : nat) (pad : GCPadStatus) (f : t) : t :=
  match GCAdapter.axis pad with
  | Undefined => f
  | Axis id =>
      if in_deadzone (axis_value pad) then f
      else
        let axis := axis_u8 id in
        if analog_x_axis f =? -1 then
          {| polling := polling f; analog_x_axis := axis;
             analog_y_axis := analog_y_axis f;
             controller_number := Z.of_nat i |}
        else if (analog_y_axis f =? -1) && negb (analog_x_axis f =? axis)
                && (controller_number f =? Z.of_nat i) then
          {| polling := polling f; analog_x_axis := analog_x_axis f;
             analog_y_axis := axis;
             controller_number := controller_number f |}
        else f
  end.

(** [while (queue[i].Pop(pad)) { ... }]: the queue is emptied. *)
Fixpoint pair_while (i : nat) (q : list GCPadStatus) (f : t) : t :=
  match q with
  | [] => f
  | pad :: q' => pair_while i q' (pair_pad i pad f)
  end.

Definition pair_port (s : list (list GCPadStatus) * t) (i : nat)
  : list (list GCPadStatus) * t :=
  match s.1 !! i with
  | Some q => (<[i := []]> s.1, pair_while i q s.2)
  | None => s
  end.

(** What follows the [for] loop: the pair is emitted when both axes are
    set. *)
Definition emit (f : t) : ParamPackage.t * t :=
  if negb (analog_x_axis f =? -1) && negb (analog_y_axis f =? -1) then
    (Set_int "axis_y" (analog_y_axis f)
       (Set_int "axis_x" (analog_x_axis f)
          (Set_int "port" (controller_number f)
             (Set_text "engine" "gcpad" ∅))),
     {| polling := polling f; analog_x_axis := -1; analog_y_axis := -1;
        controller_number := -1 |})
  else (∅, f).

Definition GetNextInput (f : t) (a : Adapter) : ParamPackage.t * t * Adapter :=
  let '(qs, f') := foldl pair_port (pad_queue a, f) (seq 0 4) in
  let '(params, f'') := emit f' in
  (params, f'', set_pad_queue qs a).

End GCAnalogFactory.

End InputCommon.


(* ===================================================================== *)
(** * Vocabulary of the statements                                       *)
(* ===================================================================== *)

Module Statements.

Import GCAdapter ParamPackage InputCommon.

(** No sample is queued on the ports after [i]. *)
Definition later_ports_empty (qs : list (list GCPadStatus)) (i : nat) : Prop :=
  forall j : nat, (i < j)%nat -> (j < 4)%nat -> default [] (qs !! j) = [].

(** A sample the digital capture passes over: none of the listed masks is
    set and the axis is undefined. *)
Definition passed_over {masks : PadButton} (pad : GCPadStatus) : Prop :=
  (forall m, m ∈ GCButtonFactory.button_order ->
             Z.land (GCAdapter.button pad) m = 0) /\
  GCAdapter.axis pad = Undefined.

(** The keys a digital capture writes. *)
Definition binding_keys : list string :=
  [ "engine"; "port"; "button"; "axis"; "direction"; "threshold" ]%string.

Definition only_binding_keys (p : ParamPackage.t) : Prop :=
  forall k : string, k ∉ binding_keys -> p !! k = None.

(** The axis-as-button binding of the axis [id] on port [i], with the given
    direction and threshold texts. *)
Definition axis_binding {masks : PadButton} (i : nat) (id : Z)
  (direction threshold : string) : ParamPackage.t :=
  {[ "engine" := PStr "gcpad";
     "port" := PInt (Z.of_nat i);
     "axis" := PInt (axis_u8 id);
     "button" := PInt PAD_STICK;
     "direction" := PStr direction;
     "threshold" := PStr threshold ]}%string.

(** The analog binding of the axes [x] and [y] on port [p]. *)
Definition analog_binding (p x y : Z) : ParamPackage.t :=
  {[ "engine" := PStr "gcpad";
     "port" := PInt p;
     "axis_x" := PInt x;
     "axis_y" := PInt y ]}%string.

(** The samples an analog capture dequeues, in the order it dequeues them,
    each with the port it comes from. *)
Definition dequeued (qs : list (list GCPadStatus)) (ports : list nat)
  : list (nat * GCPadStatus) :=
  flat_map (fun i => map (pair i) (default [] (qs !! i))) ports.

Definition pair_all (samples : list (nat * GCPadStatus)) (f : GCAnalogFactory.t)
  : GCAnalogFactory.t :=
  foldl (fun f s => GCAnalogFactory.pair_pad s.1 s.2 f) f samples.

(** A sample that the analog capture does not filter out: its axis is
    defined and its value is outside the dead zone. *)
Definition passes (pad : GCPadStatus) (id : Z) : Prop :=
  GCAdapter.axis pad = Axis id /\
  GCAnalogFactory.in_deadzone (axis_value pad) = false.

(** The states of the analog factory that calls of its operations reach
    from the initial one, whatever the adapter holds at each call. *)
Inductive reachable : GCAnalogFactory.t -> Prop :=
| reachable_initial : reachable GCAnalogFactory.initial
| reachable_begin f a :
    reachable f -> reachable (GCAnalogFactory.BeginConfiguration f a).1
| reachable_end f a :
    reachable f -> reachable (GCAnalogFactory.EndConfiguration f a).1
| reachable_next f a :
    reachable f -> reachable (GCAnalogFactory.GetNextInput f a).1.2.

(** The normalised deviation [(raw - 128) / 128] as a rational. *)
Definition deviation (raw : Z) : Q := (inject_Z (raw - 128) / 128)%Q.

(** The values of a byte, and the strict order of the rationals as a
    boolean, for statements that are checked on every byte. *)
Definition all_bytes : list Z := map Z.of_nat (seq 0 256).

Definition Qltb (a b : Q) : bool := (Qnum a * QDen b <? Qnum b * QDen a)%Z.

(** The state of the analog factory between two samples: no second axis
    without a first one, and a second axis differs from the first. *)
Definition pending_ok (f : GCAnalogFactory.t) : Prop :=
  GCAnalogFactory.analog_y_axis f = -1 \/
  (GCAnalogFactory.analog_x_axis f <> -1 /\
   GCAnalogFactory.analog_x_axis f <> GCAnalogFactory.analog_y_axis f).

(** The port a button device reads. *)
Definition device_port (d : ButtonDevice) : Z :=
  match d with
  | Button b => GCButton.port b
  | AxisButton x => GCAxisButton.port x
  end.

(** *** Worked inputs *)

Definition example_clock : Common.StandardWallClock :=
  {| Common.emulated_cpu_frequency := 1020000000;
     Common.emulated_clock_frequency := 19200000;
     Common.start_time := 5 |}.

Definition adapter_with (qs : list (list GCPadStatus)) : Adapter :=
  {| pad_queue := qs; pad_state := []; configuring := true |}.

Definition sample (b : Z) (ax : PadAxes) (v : Z) : GCPadStatus :=
  {| GCAdapter.button := b; GCAdapter.axis := ax; axis_value := v |}.

(** An adapter whose port 0 reports the raw values [x] on axis 0 and [y] on
    axis 1, and devices that read them. *)
Definition adapter_in_state (x y : Z) : Adapter :=
  {| pad_queue := [];
     pad_state := [ {| buttons := ∅; axes := {[ 0 := x; 1 := y ]} |} ];
     configuring := false |}.

Definition example_stick {F : Type} (deadzone : F) : GCAnalog.t F :=
  {| GCAnalog.port := 0; GCAnalog.axis_x := 0; GCAnalog.axis_y := 1;
     GCAnalog.deadzone := deadzone |}.

Definition example_axis_button (threshold : Float32.float) (trigger_if_greater : bool)
  : GCAxisButton.t :=
  {| GCAxisButton.port := 0; GCAxisButton.axis := 0;
     GCAxisButton.threshold := threshold;
     GCAxisButton.trigger_if_greater := trigger_if_greater |}.

End Statements.

(* ===================================================================== *)
(** * Further vocabulary                                                 *)
(* ===================================================================== *)

Module MoreStatements.

Import GCAdapter ParamPackage InputCommon Statements.

(** A sample that ends the loop of its port in the digital capture: one of
    the listed masks is set, or the axis is defined. *)
Definition hit {masks : PadButton} (pad : GCPadStatus) : bool :=
  match List.find (GCButtonFactory.pressed pad) GCButtonFactory.button_order with
  | Some _ => true
  | None => match GCAdapter.axis pad with Axis _ => true | Undefined => false end
  end.

(** What is behind the first hit of a queue; nothing when there is no hit. *)
Fixpoint after_first_hit {masks : PadButton} (q : list GCPadStatus)
  : list GCPadStatus :=
  match q with
  | [] => []
  | pad :: q' => if hit pad then q' else after_first_hit q'
  end.

(** A parameter set that holds at most the keys "engine" and "port". *)
Definition only_header_keys (p : ParamPackage.t) : Prop :=
  forall k : string, k <> "engine"%string -> k <> "port"%string -> p !! k = None.

(** No queue of the first four ports holds a sample. *)
Definition queues_empty (qs : list (list GCPadStatus)) : Prop :=
  forall i : nat, (i < 4)%nat -> default [] (qs !! i) = [].

(** The ports before [i] hold only samples that the digital capture passes
    over. *)
Definition earlier_ports_passed_over {masks : PadButton}
  (qs : list (list GCPadStatus)) (i : nat) : Prop :=
  forall j : nat, (j < i)%nat -> Forall passed_over (default [] (qs !! j)).

(** A reader that gives back an integer stored as an integer and a text
    stored as a text. *)
Definition reads_what_was_set (reader : ParamReader) : Prop :=
  (forall n : Z, read_int (PInt n) = Some n) /\
  (forall s : string, read_text (PStr s) = Some s).

(** The state of the analog factory between two calls: no second axis, and
    either nothing pending or a pending axis byte on one of the four
    ports. *)
Definition factory_ok (f : GCAnalogFactory.t) : Prop :=
  GCAnalogFactory.analog_y_axis f = -1 /\
  ((GCAnalogFactory.analog_x_axis f = -1 /\
    GCAnalogFactory.controller_number f = -1) \/
   (0 <= GCAnalogFactory.analog_x_axis f <= 255 /\
    0 <= GCAnalogFactory.controller_number f <= 3)).

(** The state of the analog factory inside a call. *)
Definition factory_mid_ok (f : GCAnalogFactory.t) : Prop :=
  ((GCAnalogFactory.analog_x_axis f = -1 /\
    GCAnalogFactory.controller_number f = -1 /\
    GCAnalogFactory.analog_y_axis f = -1) \/
   (0 <= GCAnalogFactory.analog_x_axis f <= 255 /\
    0 <= GCAnalogFactory.controller_number f <= 3 /\
    (GCAnalogFactory.analog_y_axis f = -1 \/
     (0 <= GCAnalogFactory.analog_y_axis f <= 255 /\
      GCAnalogFactory.analog_x_axis f <> GCAnalogFactory.analog_y_axis f)))).

(** A device on port 0 that reads button [b]. *)
Definition example_button (b : Z) : GCButton.t :=
  {| GCButton.port := 0; GCButton.button := b |}.

End MoreStatements.

(* ===================================================================== *)
(** * Vocabulary of the analog stick                                     *)
(* ===================================================================== *)

Module StickStatements.

Import GCAdapter InputCommon Statements.

(** The three steps of [GCAnalog::GetStatus] on binary32 numbers: the value
    [GetAxis] computes from a raw byte, the pair [GetAnalog] makes of two
    such values, and the pair [GetStatus] makes of that one with the dead
    zone [dz]. *)
Definition axis_of_byte (raw : Z) : Float32.float :=
  Float32.div (Float32.sub (Float32.of_int raw) (Float32.lit 128)) (Float32.lit 95).

Definition to_unit_circle (x y : Float32.float) : Float32.float * Float32.float :=
  let r := Float32.add (Float32.mul x x) (Float32.mul y y) in
  if Float32.gtb r (Float32.lit 1) then
    let r := Float32.sqrt r in
    (Float32.div x r, Float32.div y r)
  else
    (x, y).

(** [std::sqrt((x * x) + (y * y))]: the radius [GetStatus] computes. *)
Definition radius (p : Float32.float * Float32.float) : Float32.float :=
  Float32.sqrt (Float32.add (Float32.mul p.1 p.1) (Float32.mul p.2 p.2)).

Definition apply_deadzone (dz : Float32.float) (p : Float32.float * Float32.float)
  : Float32.float * Float32.float :=
  let r := radius p in
  if Float32.gtb r dz then
    (Float32.div (Float32.mul (Float32.div p.1 r) (Float32.sub r dz))
                 (Float32.sub (Float32.of_int 1) dz),
     Float32.div (Float32.mul (Float32.div p.2 r) (Float32.sub r dz))
                 (Float32.sub (Float32.of_int 1) dz))
  else
    (Float32.lit 0, Float32.lit 0).

(** The exact value of [x * x + y * y] for a pair of finite numbers. *)
Definition norm2 (p : Float32.float * Float32.float) : option Q :=
  match Float32.to_Q p.1, Float32.to_Q p.2 with
  | Some x, Some y => Some (x * x + y * y)%Q
  | _, _ => None
  end.

(** [x * scale] with [scale = (r - d) / (r * (1 - d))], and the square of
    the magnitude [(r - d) / (1 - d)], both without rounding, from the
    values of the binary32 numbers [x], [r] and [d]. *)
Definition times_scale (x r d : Float32.float) : option Q :=
  match Float32.to_Q x, Float32.to_Q r, Float32.to_Q d with
  | Some x, Some r, Some d => Some (x * ((r - d) / (r * (1 - d))))%Q
  | _, _, _ => None
  end.

Definition ramp2 (r d : Float32.float) : option Q :=
  match Float32.to_Q r, Float32.to_Q d with
  | Some r, Some d => Some (((r - d) / (1 - d)) * ((r - d) / (1 - d)))%Q
  | _, _ => None
  end.

(** Two values that exist and are at most [eps] apart; a value that exists
    and is at most [q]. *)
Definition near (eps : Q) (v q : option Q) : Prop :=
  match v, q with
  | Some v, Some q => (Qabs (v - q) <= eps)%Q
  | _, _ => False
  end.

Definition at_most (v : option Q) (q : Q) : Prop :=
  match v with
  | Some v => (v <= q)%Q
  | None => False
  end.

(** *** Checks on every position of the stick

    The exact values are computed with the arbitrary-precision rationals
    of Bignums. *)

#[export] Instance spec_float_eq_dec : EqDecision spec_float.
Proof. solve_decision. Defined.

Definition big (x : Float32.float) : option BigQ.BigQ.t :=
  option_map BigQ.BigQ.of_Q (Float32.to_Q x).

(** A value computed with these rationals and the value it stands for. *)
Definition agrees (b : option BigQ.BigQ.t) (q : option Q) : Prop :=
  match b, q with
  | Some b, Some q => (BigQ.BigQ.to_Q b == q)%Q
  | None, None => True
  | _, _ => False
  end.

Definition big_le (a b : BigQ.BigQ.t) : bool :=
  match BigQ.BigQ.compare a b with Gt => false | _ => true end.

Definition big_near (eps : Q) (v q : option BigQ.BigQ.t) : bool :=
  match v, q with
  | Some v, Some q =>
      big_le (BigQ.BigQ.sub v q) (BigQ.BigQ.of_Q eps) &&
      big_le (BigQ.BigQ.of_Q (- eps)) (BigQ.BigQ.sub v q)
  | _, _ => false
  end.

Definition big_at_most (v : option BigQ.BigQ.t) (q : Q) : bool :=
  match v with
  | Some v => big_le v (BigQ.BigQ.of_Q q)
  | None => false
  end.

Definition big_norm2 (p : Float32.float * Float32.float) : option BigQ.BigQ.t :=
  match big p.1, big p.2 with
  | Some x, Some y => Some (BigQ.BigQ.add (BigQ.BigQ.mul x x) (BigQ.BigQ.mul y y))
  | _, _ => None
  end.

Definition big_times_scale (x r d : Float32.float) : option BigQ.BigQ.t :=
  match big x, big r, big d with
  | Some x, Some r, Some d =>
      Some (BigQ.BigQ.mul x
              (BigQ.BigQ.div (BigQ.BigQ.sub r d)
                 (BigQ.BigQ.mul r (BigQ.BigQ.sub BigQ.BigQ.one d))))
  | _, _, _ => None
  end.

Definition big_ramp2 (r d : Float32.float) : option BigQ.BigQ.t :=
  match big r, big d with
  | Some r, Some d =>
      Some (BigQ.BigQ.mul
              (BigQ.BigQ.div (BigQ.BigQ.sub r d) (BigQ.BigQ.sub BigQ.BigQ.one d))
              (BigQ.BigQ.div (BigQ.BigQ.sub r d) (BigQ.BigQ.sub BigQ.BigQ.one d)))
  | _, _ => None
  end.

(** The raw values from the centre upwards, 128 to 256: their normalised
    values and the opposites of these are the normalised values of all the
    bytes. *)
Definition upper_half : list Z := map Z.of_nat (seq 128 129).

(** What holds of the normalised pair [(x, y)] of every position of the
    stick, with the dead zone [dz]: the pair after [GetAnalog] is on the
    unit circle, within 2^-21 in the square of its length, when it was
    outside, and is otherwise unchanged, with a square of its length of at
    most 1 + 2^-24; and when its radius is above the dead zone, each
    coordinate of the output is within 2^-23 of [x * scale] and the square
    of the length of the output is within 2^-21 of the square of
    [(r - d) / (1 - d)]. *)
Definition stick_ok (dz x y : Float32.float) : Prop :=
  let c := to_unit_circle x y in
  let r := radius c in
  let o := apply_deadzone dz c in
  (if Float32.gtb (Float32.add (Float32.mul x x) (Float32.mul y y)) (Float32.lit 1)
   then near (1 # 2 ^ 21) (norm2 c) (Some 1%Q)
   else at_most (norm2 c) (1 + (1 # 2 ^ 24))) /\
  (Float32.gtb r dz = true ->
   near (1 # 2 ^ 23) (Float32.to_Q o.1) (times_scale c.1 r dz) /\
   near (1 # 2 ^ 23) (Float32.to_Q o.2) (times_scale c.2 r dz) /\
   near (1 # 2 ^ 21) (norm2 o) (ramp2 r dz)).

(** The same as a boolean, for the check on every position. *)
Definition stick_check (dz x y : Float32.float) : bool :=
  let c := to_unit_circle x y in
  let r := radius c in
  let o := apply_deadzone dz c in
  (if Float32.gtb (Float32.add (Float32.mul x x) (Float32.mul y y)) (Float32.lit 1)
   then big_near (1 # 2 ^ 21) (big_norm2 c) (Some BigQ.BigQ.one)
   else big_at_most (big_norm2 c) (1 + (1 # 2 ^ 24))) &&
  (if Float32.gtb r dz
   then big_near (1 # 2 ^ 23) (big o.1) (big_times_scale c.1 r dz) &&
        big_near (1 # 2 ^ 23) (big o.2) (big_times_scale c.2 r dz) &&
        big_near (1 # 2 ^ 21) (big_norm2 o) (big_ramp2 r dz)
   else true).

(** *** Worked inputs

    The dead zone 0.2 of the dead-zone test of the spec, and a dead zone
    just under 0.99f, the largest one a device can have. *)
Definition fifth : Float32.float := Float32.lit (2 # 10).

Definition wide_deadzone : Float32.float := S754_finite false 16604371 (-24).

End StickStatements.

(* ===================================================================== *)
(** * Properties of the cycle converter                                  *)
(* ===================================================================== *)

Section WallClock.
Import Common.

Lemma to_u64_small (n : Z) : 0 <= n < u64_modulus -> to_u64 n = n.
Proof. intros H. unfold to_u64. apply Z.mod_small. exact H. Qed.

(** The two words of a product of 64-bit words hold the whole product. *)
Lemma Multiply64Into128_value (a b : Z) :
  0 <= a < u64_modulus -> 0 <= b < u64_modulus ->
  u128_value (Multiply64Into128 a b) = a * b.
Proof.
  intros Ha Hb. unfold u128_value, Multiply64Into128. cbn [fst snd].
  rewrite !to_u64_small by assumption.
  assert (Hp : 0 <= a * b < u64_modulus * u64_modulus) by nia.
  assert (Hm : 0 < u64_modulus) by (unfold u64_modulus; lia).
  rewrite (Z.mod_small (a * b / u64_modulus)).
  - pose proof (Z.div_mod (a * b) u64_modulus ltac:(lia)). lia.
  - split.
    + apply Z.div_pos; lia.
    + apply Z.div_lt_upper_bound; lia.
Qed.

(** The quotient of a 128-bit value by a positive divisor, when it fits a
    [u64], is returned whole. *)
Lemma Divide128On32_quotient (x : u128) (d : Z) :
  0 <= u128_value x -> 0 < d -> u128_value x < d * u64_modulus ->
  fst (Divide128On32 x d) = u128_value x / d.
Proof.
  intros Hx Hd Hlt. unfold Divide128On32. cbn [fst].
  rewrite Z.quot_div_nonneg by lia.
  apply to_u64_small. split.
  - apply Z.div_pos; lia.
  - apply Z.div_lt_upper_bound; lia.
Qed.

Lemma convert_exact (t f : Z) :
  0 <= t <= ten_years_ns -> 1 <= f <= 2 ^ 32 - 1 ->
  u128_value (Multiply64Into128 t f) = t * f /\
  fst (Divide128On32 (Multiply64Into128 t f) 1000000000) = t * f / 1000000000.
Proof.
  intros Ht Hf.
  assert (Hten : ten_years_ns = 316224000000000000) by reflexivity.
  assert (Hmod : u64_modulus = 18446744073709551616) by reflexivity.
  assert (Hpow : 2 ^ 32 = 4294967296) by reflexivity.
  assert (Hv : u128_value (Multiply64Into128 t f) = t * f)
    by (apply Multiply64Into128_value; lia).
  split; [exact Hv|].
  rewrite Divide128On32_quotient; rewrite ?Hv; [reflexivity | nia | lia | nia].
Qed.

(** C1.  For an elapsed time [t] of at most ten years, in nanoseconds, and
    frequencies between 1 and 2^32-1, [GetCPUCycles] returns
    floor(t * cpu frequency / 10^9) and [GetClockCycles] returns
    floor(t * clock frequency / 10^9): the 128-bit product holds t * f
    whole and the quotient is not truncated. *)
Theorem cycles_are_exact (c : StandardWallClock) (current : Z) :
  0 <= GetTimeNS c current <= ten_years_ns ->
  (1 <= emulated_cpu_frequency c <= 2 ^ 32 - 1 ->
   u128_value (Multiply64Into128 (GetTimeNS c current) (emulated_cpu_frequency c))
     = GetTimeNS c current * emulated_cpu_frequency c /\
   GetCPUCycles c current
     = GetTimeNS c current * emulated_cpu_frequency c / 1000000000) /\
  (1 <= emulated_clock_frequency c <= 2 ^ 32 - 1 ->
   u128_value (Multiply64Into128 (GetTimeNS c current) (emulated_clock_frequency c))
     = GetTimeNS c current * emulated_clock_frequency c /\
   GetClockCycles c current
     = GetTimeNS c current * emulated_clock_frequency c / 1000000000).
Proof.
  intros Ht. split; intros Hf; unfold GetCPUCycles, GetClockCycles;
    cbv zeta; apply convert_exact; assumption.
Qed.

(** Three seconds after the clock was made: 3 060 000 000 CPU cycles at
    1.02 GHz and 57 600 000 clock cycles at 19.2 MHz. *)
Lemma cycles_are_exact_witness :
  GetCPUCycles Statements.example_clock 3000000005 = 3060000000 /\
  GetClockCycles Statements.example_clock 3000000005 = 57600000.
Proof.
  destruct (cycles_are_exact Statements.example_clock 3000000005) as [Hcpu Hclock].
  - vm_compute. split; discriminate.
  - split.
    + destruct Hcpu as [_ H]; [vm_compute; split; discriminate|].
      rewrite H. reflexivity.
    + destruct Hclock as [_ H]; [vm_compute; split; discriminate|].
      rewrite H. reflexivity.
Defined.

End WallClock.

(* ===================================================================== *)
(** * Properties of the digital capture                                  *)
(* ===================================================================== *)

Section ButtonCapture.
Import GCAdapter ParamPackage InputCommon Statements.
Import GCButtonFactory.
Context {masks : PadButton}.

Implicit Types (qs : list (list GCPadStatus)) (params : ParamPackage.t).
Implicit Types (i j : nat) (pad : GCPadStatus).

(** The round of one port is the loop [while (queue[i].Pop(pad)) { ... }]:
    it stops when [Pop] fails or the body breaks, and goes round again
    otherwise. *)
Lemma capture_port_Pop qs params i :
  capture_port (qs, params) i
  = match Pop qs i with
    | None => (qs, params)
    | Some (pad, qs') =>
        match capture_pad i pad params with
        | (params', true) => (qs', params')
        | (params', false) => capture_port (qs', params') i
        end
    end.
Proof.
  unfold capture_port, Pop. cbn [fst snd].
  destruct (qs !! i) as [[|pad rest]|] eqn:Hq; [|cbn [capture_while]|reflexivity].
  - cbn. by rewrite list_insert_id.
  - destruct (capture_pad i pad params) as [params' [|]]; [reflexivity|].
    rewrite list_lookup_insert_eq by (by eapply lookup_lt_Some).
    destruct (capture_while i rest params') as [q' params''].
    by rewrite list_insert_insert_eq.
Qed.

Lemma capture_port_lookup_ne (s : list (list GCPadStatus) * ParamPackage.t) i j :
  i ≠ j -> (capture_port s i).1 !! j = s.1 !! j.
Proof.
  intros Hne. unfold capture_port.
  destruct (s.1 !! i) as [q|] eqn:Hq; [|reflexivity].
  destruct (capture_while i q s.2) as [q' params']. cbn [fst].
  by apply list_lookup_insert_ne.
Qed.

Lemma capture_fold_lookup_notin (l : list nat) :
  forall (s : list (list GCPadStatus) * ParamPackage.t) j,
  j ∉ l -> (foldl capture_port s l).1 !! j = s.1 !! j.
Proof.
  induction l as [|i l IH]; intros s j Hj; [reflexivity|].
  cbn [foldl]. rewrite IH by set_solver.
  apply capture_port_lookup_ne. set_solver.
Qed.

Lemma capture_port_empty (s : list (list GCPadStatus) * ParamPackage.t) i :
  default [] (s.1 !! i) = [] -> capture_port s i = s.
Proof.
  intros He. unfold capture_port. destruct s as [qs params]. cbn [fst snd] in *.
  destruct (qs !! i) as [q|] eqn:Hq; [|reflexivity].
  cbn in He. subst q. cbn. by rewrite list_insert_id.
Qed.

Lemma capture_fold_empty (l : list nat) :
  forall s : list (list GCPadStatus) * ParamPackage.t,
  (forall j, j ∈ l -> default [] (s.1 !! j) = []) ->
  foldl capture_port s l = s.
Proof.
  induction l as [|i l IH]; intros s He; [reflexivity|].
  cbn [foldl]. rewrite capture_port_empty by (apply He; set_solver).
  apply IH. intros j Hj. apply He. set_solver.
Qed.

(** Every round of the loop writes binding keys only. *)
Lemma capture_pad_keys i pad params :
  only_binding_keys params -> only_binding_keys (capture_pad i pad params).1.
Proof.
  intros Hk k Hn. unfold capture_pad.
  assert (Hk' : params !! k = None) by (apply Hk; exact Hn).
  unfold binding_keys in Hn.
  repeat (apply not_elem_of_cons in Hn as [? Hn]).
  destruct (find (pressed pad) button_order);
    [|destruct (GCAdapter.axis pad); [|destruct (128 <? axis_value pad)]];
    cbn [fst]; unfold Set_int, Set_text;
    rewrite ?lookup_insert_ne by congruence; exact Hk'.
Qed.

Lemma capture_while_keys i (q : list GCPadStatus) :
  forall params, only_binding_keys params ->
  only_binding_keys (capture_while i q params).2.
Proof.
  induction q as [|pad q IH]; intros params Hk; [exact Hk|].
  cbn [capture_while].
  pose proof (capture_pad_keys i pad params Hk) as Hk'.
  destruct (capture_pad i pad params) as [params' [|]]; cbn [fst snd] in *.
  - exact Hk'.
  - by apply IH.
Qed.

Lemma capture_port_keys (s : list (list GCPadStatus) * ParamPackage.t) i :
  only_binding_keys s.2 -> only_binding_keys (capture_port s i).2.
Proof.
  intros Hk. unfold capture_port.
  destruct (s.1 !! i) as [q|]; [|exact Hk].
  pose proof (capture_while_keys i q s.2 Hk) as Hk'.
  by destruct (capture_while i q s.2).
Qed.

Lemma capture_fold_keys (l : list nat) :
  forall s : list (list GCPadStatus) * ParamPackage.t,
  only_binding_keys s.2 -> only_binding_keys (foldl capture_port s l).2.
Proof.
  induction l as [|i l IH]; intros s Hk; [exact Hk|].
  cbn [foldl]. apply IH. by apply capture_port_keys.
Qed.

Lemma find_no_match {A : Type} (f : A -> bool) (l : list A) :
  (forall y, y ∈ l -> f y = false) -> List.find f l = None.
Proof.
  induction l as [|y l IH]; intros Hl; cbn; [reflexivity|].
  rewrite (Hl y) by set_solver. apply IH. intros z Hz. apply Hl. set_solver.
Qed.

Lemma capture_pad_passed_over i pad params :
  passed_over pad ->
  capture_pad i pad params
  = (Set_int "port" (Z.of_nat i) (Set_text "engine" "gcpad" params), false).
Proof.
  intros [Hno Hax]. unfold capture_pad.
  rewrite find_no_match; cycle 1.
  { intros m Hm. unfold pressed. by rewrite (Hno m Hm). }
  by rewrite Hax.
Qed.

(** The loop of one port passes over the samples in front of the first one
    that ends it. *)
Lemma capture_while_first_hit i (pre : list GCPadStatus) pad (rest : list GCPadStatus) :
  Forall passed_over pre ->
  (forall params, (capture_pad i pad params).2 = true) ->
  forall params, only_binding_keys params ->
  exists params0,
    only_binding_keys params0 /\
    capture_while i (pre ++ pad :: rest) params
    = (rest, (capture_pad i pad params0).1).
Proof.
  intros Hpre Hbreak. induction Hpre as [|q pre Hq _ IH]; intros params Hk.
  - exists params. split; [exact Hk|]. cbn [app capture_while].
    specialize (Hbreak params).
    destruct (capture_pad i pad params) as [params' b]. cbn [snd fst] in *.
    by subst b.
  - cbn [app capture_while].
    pose proof (capture_pad_keys i q params Hk) as Hk'.
    rewrite (capture_pad_passed_over i q params Hq) in *. cbn [fst] in Hk'.
    by apply IH.
Qed.

(** When a sample of port [i] ends the loop of that port, the samples in
    front of it are passed over and no later port holds a sample, then the
    result of the call is what the body of the loop makes of that sample,
    and the samples behind it stay in the queue. *)
Lemma GetNextInput_first_hit (a : Adapter) i (pre : list GCPadStatus) pad
  (rest : list GCPadStatus) :
  (i < 4)%nat ->
  pad_queue a !! i = Some (pre ++ pad :: rest) ->
  Forall passed_over pre ->
  later_ports_empty (pad_queue a) i ->
  (forall params, (capture_pad i pad params).2 = true) ->
  exists params0,
    only_binding_keys params0 /\
    (GetNextInput a).1 = (capture_pad i pad params0).1 /\
    pad_queue (GetNextInput a).2 !! i = Some rest.
Proof.
  intros Hi Hq Hpre Hlater Hbreak. unfold GetNextInput.
  replace (seq 0 4) with (seq 0 i ++ i :: seq (S i) (3 - i)); cycle 1.
  { replace (seq 0 4) with (seq 0 (i + S (3 - i))) by (f_equal; lia).
    rewrite seq_app. reflexivity. }
  rewrite foldl_app. cbn [foldl].
  set (s0 := foldl capture_port (pad_queue a, ∅) (seq 0 i)).
  assert (Hk0 : only_binding_keys s0.2).
  { apply capture_fold_keys. intros k _. apply lookup_empty. }
  assert (Hq0 : s0.1 !! i = Some (pre ++ pad :: rest)).
  { unfold s0. rewrite capture_fold_lookup_notin; [exact Hq|].
    rewrite elem_of_seq. lia. }
  assert (Hl0 : forall j, (i < j)%nat -> s0.1 !! j = pad_queue a !! j).
  { intros j Hj. unfold s0. rewrite capture_fold_lookup_notin; [reflexivity|].
    rewrite elem_of_seq. lia. }
  destruct (capture_while_first_hit i pre pad rest Hpre Hbreak s0.2 Hk0)
    as (params0 & Hkeys & Hwhile).
  assert (Hstep : capture_port s0 i
                  = (<[i := rest]> s0.1, (capture_pad i pad params0).1)).
  { unfold capture_port. rewrite Hq0. by rewrite Hwhile. }
  rewrite Hstep.
  rewrite capture_fold_empty; cycle 1.
  { intros j Hj. apply elem_of_seq in Hj. cbn [fst].
    rewrite list_lookup_insert_ne by lia. rewrite Hl0 by lia.
    apply Hlater; lia. }
  exists params0. split; [exact Hkeys|]. split; [reflexivity|].
  cbn. apply list_lookup_insert_eq. by eapply lookup_lt_Some.
Qed.

End ButtonCapture.

Section ButtonClaims.
Import GCAdapter ParamPackage InputCommon Statements.
Import GCButtonFactory.
Context {masks : PadButton}.

Implicit Types (qs : list (list GCPadStatus)) (params : ParamPackage.t).
Implicit Types (i j : nat) (pad : GCPadStatus).

Lemma find_first_match {A : Type} (f : A -> bool) (pre : list A) (x : A) (post : list A) :
  (forall y, y ∈ pre -> f y = false) -> f x = true ->
  List.find f (pre ++ x :: post) = Some x.
Proof.
  induction pre as [|y pre IH]; intros Hpre Hx; cbn.
  - by rewrite Hx.
  - rewrite (Hpre y) by set_solver. apply IH; [|exact Hx].
    intros z Hz. apply Hpre. set_solver.
Qed.

(** The body of the loop on a sample whose first set mask, in the order of
    [button_order], is [mask]. *)
Lemma capture_pad_first_match i pad params (pre : list Z) (mask : Z) (post : list Z) :
  button_order = pre ++ mask :: post ->
  (forall m, m ∈ pre -> pressed pad m = false) ->
  pressed pad mask = true ->
  capture_pad i pad params
  = (Set_int "button" mask
       (Set_int "port" (Z.of_nat i) (Set_text "engine" "gcpad" params)), true).
Proof.
  intros Ho Hpre Hm. unfold capture_pad. rewrite Ho.
  by rewrite find_first_match.
Qed.

(** The body of the loop on a sample with none of the listed masks set and
    a defined axis. *)
Lemma capture_pad_axis i pad params (id : Z) :
  (forall m, m ∈ button_order -> Z.land (GCAdapter.button pad) m = 0) ->
  GCAdapter.axis pad = Axis id ->
  only_binding_keys params ->
  capture_pad i pad params
  = (if 128 <? axis_value pad then axis_binding i id "+" "0.5"
     else axis_binding i id "-" "-0.5", true).
Proof.
  intros Hno Hax Hk. unfold capture_pad.
  rewrite find_no_match; cycle 1.
  { intros m Hm. unfold pressed. by rewrite (Hno m Hm). }
  rewrite Hax.
  assert (Heq : forall dir th : string,
    Set_text "threshold" th
      (Set_text "direction" dir
         (Set_int "button" PAD_STICK
            (Set_int "axis" (axis_u8 id)
               (Set_int "port" (Z.of_nat i) (Set_text "engine" "gcpad" params)))))
    = axis_binding i id dir th).
  { intros dir th. apply map_eq. intros k.
    unfold Set_text, Set_int, axis_binding.
    destruct (decide (k ∈ binding_keys)) as [Hin|Hnin].
    - unfold binding_keys in Hin.
      repeat (apply elem_of_cons in Hin as [->|Hin]); try by simplify_map_eq.
      by apply elem_of_nil in Hin.
    - specialize (Hk k Hnin). unfold binding_keys in Hnin.
      repeat (apply not_elem_of_cons in Hnin as [? Hnin]).
      by simplify_map_eq. }
  destruct (128 <? axis_value pad); by rewrite Heq.
Qed.

End ButtonClaims.

Section DigitalCaptureClaims.
Import GCAdapter ParamPackage InputCommon Statements.
Import GCButtonFactory.

(** The button of the binding is the first mask, in the order of
    [button_order], that the captured sample has set. *)
Lemma first_set_mask_is_bound {masks : PadButton} (a : Adapter) (i : nat)
  (pre : list GCPadStatus) (pad : GCPadStatus) (rest : list GCPadStatus)
  (before : list Z) (mask : Z) (after : list Z) :
  (i < 4)%nat ->
  pad_queue a !! i = Some (pre ++ pad :: rest) ->
  Forall passed_over pre ->
  later_ports_empty (pad_queue a) i ->
  button_order = before ++ mask :: after ->
  (forall m, m ∈ before -> Z.land (GCAdapter.button pad) m = 0) ->
  Z.land (GCAdapter.button pad) mask <> 0 ->
  (GetNextInput a).1 !! "engine"%string = Some (PStr "gcpad") /\
  (GetNextInput a).1 !! "port"%string = Some (PInt (Z.of_nat i)) /\
  (GetNextInput a).1 !! "button"%string = Some (PInt mask) /\
  pad_queue (GetNextInput a).2 !! i = Some rest.
Proof.
  intros Hi Hq Hpre Hlater Ho Hbefore Hm.
  assert (Hbody : forall params, capture_pad i pad params
    = (Set_int "button" mask
         (Set_int "port" (Z.of_nat i) (Set_text "engine" "gcpad" params)), true)).
  { intros params.
    apply (capture_pad_first_match i pad params before mask after Ho).
    - intros m Hin. unfold pressed. by rewrite (Hbefore m Hin).
    - unfold pressed. by apply negb_true_iff, Z.eqb_neq. }
  destruct (GetNextInput_first_hit a i pre pad rest Hi Hq Hpre Hlater)
    as (params0 & _ & Hres & Hrest).
  { intros params. by rewrite Hbody. }
  rewrite Hres, Hbody. cbn [fst]. unfold Set_int, Set_text.
  repeat split; [by simplify_map_eq ..|exact Hrest].
Qed.

(** C7.  On a sample that has the bits of A and of B set, the body of the
    capture loop stores the button A and ends the loop of its port.  The
    call does not stop there: with such a sample queued on port 0 and a
    sample that has the bit of B and not that of A queued on port 1, one
    call takes both samples out of their queues and returns the binding of
    port 1, whose button is B; no binding is made for A. *)
Theorem later_port_replaces_first_listed_button {masks : PadButton}
  (both only_b : GCPadStatus) :
  Z.land (GCAdapter.button both) PAD_BUTTON_A <> 0 ->
  Z.land (GCAdapter.button both) PAD_BUTTON_B <> 0 ->
  Z.land (GCAdapter.button only_b) PAD_BUTTON_A = 0 ->
  Z.land (GCAdapter.button only_b) PAD_BUTTON_B <> 0 ->
  (forall params,
     capture_pad 0 both params
     = (Set_int "button" PAD_BUTTON_A
          (Set_int "port" 0 (Set_text "engine" "gcpad" params)), true)) /\
  GetNextInput (adapter_with [[both]; [only_b]; []; []])
  = ({[ "engine" := PStr "gcpad"; "port" := PInt 1;
        "button" := PInt PAD_BUTTON_B ]}%string,
     adapter_with [[]; []; []; []]) /\
  PAD_BUTTON_B <> PAD_BUTTON_A.
Proof.
  intros HA HB HnA HbB.
  assert (Hboth : forall params,
    capture_pad 0 both params
    = (Set_int "button" PAD_BUTTON_A
         (Set_int "port" 0 (Set_text "engine" "gcpad" params)), true)).
  { intros params.
    apply (capture_pad_first_match 0 both params [] PAD_BUTTON_A (tl button_order));
      [reflexivity | by intros m ?%elem_of_nil |].
    unfold pressed. by apply negb_true_iff, Z.eqb_neq. }
  assert (Honly : forall params,
    capture_pad 1 only_b params
    = (Set_int "button" PAD_BUTTON_B
         (Set_int "port" 1 (Set_text "engine" "gcpad" params)), true)).
  { intros params.
    apply (capture_pad_first_match 1 only_b params [PAD_BUTTON_A] PAD_BUTTON_B
             (tl (tl button_order))); [reflexivity | |].
    - intros m Hm. apply list_elem_of_singleton in Hm as ->. unfold pressed. by rewrite HnA.
    - unfold pressed. by apply negb_true_iff, Z.eqb_neq. }
  split; [exact Hboth|]. split.
  - unfold GetNextInput, adapter_with. cbn [pad_queue seq foldl].
    unfold capture_port at 4. cbn [fst snd lookup list_lookup capture_while].
    rewrite Hboth. cbn [list_insert insert].
    unfold capture_port at 3. cbn [fst snd lookup list_lookup capture_while].
    rewrite Honly.
    cbn. unfold set_pad_queue. cbn.
    apply (f_equal2 pair); [|reflexivity].
    unfold Set_int, Set_text. apply map_eq. intros k.
    destruct (decide (k = "button"%string)) as [->|Hb]; [by simplify_map_eq|].
    destruct (decide (k = "port"%string)) as [->|Hp]; [by simplify_map_eq|].
    destruct (decide (k = "engine"%string)) as [->|He]; [by simplify_map_eq|].
    by simplify_map_eq.
  - intros Heq. rewrite Heq in HbB. contradiction.
Qed.

(** With the one-bit masks A = 0x0100 and B = 0x0200: the sample 0x0300 on
    port 0 and the sample 0x0200 on port 1 give the binding of button
    0x0200 on port 1. *)
Lemma later_port_replaces_first_listed_button_witness :
  @GetNextInput example_masks
    (adapter_with [[sample 0x0300 Undefined 255]; [sample 0x0200 Undefined 255]; []; []])
  = ({[ "engine" := PStr "gcpad"; "port" := PInt 1; "button" := PInt 0x0200 ]}%string,
     adapter_with [[]; []; []; []]).
Proof.
  destruct (@later_port_replaces_first_listed_button example_masks
              (sample 0x0300 Undefined 255) (sample 0x0200 Undefined 255))
    as (_ & Hcall & _).
  - vm_compute. discriminate.
  - vm_compute. discriminate.
  - reflexivity.
  - vm_compute. discriminate.
  - exact Hcall.
Defined.

(** The same happens to an axis sample in front of it: the axis of port 0
    stays in the set that port 1 completes, and [Create] makes of that set
    an axis-as-button device, not the button A. *)
Example axis_sample_before_both_buttons :
  (@GetNextInput example_masks
     (adapter_with [[sample 0 (Axis 2) 200]; [sample 0x0300 Undefined 255]; []; []])).1
  = {[ "engine" := PStr "gcpad"; "port" := PInt 1; "button" := PInt 0x0100;
       "axis" := PInt 2; "direction" := PStr "+"; "threshold" := PStr "0.5" ]}%string /\
  (exists d,
     (@GCButtonFactory.Create typed_reader
        (@GetNextInput example_masks
           (adapter_with [[sample 0 (Axis 2) 200];
                          [sample 0x0300 Undefined 255]; []; []])).1).1
     = AxisButton d).
Proof. split; [vm_compute; reflexivity|]. eexists. vm_compute. reflexivity. Qed.

(** C3, as amended.  For a sample that has none of the listed masks set and
    a defined axis, the body of the capture loop builds the binding
    {engine, port, axis, button = PAD_STICK, direction, threshold}, where
    direction is "+" and threshold "0.5" if the raw value exceeds 128, and
    direction is "-" and threshold "-0.5" otherwise, and ends the loop.
    When the sample is queued on a port behind samples that the capture
    passes over, with no sample queued on the later ports, the call returns
    exactly that binding and leaves the samples behind it in the queue. *)
Theorem axis_fallback_binding {masks : PadButton} (i : nat) (pad : GCPadStatus)
  (id : Z) :
  (forall m, m ∈ button_order -> Z.land (GCAdapter.button pad) m = 0) ->
  GCAdapter.axis pad = Axis id ->
  (forall params,
     only_binding_keys params ->
     capture_pad i pad params
     = (if 128 <? axis_value pad then axis_binding i id "+" "0.5"
        else axis_binding i id "-" "-0.5", true)) /\
  (forall (a : Adapter) (pre rest : list GCPadStatus),
     (i < 4)%nat ->
     pad_queue a !! i = Some (pre ++ pad :: rest) ->
     Forall passed_over pre ->
     later_ports_empty (pad_queue a) i ->
     (GetNextInput a).1
     = (if 128 <? axis_value pad then axis_binding i id "+" "0.5"
        else axis_binding i id "-" "-0.5") /\
     pad_queue (GetNextInput a).2 !! i = Some rest).
Proof.
  intros Hno Hax. split.
  - intros params Hk. by apply capture_pad_axis.
  - intros a pre rest Hi Hq Hpre Hlater.
    destruct (GetNextInput_first_hit a i pre pad rest Hi Hq Hpre Hlater)
      as (params0 & Hk0 & Hres & Hrest).
    { intros params. unfold capture_pad.
      rewrite find_no_match; cycle 1.
      { intros m Hm. unfold pressed. by rewrite (Hno m Hm). }
      rewrite Hax. by destruct (128 <? axis_value pad). }
    split; [|exact Hrest].
    rewrite Hres. by rewrite (capture_pad_axis i pad params0 id Hno Hax Hk0).
Qed.

(** The sample {buttons = 0, axis = 2, axis_value = 200} on port 0. *)
Lemma axis_fallback_binding_witness :
  (@GetNextInput example_masks
     (adapter_with [[sample 0 (Axis 2) 200]; []; []; []])).1
  = @axis_binding example_masks 0 2 "+" "0.5".
Proof.
  destruct (@axis_fallback_binding example_masks 0%nat (sample 0 (Axis 2) 200) 2)
    as [_ Hcall].
  - intros m _. reflexivity.
  - reflexivity.
  - destruct (Hcall (adapter_with [[sample 0 (Axis 2) 200]; []; []; []]) [] [])
      as [Hb _].
    + lia.
    + reflexivity.
    + constructor.
    + intros j H0 H4. destruct j as [|[|[|[|j]]]]; try lia; reflexivity.
    + exact Hb.
Defined.

(** The threshold text is not "0.5" in both directions: the sample
    {buttons = 0, axis = 2, axis_value = 50} on port 0 is bound with the
    threshold "-0.5". *)
Lemma axis_fallback_threshold_counterexample :
  (@GetNextInput example_masks
     (adapter_with [[sample 0 (Axis 2) 50]; []; []; []])).1 !! "threshold"%string
  = Some (PStr "-0.5") /\
  (@GetNextInput example_masks
     (adapter_with [[sample 0 (Axis 2) 50]; []; []; []])).1
  <> @axis_binding example_masks 0 2 "-" "0.5".
Proof.
  assert (H : (@GetNextInput example_masks
     (adapter_with [[sample 0 (Axis 2) 50]; []; []; []])).1 !! "threshold"%string
     = Some (PStr "-0.5")) by (vm_compute; reflexivity).
  split; [exact H|].
  intros Heq. rewrite Heq in H. vm_compute in H. discriminate H.
Qed.

(** C2.  With one sample queued on port 0 and one on port 1, a single call
    takes both samples out of their queues and returns one parameter set,
    that of the sample of port 1; the sample of port 0 is gone and is bound
    nowhere. *)
Theorem capture_consumes_a_sample_on_every_port {masks : PadButton} :
  GetNextInput
    (adapter_with [[sample 0 (Axis 2) 200]; [sample 0 (Axis 3) 50]; []; []])
  = (axis_binding 1 3 "-" "-0.5", adapter_with [[]; []; []; []]).
Proof. vm_compute. reflexivity. Qed.

(** With an axis sample on port 0 and a sample of button A on port 1, the
    returned set is that of neither sample: port and button come from port
    1, axis, direction and threshold from port 0. *)
Example capture_mixes_two_samples :
  (@GetNextInput example_masks
     (adapter_with [[sample 0 (Axis 2) 200]; [sample 0x0100 Undefined 255]; []; []])).1
  = {[ "engine" := PStr "gcpad"; "port" := PInt 1; "button" := PInt 0x0100;
       "axis" := PInt 2; "direction" := PStr "+"; "threshold" := PStr "0.5" ]}%string.
Proof. vm_compute. reflexivity. Qed.

End DigitalCaptureClaims.

(* ===================================================================== *)
(** * Properties of the analog capture                                   *)
(* ===================================================================== *)

Section Bytes.
Import Statements.

Lemma Qltb_lt (a b : Q) : Qltb a b = true <-> (a < b)%Q.
Proof. unfold Qltb, Qlt. apply Z.ltb_lt. Qed.

Lemma Qltb_nlt (a b : Q) : Qltb a b = false <-> ~ (a < b)%Q.
Proof. rewrite <- Qltb_lt. by destruct (Qltb a b). Qed.

Lemma byte_enum (P : Z -> bool) :
  forallb P all_bytes = true -> forall v : Z, 0 <= v <= 255 -> P v = true.
Proof.
  intros Hall v Hv. rewrite forallb_forall in Hall. apply Hall.
  unfold all_bytes. rewrite <- (Z2Nat.id v) by lia.
  apply in_map, in_seq. lia.
Qed.

End Bytes.

Section AnalogCapture.
Import GCAdapter ParamPackage InputCommon Statements.
Import GCAnalogFactory.

Implicit Types (qs : list (list GCPadStatus)) (f : GCAnalogFactory.t).
Implicit Types (i j : nat) (pad : GCPadStatus).

(** On a byte the dead-zone test of the capture, made in floating point,
    decides [|raw - 128| / 128 < 0.1]. *)
Lemma in_deadzone_byte (v : Z) :
  0 <= v <= 255 ->
  in_deadzone v = true <-> (Qabs (deviation v) < 1 # 10)%Q.
Proof.
  intros Hv. rewrite <- Qltb_lt.
  pose proof (byte_enum
    (fun v => Bool.eqb (in_deadzone v) (Qltb (Qabs (deviation v)) (1 # 10)))
    ltac:(vm_compute; reflexivity) v Hv) as H.
  apply Bool.eqb_prop in H. by rewrite H.
Qed.

Lemma axis_u8_range (id : Z) : 0 <= axis_u8 id < 256.
Proof. unfold axis_u8. apply Z.mod_pos_bound. lia. Qed.

Lemma pair_pad_undefined i pad f :
  GCAdapter.axis pad = Undefined -> pair_pad i pad f = f.
Proof. intros H. unfold pair_pad. by rewrite H. Qed.

Lemma pair_pad_in_deadzone i pad f :
  in_deadzone (axis_value pad) = true -> pair_pad i pad f = f.
Proof.
  intros H. unfold pair_pad. destruct (GCAdapter.axis pad); [done|]. by rewrite H.
Qed.

Lemma pair_pad_first i pad id f :
  passes pad id -> analog_x_axis f = -1 ->
  pair_pad i pad f
  = {| polling := polling f; analog_x_axis := axis_u8 id;
       analog_y_axis := analog_y_axis f; controller_number := Z.of_nat i |}.
Proof.
  intros [Hax Hdz] Hx. unfold pair_pad. rewrite Hax, Hdz, Hx. reflexivity.
Qed.

Lemma pair_pad_second i pad id f :
  passes pad id -> analog_x_axis f <> -1 -> analog_y_axis f = -1 ->
  axis_u8 id <> analog_x_axis f -> controller_number f = Z.of_nat i ->
  pair_pad i pad f
  = {| polling := polling f; analog_x_axis := analog_x_axis f;
       analog_y_axis := axis_u8 id; controller_number := controller_number f |}.
Proof.
  intros [Hax Hdz] Hx Hy Hne Hc. unfold pair_pad. rewrite Hax, Hdz.
  apply Z.eqb_neq in Hx. rewrite Hx, Hy, Hc, Z.eqb_refl. cbn.
  assert (Hn : (analog_x_axis f =? axis_u8 id) = false) by (apply Z.eqb_neq; congruence).
  rewrite Hn. cbn. rewrite Z.eqb_refl. reflexivity.
Qed.

Lemma pair_pad_other_port i pad f :
  analog_x_axis f <> -1 -> controller_number f <> Z.of_nat i ->
  pair_pad i pad f = f.
Proof.
  intros Hx Hc. unfold pair_pad.
  destruct (GCAdapter.axis pad); [done|].
  destruct (in_deadzone _); [done|].
  apply Z.eqb_neq in Hx, Hc. rewrite Hx, Hc.
  by rewrite andb_false_r.
Qed.

Lemma pair_pad_same_axis i pad id f :
  GCAdapter.axis pad = Axis id ->
  analog_x_axis f <> -1 -> axis_u8 id = analog_x_axis f ->
  pair_pad i pad f = f.
Proof.
  intros Hax Hx He. unfold pair_pad. rewrite Hax.
  destruct (in_deadzone _); [done|].
  apply Z.eqb_neq in Hx. rewrite Hx, He, Z.eqb_refl.
  by rewrite andb_false_r.
Qed.

(** A complete pair is not touched by the samples that follow it. *)
Lemma pair_pad_complete i pad f :
  analog_x_axis f <> -1 -> analog_y_axis f <> -1 -> pair_pad i pad f = f.
Proof.
  intros Hx Hy. unfold pair_pad.
  destruct (GCAdapter.axis pad); [done|].
  destruct (in_deadzone _); [done|].
  apply Z.eqb_neq in Hx, Hy. by rewrite Hx, Hy.
Qed.

Lemma pair_all_complete (samples : list (nat * GCPadStatus)) f :
  analog_x_axis f <> -1 -> analog_y_axis f <> -1 -> pair_all samples f = f.
Proof.
  intros Hx Hy. induction samples as [|s samples IH]; [reflexivity|].
  unfold pair_all in *. cbn [foldl]. by rewrite pair_pad_complete.
Qed.

Lemma pair_all_app (l1 l2 : list (nat * GCPadStatus)) f :
  pair_all (l1 ++ l2) f = pair_all l2 (pair_all l1 f).
Proof. unfold pair_all. apply foldl_app. Qed.

Lemma pair_while_pair_all i (q : list GCPadStatus) :
  forall f, pair_while i q f = pair_all (map (pair i) q) f.
Proof.
  induction q as [|pad q IH]; intros f; [reflexivity|].
  cbn [pair_while map]. rewrite IH. reflexivity.
Qed.

(** The round of one port is the loop [while (queue[i].Pop(pad)) { ... }]. *)
Lemma pair_port_Pop qs f i :
  pair_port (qs, f) i
  = match Pop qs i with
    | None => (qs, f)
    | Some (pad, qs') => pair_port (qs', pair_pad i pad f) i
    end.
Proof.
  unfold pair_port, Pop. cbn [fst snd].
  destruct (qs !! i) as [[|pad rest]|] eqn:Hq; cbn [pair_while].
  - by rewrite list_insert_id.
  - rewrite list_lookup_insert_eq by (by eapply lookup_lt_Some).
    by rewrite list_insert_insert_eq.
  - reflexivity.
Qed.

Lemma pair_port_spec (s : list (list GCPadStatus) * GCAnalogFactory.t) i :
  pair_port s i
  = (Clear s.1 i, pair_all (map (pair i) (default [] (s.1 !! i))) s.2).
Proof.
  unfold pair_port, Clear. destruct s as [qs f]. cbn [fst snd].
  destruct (qs !! i) as [q|] eqn:Hq; cbn [default].
  - by rewrite pair_while_pair_all.
  - rewrite list_insert_ge; [reflexivity|]. by apply lookup_ge_None.
Qed.

Lemma dequeued_Clear qs i (l : list nat) :
  i ∉ l -> dequeued (Clear qs i) l = dequeued qs l.
Proof.
  intros Hi. unfold dequeued. induction l as [|j l IH]; [reflexivity|].
  cbn [flat_map]. rewrite IH by set_solver.
  unfold Clear. rewrite list_lookup_insert_ne by set_solver. reflexivity.
Qed.

Lemma pair_fold_spec (l : list nat) :
  NoDup l ->
  forall qs f,
  foldl pair_port (qs, f) l = (foldl Clear qs l, pair_all (dequeued qs l) f).
Proof.
  induction 1 as [|i l Hi Hnd IH]; intros qs f; [reflexivity|].
  cbn [foldl]. rewrite pair_port_spec. cbn [fst snd].
  rewrite IH. rewrite dequeued_Clear by exact Hi.
  unfold dequeued at 2. cbn [flat_map]. by rewrite pair_all_app.
Qed.

(** A call of the analog capture hands every queued sample, port after
    port, to the body of the loop, then emits; all queues end empty. *)
Lemma analog_GetNextInput_spec f (a : Adapter) :
  GetNextInput f a
  = ((emit (pair_all (dequeued (pad_queue a) (seq 0 4)) f)).1,
     (emit (pair_all (dequeued (pad_queue a) (seq 0 4)) f)).2,
     set_pad_queue (clear_queues (pad_queue a)) a).
Proof.
  unfold GetNextInput. rewrite pair_fold_spec by apply NoDup_seq.
  by destruct (emit _).
Qed.

Lemma emit_pair f :
  analog_x_axis f <> -1 -> analog_y_axis f <> -1 ->
  emit f
  = (analog_binding (controller_number f) (analog_x_axis f) (analog_y_axis f),
     {| polling := polling f; analog_x_axis := -1; analog_y_axis := -1;
        controller_number := -1 |}).
Proof.
  intros Hx Hy. unfold emit.
  apply Z.eqb_neq in Hx, Hy. rewrite Hx, Hy. cbn [negb andb].
  apply (f_equal2 pair); [|reflexivity].
  unfold analog_binding, Set_int, Set_text.
  apply map_eq. intros k.
  destruct (decide (k = "axis_y"%string)) as [->|]; [by simplify_map_eq|].
  destruct (decide (k = "axis_x"%string)) as [->|]; [by simplify_map_eq|].
  destruct (decide (k = "port"%string)) as [->|]; [by simplify_map_eq|].
  destruct (decide (k = "engine"%string)) as [->|]; by simplify_map_eq.
Qed.

Lemma emit_nothing f :
  analog_x_axis f = -1 \/ analog_y_axis f = -1 -> emit f = (∅, f).
Proof.
  intros H. unfold emit.
  destruct H as [H|H]; rewrite H; cbn; by rewrite ?andb_false_r.
Qed.

End AnalogCapture.

Section AnalogClaims.
Import GCAdapter ParamPackage InputCommon Statements.
Import GCAnalogFactory.

Implicit Types (qs : list (list GCPadStatus)) (f : GCAnalogFactory.t).
Implicit Types (i j : nat) (pad : GCPadStatus).

Lemma pair_pad_polling i pad f : polling (pair_pad i pad f) = polling f.
Proof.
  unfold pair_pad. destruct (GCAdapter.axis pad); [done|].
  destruct (in_deadzone _); [done|].
  destruct (analog_x_axis f =? -1); [done|].
  by destruct (_ && _).
Qed.

Lemma pair_all_polling (samples : list (nat * GCPadStatus)) :
  forall f, polling (pair_all samples f) = polling f.
Proof.
  induction samples as [|s samples IH]; intros f; [reflexivity|].
  unfold pair_all in *. cbn [foldl]. by rewrite IH, pair_pad_polling.
Qed.

Lemma pair_pad_pending_ok i pad f : pending_ok f -> pending_ok (pair_pad i pad f).
Proof.
  unfold pending_ok, pair_pad. intros HJ.
  destruct (GCAdapter.axis pad) as [|id]; [done|].
  destruct (in_deadzone _); [done|].
  destruct (Z.eqb_spec (analog_x_axis f) (-1)) as [Hx|Hx]; cbn.
  - left. destruct HJ as [Hy|[Hx' _]]; [exact Hy|contradiction].
  - destruct (Z.eqb_spec (analog_y_axis f) (-1)) as [Hy|Hy]; cbn; [|done].
    destruct (Z.eqb_spec (analog_x_axis f) (axis_u8 id)) as [He|He]; cbn; [done|].
    destruct (controller_number f =? Z.of_nat i); cbn; [|done].
    right. done.
Qed.

Lemma pair_all_pending_ok (samples : list (nat * GCPadStatus)) :
  forall f, pending_ok f -> pending_ok (pair_all samples f).
Proof.
  induction samples as [|s samples IH]; intros f HJ; [exact HJ|].
  unfold pair_all in *. cbn [foldl]. by apply IH, pair_pad_pending_ok.
Qed.

Lemma emit_unset_y f : pending_ok f -> analog_y_axis (emit f).2 = -1.
Proof.
  unfold pending_ok, emit. intros HJ.
  destruct (Z.eqb_spec (analog_x_axis f) (-1)) as [Hx|Hx]; cbn.
  - destruct HJ as [Hy|[Hx' _]]; [exact Hy|contradiction].
  - destruct (Z.eqb_spec (analog_y_axis f) (-1)) as [Hy|Hy]; cbn; done.
Qed.

(** Between two calls no second axis is set. *)
Lemma reachable_unset_y f : reachable f -> analog_y_axis f = -1.
Proof.
  induction 1 as [|f a _ IH|f a _ IH|f a _ IH]; [reflexivity|exact IH|exact IH|].
  rewrite analog_GetNextInput_spec. cbn [fst snd].
  apply emit_unset_y, pair_all_pending_ok. by left.
Qed.

End AnalogClaims.

Section AnalogClaimTheorems.
Import GCAdapter ParamPackage InputCommon Statements.
Import GCAnalogFactory.

Implicit Types (qs : list (list GCPadStatus)) (f : GCAnalogFactory.t).
Implicit Types (i j : nat) (pad : GCPadStatus).

(** C5.  In an analog capture every dequeued sample goes through the body
    of the loop, in the order of dequeuing.  A sample with no defined axis,
    or whose deviation |raw - 128| / 128 is below 0.1, leaves the state as
    it is.  The first sample that passes is recorded as the pending axis
    and port.  A later passing sample of the pending port whose axis
    differs from the pending axis completes the pair: the call that
    dequeues it returns {engine, port, axis_x = pending axis, axis_y = new
    axis} and clears the pending state.  A passing sample from another port
    leaves the pending state as it is. *)
Theorem analog_pairing_rule :
  (forall v, 0 <= v <= 255 ->
     in_deadzone v = true <-> (Qabs (deviation v) < 1 # 10)%Q) /\
  (forall f a,
     GetNextInput f a
     = ((emit (pair_all (dequeued (pad_queue a) (seq 0 4)) f)).1,
        (emit (pair_all (dequeued (pad_queue a) (seq 0 4)) f)).2,
        set_pad_queue (clear_queues (pad_queue a)) a)) /\
  (forall i pad f,
     GCAdapter.axis pad = Undefined \/ in_deadzone (axis_value pad) = true ->
     pair_pad i pad f = f) /\
  (forall i pad id f,
     passes pad id -> analog_x_axis f = -1 ->
     pair_pad i pad f
     = {| polling := polling f; analog_x_axis := axis_u8 id;
          analog_y_axis := analog_y_axis f;
          controller_number := Z.of_nat i |}) /\
  (forall f0 a pre i pad post id,
     dequeued (pad_queue a) (seq 0 4) = pre ++ (i, pad) :: post ->
     passes pad id ->
     analog_x_axis (pair_all pre f0) <> -1 ->
     analog_y_axis (pair_all pre f0) = -1 ->
     axis_u8 id <> analog_x_axis (pair_all pre f0) ->
     controller_number (pair_all pre f0) = Z.of_nat i ->
     GetNextInput f0 a
     = (analog_binding (Z.of_nat i) (analog_x_axis (pair_all pre f0)) (axis_u8 id),
        {| polling := polling f0; analog_x_axis := -1; analog_y_axis := -1;
           controller_number := -1 |},
        set_pad_queue (clear_queues (pad_queue a)) a)) /\
  (forall i pad f,
     analog_x_axis f <> -1 -> controller_number f <> Z.of_nat i ->
     pair_pad i pad f = f).
Proof.
  split; [exact in_deadzone_byte|].
  split; [exact analog_GetNextInput_spec|].
  split.
  { intros i pad f [H|H];
      [by apply pair_pad_undefined | by apply pair_pad_in_deadzone]. }
  split; [exact pair_pad_first|].
  split; [|exact pair_pad_other_port].
  intros f0 a pre i pad post id Hdq Hpass Hx Hy Hne Hc.
  rewrite analog_GetNextInput_spec, Hdq.
  rewrite pair_all_app.
  change (pair_all ((i, pad) :: post) (pair_all pre f0))
    with (pair_all post (pair_pad i pad (pair_all pre f0))).
  rewrite (pair_pad_second i pad id _ Hpass Hx Hy Hne Hc).
  pose proof (axis_u8_range id) as Hr.
  rewrite pair_all_complete by (cbn; lia).
  rewrite emit_pair by (cbn; lia). cbn [fst snd analog_x_axis analog_y_axis
    controller_number polling].
  by rewrite Hc, pair_all_polling.
Qed.

(** The pairing example of the spec: after {axis = 0, value = 200} on port
    1 was recorded by a first call, {axis = 1, value = 50} on port 1 makes
    the second call return {port = 1, axis_x = 0, axis_y = 1}. *)
Lemma analog_pairing_rule_witness :
  GetNextInput
    (GetNextInput initial (adapter_with [[]; [sample 0 (Axis 0) 200]; []; []])).1.2
    (adapter_with [[]; [sample 0 (Axis 1) 50]; []; []])
  = (analog_binding 1 0 1, initial, adapter_with [[]; []; []; []]).
Proof.
  destruct analog_pairing_rule as (_ & _ & _ & _ & Hpair & _).
  rewrite (Hpair
    (GetNextInput initial (adapter_with [[]; [sample 0 (Axis 0) 200]; []; []])).1.2
    (adapter_with [[]; [sample 0 (Axis 1) 50]; []; []])
    [] 1%nat (sample 0 (Axis 1) 50) [] 1).
  - reflexivity.
  - reflexivity.
  - split; vm_compute; reflexivity.
  - vm_compute. discriminate.
  - vm_compute. reflexivity.
  - vm_compute. discriminate.
  - vm_compute. reflexivity.
Defined.

(** The same two samples with {axis = 2, value = 200} of port 0 arriving
    between them: the sample of port 0 is dropped, the pending axis of
    port 1 stays, and the pair is completed as before. *)
Example analog_pairing_with_other_port :
  let f1 := (GetNextInput initial
               (adapter_with [[]; [sample 0 (Axis 0) 200]; []; []])).1.2 in
  let r2 := GetNextInput f1 (adapter_with [[sample 0 (Axis 2) 200]; []; []; []]) in
  let r3 := GetNextInput r2.1.2 (adapter_with [[]; [sample 0 (Axis 1) 50]; []; []]) in
  r2.1.1 = ∅ /\ r2.1.2 = f1 /\ r3.1.1 = analog_binding 1 0 1.
Proof. vm_compute. repeat split; reflexivity. Qed.

(** C10.  A passing sample of the pending port that reports the pending
    axis again leaves the state as it is, and the two axes of an emitted
    analog binding differ, in every state the factory reaches. *)
Theorem analog_binding_axes_differ :
  (forall i pad id f,
     passes pad id -> analog_x_axis f <> -1 ->
     controller_number f = Z.of_nat i -> axis_u8 id = analog_x_axis f ->
     pair_pad i pad f = f) /\
  (forall f a x y,
     reachable f ->
     (GetNextInput f a).1.1 !! "axis_x"%string = Some (PInt x) ->
     (GetNextInput f a).1.1 !! "axis_y"%string = Some (PInt y) ->
     x <> y).
Proof.
  split.
  { intros i pad id f [Hax _] Hx _ He. by apply (pair_pad_same_axis i pad id). }
  intros f a x y Hreach. rewrite analog_GetNextInput_spec. cbn [fst].
  set (f' := pair_all (dequeued (pad_queue a) (seq 0 4)) f).
  assert (HJ : pending_ok f').
  { apply pair_all_pending_ok. left. by apply reachable_unset_y. }
  destruct (decide (analog_x_axis f' = -1 \/ analog_y_axis f' = -1)) as [Hn|Hb].
  - rewrite emit_nothing by exact Hn. cbn [fst]. by rewrite lookup_empty.
  - assert (Hx : analog_x_axis f' <> -1) by tauto.
    assert (Hy : analog_y_axis f' <> -1) by tauto.
    rewrite emit_pair by assumption. cbn [fst]. unfold analog_binding.
    intros H1 H2. simplify_map_eq.
    destruct HJ as [HJ|[_ HJ]]; congruence.
Qed.

(** A pending axis 0 on port 1 and the sample {axis = 0, value = 200} of
    port 1: nothing changes. *)
Lemma analog_binding_axes_differ_witness :
  pair_pad 1 (sample 0 (Axis 0) 200)
    {| polling := true; analog_x_axis := 0; analog_y_axis := -1;
       controller_number := 1 |}
  = {| polling := true; analog_x_axis := 0; analog_y_axis := -1;
       controller_number := 1 |}.
Proof.
  destruct analog_binding_axes_differ as [Hsame _].
  apply (Hsame 1%nat (sample 0 (Axis 0) 200) 0).
  - split; vm_compute; reflexivity.
  - cbn. discriminate.
  - reflexivity.
  - reflexivity.
Defined.

(** C8.  [BeginConfiguration] and [EndConfiguration] of the analog factory
    empty the four queues and switch the capture mode of the producer on
    and off; the pending axes and the pending port are what they were, so a
    pending axis of a session that ended is still pending in the next. *)
Theorem configuration_keeps_pending_axis (f : GCAnalogFactory.t) (a : Adapter) :
  (analog_x_axis (BeginConfiguration f a).1 = analog_x_axis f /\
   analog_y_axis (BeginConfiguration f a).1 = analog_y_axis f /\
   controller_number (BeginConfiguration f a).1 = controller_number f /\
   polling (BeginConfiguration f a).1 = true /\
   configuring (BeginConfiguration f a).2 = true /\
   pad_queue (BeginConfiguration f a).2 = clear_queues (pad_queue a)) /\
  (analog_x_axis (EndConfiguration f a).1 = analog_x_axis f /\
   analog_y_axis (EndConfiguration f a).1 = analog_y_axis f /\
   controller_number (EndConfiguration f a).1 = controller_number f /\
   polling (EndConfiguration f a).1 = false /\
   configuring (EndConfiguration f a).2 = false /\
   pad_queue (EndConfiguration f a).2 = clear_queues (pad_queue a)) /\
  (forall i q, (i < 4)%nat -> pad_queue a !! i = Some q ->
     clear_queues (pad_queue a) !! i = Some []) /\
  length (clear_queues (pad_queue a)) = length (pad_queue a) /\
  (forall a',
     analog_x_axis (BeginConfiguration (EndConfiguration f a).1 a').1
       = analog_x_axis f /\
     analog_y_axis (BeginConfiguration (EndConfiguration f a).1 a').1
       = analog_y_axis f /\
     controller_number (BeginConfiguration (EndConfiguration f a).1 a').1
       = controller_number f).
Proof.
  repeat split; try reflexivity.
  - intros i q Hi Hq. unfold clear_queues, Clear. cbn [foldl seq].
    apply lookup_lt_Some in Hq.
    destruct i as [|[|[|[|i]]]]; try lia;
      rewrite ?list_lookup_insert_ne by lia;
      apply list_lookup_insert_eq; by rewrite ?length_insert.
  - unfold clear_queues, Clear. cbn [foldl seq]. by rewrite !length_insert.
Qed.

(** A pending axis 0 of port 1 and one queued sample: after
    [BeginConfiguration] the queue of port 0 is empty and the axis is still
    pending. *)
Lemma configuration_keeps_pending_axis_witness :
  analog_x_axis
    (BeginConfiguration
       {| polling := false; analog_x_axis := 0;
          analog_y_axis := -1;
          controller_number := 1 |}
       (adapter_with [[sample 0 (Axis 1) 200]; []; []; []])).1 = 0 /\
  clear_queues [[sample 0 (Axis 1) 200]; []; []; []] !! 0%nat
  = Some [].
Proof.
  destruct (configuration_keeps_pending_axis
       {| polling := false; analog_x_axis := 0;
          analog_y_axis := -1;
          controller_number := 1 |}
       (adapter_with [[sample 0 (Axis 1) 200]; []; []; []]))
    as ((Hx & _) & _ & Hclear & _).
  split; [exact Hx|].
  apply (Hclear 0%nat [sample 0 (Axis 1) 200]); [lia|reflexivity].
Defined.

(** A first session records axis 0 of port 1 and ends; in the next session
    axis 1 of port 1 completes a pair with the axis of the first one. *)
Example pending_axis_leaks_into_next_session :
  let a0 := adapter_with [[]; []; []; []] in
  let s1 := BeginConfiguration initial a0 in
  let r1 := GetNextInput s1.1 (adapter_with [[]; [sample 0 (Axis 0) 200]; []; []]) in
  let e1 := EndConfiguration r1.1.2 r1.2 in
  let s2 := BeginConfiguration e1.1 e1.2 in
  let r2 := GetNextInput s2.1 (adapter_with [[]; [sample 0 (Axis 1) 50]; []; []]) in
  r1.1.1 = ∅ /\ r2.1.1 = analog_binding 1 0 1.
Proof. vm_compute. split; reflexivity. Qed.

End AnalogClaimTheorems.

(* ===================================================================== *)
(** * Properties of the devices and of their construction                *)
(* ===================================================================== *)

Section FloatOrder.

(** Comparing the other way round swaps the outcome. *)
Lemma SFcompare_swap (x y : spec_float) :
  SFcompare y x = CompOpp <$> SFcompare x y.
Proof.
  destruct x as [sx|sx| |sx mx ex], y as [sy|sy| |sy my ey];
    try reflexivity;
    try (destruct sx; reflexivity);
    try (destruct sy; reflexivity);
    try (destruct sx, sy; reflexivity).
  cbn. destruct sx, sy; cbn; try reflexivity;
    rewrite (Z.compare_antisym ex ey);
    destruct (ex ?= ey)%Z; cbn; try reflexivity;
    rewrite (Pos.compare_cont_antisym mx my Eq); cbn;
    by rewrite ?CompOpp_involutive.
Qed.

(** On numbers, "not less" is "greater or equal". *)
Lemma SFleb_of_not_ltb (x y : spec_float) :
  SFcompare x y <> None -> SFltb y x = false -> SFleb x y = true.
Proof.
  unfold SFltb, SFleb. rewrite (SFcompare_swap x y).
  destruct (SFcompare x y) as [[]|]; cbn; congruence.
Qed.

Lemma clamp_bounds (v lo hi : Float32.float) :
  Float32.ltb hi lo = false -> Float32.ltb lo lo = false ->
  Float32.ltb hi hi = false ->
  Float32.ltb (Float32.clamp v lo hi) lo = false /\
  Float32.ltb hi (Float32.clamp v lo hi) = false.
Proof.
  intros Hhl Hll Hhh. unfold Float32.clamp.
  destruct (Float32.ltb v lo) eqn:H1; [done|].
  destruct (Float32.ltb hi v) eqn:H2; done.
Qed.

Lemma SFltb_numbers (x y : spec_float) :
  SFltb x y = true -> Float32.is_nan x = false /\ Float32.is_nan y = false.
Proof. destruct x, y; cbn; done. Qed.

(** [std::clamp] returns a NaN for a NaN, and for nothing else. *)
Lemma clamp_nan (v lo hi : Float32.float) :
  Float32.is_nan lo = false -> Float32.is_nan hi = false ->
  Float32.is_nan (Float32.clamp v lo hi) = Float32.is_nan v.
Proof.
  intros Hlo Hhi. unfold Float32.clamp, Float32.ltb.
  destruct (SFltb v lo) eqn:H1.
  { apply SFltb_numbers in H1 as [-> _]. exact Hlo. }
  destruct (SFltb hi v) eqn:H2; [|reflexivity].
  apply SFltb_numbers in H2 as [_ ->]. exact Hhi.
Qed.

Lemma SFcompare_number (x y : spec_float) :
  Float32.is_nan x = false -> Float32.is_nan y = false -> SFcompare x y <> None.
Proof. destruct x, y; cbn; congruence. Qed.

End FloatOrder.

Section DeviceClaims.
Import GCAdapter ParamPackage InputCommon Statements.

(** C4.  For a raw axis byte the axis-as-button device computes the value
    (raw - 128) / 128 without rounding and returns true exactly when that
    value is above 0.10 (device built for "+") or below -0.10 (device built
    for "-"); the stored threshold takes no part in the result. *)
Theorem axis_button_fixed_threshold (d : GCAxisButton.t) (a : Adapter) (raw : Z) :
  axes_at a (GCAxisButton.port d) (GCAxisButton.axis d) = Some raw ->
  0 <= raw <= 255 ->
  Float32.represents (GCAxisButton.axis_value_of raw) (deviation raw) /\
  (exists b, GCAxisButton.GetStatus d a = Some b /\
     (b = true <->
      if GCAxisButton.trigger_if_greater d
      then (1 # 10 < deviation raw)%Q
      else (deviation raw < - (1 # 10))%Q)) /\
  (forall th : Float32.float,
     GCAxisButton.GetStatus
       {| GCAxisButton.port := GCAxisButton.port d;
          GCAxisButton.axis := GCAxisButton.axis d;
          GCAxisButton.threshold := th;
          GCAxisButton.trigger_if_greater := GCAxisButton.trigger_if_greater d |} a
     = GCAxisButton.GetStatus d a).
Proof.
  intros Hraw Hbyte.
  pose proof (byte_enum
    (fun v =>
       match Float32.to_Q (GCAxisButton.axis_value_of v) with
       | Some q => Qeq_bool q (deviation v)
       | None => false
       end
       && Bool.eqb (Float32.gtb (GCAxisButton.axis_value_of v) (Float32.lit (1 # 10)))
                   (Qltb (1 # 10) (deviation v))
       && Bool.eqb (Float32.ltb (GCAxisButton.axis_value_of v)
                                (Float32.neg (Float32.lit (1 # 10))))
                   (Qltb (deviation v) (- (1 # 10))))
    ltac:(vm_compute; reflexivity) raw Hbyte) as H.
  apply andb_prop in H as [H Hlt]. apply andb_prop in H as [Hq Hgt].
  apply Bool.eqb_prop in Hgt, Hlt.
  split; [|split].
  - unfold Float32.represents.
    destruct (Float32.to_Q _) as [q|]; [|discriminate].
    by apply Qeq_bool_iff.
  - unfold GCAxisButton.GetStatus. rewrite Hraw. cbn [mbind option_bind].
    destruct (GCAxisButton.trigger_if_greater d).
    + eexists. split; [reflexivity|]. rewrite Hgt. apply Qltb_lt.
    + eexists. split; [reflexivity|]. rewrite Hlt. apply Qltb_lt.
  - intros th. reflexivity.
Qed.

(** The raw value 200 read by a device built for "+": the status is true,
    whatever threshold the device stores. *)
Lemma axis_button_fixed_threshold_witness :
  GCAxisButton.GetStatus (example_axis_button (Float32.lit (5 # 10)) true)
    (adapter_in_state 200 128)
  = Some true.
Proof.
  destruct (axis_button_fixed_threshold
              (example_axis_button (Float32.lit (5 # 10)) true)
              (adapter_in_state 200 128) 200)
    as (_ & (b & Hb & Hiff) & _).
  - reflexivity.
  - lia.
  - rewrite Hb. f_equal. apply Hiff. reflexivity.
Defined.

End DeviceClaims.

Section CreateClaims.
Import GCAdapter ParamPackage InputCommon Statements.
Context {reader : ParamReader}.

(** C9, as amended.  [Create] is a total function: it returns a device for
    every parameter set.  An axis-as-button device takes its port, axis
    and threshold from the set; the direction "+" makes it trigger above,
    "-" below, without a log entry, and any other text makes it trigger
    above and logs the text.  Without an axis the device is a button with
    the stored port and button.  An analog device takes its port and axes
    from the set, and its dead zone is the stored value [v] brought between
    0 and 0.99f by [std::clamp]: 0 when v < 0, 0.99f when 0.99f < v, and
    [v] itself otherwise; so it lies between 0 and 0.99f for every [v]
    that is a number, and it is a NaN when [v] is one.  A key that is
    missing reads as the default, a stored value that the reader converts
    reads as that value; the defaults are port 0, threshold 0.5, dead zone
    0, x axis 0 and y axis 1. *)
Theorem create_recovers_with_defaults (params : ParamPackage.t) :
  (Has params "axis" = true ->
   exists d,
     (GCButtonFactory.Create params).1 = AxisButton d /\
     GCAxisButton.port d = Get_int params "port" 0 /\
     GCAxisButton.axis d = Get_int params "axis" 0 /\
     GCAxisButton.threshold d = Get_float params "threshold" (Float32.lit (5 # 10)) /\
     (Get_text params "direction" "" = "+"%string ->
      GCAxisButton.trigger_if_greater d = true /\
      (GCButtonFactory.Create params).2 = []) /\
     (Get_text params "direction" "" = "-"%string ->
      GCAxisButton.trigger_if_greater d = false /\
      (GCButtonFactory.Create params).2 = []) /\
     (Get_text params "direction" "" <> "+"%string ->
      Get_text params "direction" "" <> "-"%string ->
      GCAxisButton.trigger_if_greater d = true /\
      (GCButtonFactory.Create params).2
      = [LOG_ERROR "Input" ("Unknown direction " ++ Get_text params "direction" "")])) /\
  (Has params "axis" = false ->
   GCButtonFactory.Create params
   = (Button {| GCButton.port := Get_int params "port" 0;
                GCButton.button := Get_int params "button" 0 |}, [])) /\
  (GCAnalog.port (GCAnalogFactory.Create params) = Get_int params "port" 0 /\
   GCAnalog.axis_x (GCAnalogFactory.Create params) = Get_int params "axis_x" 0 /\
   GCAnalog.axis_y (GCAnalogFactory.Create params) = Get_int params "axis_y" 1) /\
  (forall v : Float32.float,
     Get_float params "deadzone" (Float32.lit 0) = v ->
     (Float32.ltb v (Float32.lit 0) = true ->
      GCAnalog.deadzone (GCAnalogFactory.Create params) = Float32.lit 0) /\
     (Float32.ltb v (Float32.lit 0) = false ->
      Float32.ltb (Float32.lit (99 # 100)) v = true ->
      GCAnalog.deadzone (GCAnalogFactory.Create params) = Float32.lit (99 # 100)) /\
     (Float32.ltb v (Float32.lit 0) = false ->
      Float32.ltb (Float32.lit (99 # 100)) v = false ->
      GCAnalog.deadzone (GCAnalogFactory.Create params) = v) /\
     (Float32.is_nan v = false ->
      Float32.leb (Float32.lit 0) (GCAnalog.deadzone (GCAnalogFactory.Create params))
        = true /\
      Float32.leb (GCAnalog.deadzone (GCAnalogFactory.Create params))
                  (Float32.lit (99 # 100)) = true) /\
     (Float32.is_nan v = true ->
      GCAnalog.deadzone (GCAnalogFactory.Create params) = S754_nan)) /\
  (forall key : string,
     params !! key = None ->
     (forall n : Z, Get_int params key n = n) /\
     (forall f : Float32.float, Get_float params key f = f) /\
     (forall s : string, Get_text params key s = s)) /\
  (forall (key : string) (val : ParamValue),
     params !! key = Some val ->
     (forall n m : Z, read_int val = Some m -> Get_int params key n = m) /\
     (forall f g : Float32.float, read_float val = Some g -> Get_float params key f = g) /\
     (forall s t : string, read_text val = Some t -> Get_text params key s = t)) /\
  (params !! "port"%string = None ->
   device_port (GCButtonFactory.Create params).1 = 0 /\
   GCAnalog.port (GCAnalogFactory.Create params) = 0) /\
  (Has params "axis" = true -> params !! "threshold"%string = None ->
   exists d,
     (GCButtonFactory.Create params).1 = AxisButton d /\
     GCAxisButton.threshold d = Float32.lit (5 # 10) /\
     Float32.represents (GCAxisButton.threshold d) (1 # 2)) /\
  (params !! "deadzone"%string = None ->
   GCAnalog.deadzone (GCAnalogFactory.Create params) = Float32.lit 0 /\
   Float32.represents (GCAnalog.deadzone (GCAnalogFactory.Create params)) 0) /\
  (params !! "axis_x"%string = None -> params !! "axis_y"%string = None ->
   GCAnalog.axis_x (GCAnalogFactory.Create params) = 0 /\
   GCAnalog.axis_y (GCAnalogFactory.Create params) = 1).
Proof.
  assert (Hb : forall v,
    Float32.ltb (Float32.clamp v (Float32.lit 0) (Float32.lit (99 # 100))) (Float32.lit 0)
      = false /\
    Float32.ltb (Float32.lit (99 # 100))
      (Float32.clamp v (Float32.lit 0) (Float32.lit (99 # 100))) = false).
  { intros v. apply clamp_bounds; vm_compute; reflexivity. }
  split; [|split; [|split; [|split; [|split; [|split; [|split; [|split; [|split]]]]]]]].
  - intros Hax. unfold GCButtonFactory.Create. rewrite Hax.
    destruct (String.eqb _ "+") eqn:Hplus; [|destruct (String.eqb _ "-") eqn:Hminus];
      (eexists; split; [reflexivity|]; cbn;
       split; [reflexivity|split; [reflexivity|split; [reflexivity|]]]).
    + apply String.eqb_eq in Hplus.
      split; [done|]. split; [intros Hm; rewrite Hplus in Hm; discriminate|].
      intros Hn. by destruct Hn.
    + apply String.eqb_neq in Hplus. apply String.eqb_eq in Hminus.
      split; [intros Hp; by destruct Hplus|]. split; [done|].
      intros _ Hn. by destruct Hn.
    + apply String.eqb_neq in Hplus, Hminus.
      split; [intros Hp; by destruct Hplus|].
      split; [intros Hm; by destruct Hminus|]. done.
  - intros Hax. unfold GCButtonFactory.Create. by rewrite Hax.
  - done.
  - intros v Hv. unfold GCAnalogFactory.Create. cbn [GCAnalog.deadzone]. rewrite Hv.
    split; [|split; [|split; [|split]]].
    + intros Hlo. unfold Float32.clamp. by rewrite Hlo.
    + intros Hlo Hhi. unfold Float32.clamp. by rewrite Hlo, Hhi.
    + intros Hlo Hhi. unfold Float32.clamp. by rewrite Hlo, Hhi.
    + intros Hnan. destruct (Hb v) as [H0 H1].
      assert (Hnum : Float32.is_nan
                (Float32.clamp v (Float32.lit 0) (Float32.lit (99 # 100))) = false).
      { unfold Float32.clamp.
        destruct (Float32.ltb v _); [reflexivity|].
        destruct (Float32.ltb _ v); [reflexivity|exact Hnan]. }
      split; apply SFleb_of_not_ltb; try assumption;
        apply SFcompare_number; try assumption; reflexivity.
    + intros Hnan. destruct v; try discriminate. reflexivity.
  - intros key Hkey. unfold Get_int, Get_float, Get_text. by rewrite Hkey.
  - intros key val Hkey. unfold Get_int, Get_float, Get_text. rewrite Hkey.
    repeat split; intros ? ? Hread; by rewrite Hread.
  - intros Hport.
    assert (Hp : Get_int params "port" 0 = 0)
      by (unfold Get_int; by rewrite Hport).
    unfold GCButtonFactory.Create, GCAnalogFactory.Create. rewrite Hp.
    split; [|reflexivity].
    destruct (Has params "axis"); [|reflexivity].
    destruct (String.eqb _ "+"); [reflexivity|].
    destruct (String.eqb _ "-"); reflexivity.
  - intros Hax Hth. unfold GCButtonFactory.Create. rewrite Hax.
    unfold Get_float. rewrite Hth.
    destruct (String.eqb _ "+"); [|destruct (String.eqb _ "-")];
      eexists; (split; [reflexivity|split; [reflexivity|vm_compute; reflexivity]]).
  - intros Hdz. unfold GCAnalogFactory.Create. cbn [GCAnalog.deadzone].
    unfold Get_float. rewrite Hdz. split; vm_compute; reflexivity.
  - intros Hx Hy. unfold GCAnalogFactory.Create. cbn [GCAnalog.axis_x GCAnalog.axis_y].
    unfold Get_int. by rewrite Hx, Hy.
Qed.

End CreateClaims.

Section CreateWitness.
Import GCAdapter ParamPackage InputCommon Statements.

(** A stored binding with the direction text "up": the device is built, it
    triggers above, and the text is logged. *)
Lemma create_recovers_with_defaults_witness :
  exists d,
    @GCButtonFactory.Create typed_reader
      {[ "axis"%string := PInt 2; "direction"%string := PStr "up" ]}
    = (AxisButton d, [LOG_ERROR "Input" "Unknown direction up"]) /\
    GCAxisButton.trigger_if_greater d = true.
Proof.
  destruct (@create_recovers_with_defaults typed_reader
              {[ "axis"%string := PInt 2; "direction"%string := PStr "up" ]})
    as (Haxis & _).
  destruct Haxis as (d & Hd & _ & _ & _ & _ & _ & Hunknown); [reflexivity|].
  destruct Hunknown as [Htrigger Hlog].
  - vm_compute. discriminate.
  - vm_compute. discriminate.
  - exists d. split; [|exact Htrigger].
    rewrite (surjective_pairing (GCButtonFactory.Create _)), Hd, Hlog.
    reflexivity.
Defined.

(** The dead zone is not always within [0, 0.99]: a stored NaN is kept,
    and it is neither at least 0 nor at most 0.99f; and the upper bound is
    the binary32 number 0.99f = 16609444 * 2^-24, which is above 99/100 and
    is the dead zone of a device made from a stored 1. *)
Lemma create_deadzone_counterexample :
  (GCAnalog.deadzone
     (@GCAnalogFactory.Create typed_reader {[ "deadzone"%string := PFloat S754_nan ]})
   = S754_nan /\
   Float32.leb (Float32.lit 0) S754_nan = false /\
   Float32.leb S754_nan (Float32.lit (99 # 100)) = false) /\
  (GCAnalog.deadzone
     (@GCAnalogFactory.Create typed_reader
        {[ "deadzone"%string := PFloat (Float32.of_int 1) ]})
   = Float32.lit (99 # 100) /\
   Float32.to_Q (Float32.lit (99 # 100)) = Some (16609444 # 2 ^ 24) /\
   (99 # 100 < 16609444 # 2 ^ 24)%Q).
Proof.
  split; (split; [vm_compute; reflexivity|split; vm_compute; reflexivity]).
Qed.

End CreateWitness.

(* ===================================================================== *)
(** * Properties of the analog stick                                     *)
(* ===================================================================== *)

Section StickSigns.

(** Rounding does not look at the sign. *)
Lemma binary_round_aux_negb (prec emax : Z) (s : bool) (m e : Z) (l : location) :
  binary_round_aux prec emax (negb s) m e l
  = SFopp (binary_round_aux prec emax s m e l).
Proof.
  unfold binary_round_aux.
  destruct (shr_fexp prec emax m e l) as [mrs' e'].
  destruct (shr_fexp prec emax _ e' loc_Exact) as [mrs'' e''].
  destruct (shr_m mrs''); [reflexivity| |reflexivity].
  by destruct (e'' <=? emax - prec).
Qed.

Lemma xorb_negb_l (a b : bool) : xorb (negb a) b = negb (xorb a b).
Proof. by destruct a, b. Qed.

Lemma mul_neg_l (x y : Float32.float) :
  Float32.mul (Float32.neg x) y = Float32.neg (Float32.mul x y).
Proof.
  unfold Float32.mul, Float32.neg.
  destruct x as [sx|sx| |sx mx ex], y as [sy|sy| |sy my ey];
    cbn [SFmul SFopp]; rewrite ?xorb_negb_l; try reflexivity.
  apply binary_round_aux_negb.
Qed.

Lemma mul_neg_neg (x : Float32.float) :
  Float32.mul (Float32.neg x) (Float32.neg x) = Float32.mul x x.
Proof.
  unfold Float32.mul, Float32.neg.
  destruct x as [sx|sx| |sx mx ex]; cbn [SFmul SFopp];
    try reflexivity; destruct sx; reflexivity.
Qed.

Lemma div_neg_l (x y : Float32.float) :
  Float32.div (Float32.neg x) y = Float32.neg (Float32.div x y).
Proof.
  unfold Float32.div, Float32.neg.
  destruct x as [sx|sx| |sx mx ex], y as [sy|sy| |sy my ey];
    cbn [SFdiv SFopp]; rewrite ?xorb_negb_l; try reflexivity.
  destruct (SFdiv_core_binary _ _ _ _ _ _) as [[mz ez] lz].
  apply binary_round_aux_negb.
Qed.

Lemma to_Q_neg (x : Float32.float) :
  Float32.to_Q (Float32.neg x) = option_map Qopp (Float32.to_Q x).
Proof.
  destruct x as [sx|sx| |sx mx ex]; cbn; try reflexivity.
  destruct sx; cbn; f_equal.
  unfold Qopp. cbn. destruct (Qpower 2 ex). cbn.
  by rewrite Z.opp_involutive.
Qed.

End StickSigns.

Section StickExact.
Import StickStatements.

Lemma big_le_spec (a b : BigQ.BigQ.t) :
  big_le a b = true -> (BigQ.BigQ.to_Q a <= BigQ.BigQ.to_Q b)%Q.
Proof.
  unfold big_le. rewrite BigQ.BigQ.spec_compare. intros H.
  apply Qle_alt. intros Hgt. by rewrite Hgt in H.
Qed.

Lemma big_agrees (x : Float32.float) : agrees (big x) (Float32.to_Q x).
Proof.
  unfold agrees, big. destruct (Float32.to_Q x); cbn; [|done].
  apply BigQ.BigQ.spec_of_Q.
Qed.

Lemma big_norm2_agrees (p : Float32.float * Float32.float) :
  agrees (big_norm2 p) (norm2 p).
Proof.
  unfold big_norm2, norm2.
  pose proof (big_agrees p.1) as H1. pose proof (big_agrees p.2) as H2.
  unfold agrees in *.
  destruct (big p.1), (Float32.to_Q p.1); try done;
    destruct (big p.2), (Float32.to_Q p.2); try done.
  by rewrite BigQ.BigQ.spec_add, !BigQ.BigQ.spec_mul, H1, H2.
Qed.

Lemma big_times_scale_agrees (x r d : Float32.float) :
  agrees (big_times_scale x r d) (times_scale x r d).
Proof.
  unfold big_times_scale, times_scale.
  pose proof (big_agrees x) as Hx. pose proof (big_agrees r) as Hr.
  pose proof (big_agrees d) as Hd. unfold agrees in *.
  destruct (big x), (Float32.to_Q x); try done;
    destruct (big r), (Float32.to_Q r); try done;
    destruct (big d), (Float32.to_Q d); try done.
  by rewrite BigQ.BigQ.spec_mul, BigQ.BigQ.spec_div, BigQ.BigQ.spec_mul,
    !BigQ.BigQ.spec_sub, BigQ.BigQ.spec_1, Hx, Hr, Hd.
Qed.

Lemma big_ramp2_agrees (r d : Float32.float) :
  agrees (big_ramp2 r d) (ramp2 r d).
Proof.
  unfold big_ramp2, ramp2.
  pose proof (big_agrees r) as Hr. pose proof (big_agrees d) as Hd.
  unfold agrees in *.
  destruct (big r), (Float32.to_Q r); try done;
    destruct (big d), (Float32.to_Q d); try done.
  by rewrite BigQ.BigQ.spec_mul, BigQ.BigQ.spec_div,
    !BigQ.BigQ.spec_sub, BigQ.BigQ.spec_1, Hr, Hd.
Qed.

Lemma big_near_spec (eps : Q) (b c : option BigQ.BigQ.t) (v q : option Q) :
  agrees b v -> agrees c q -> big_near eps b c = true -> near eps v q.
Proof.
  unfold agrees, big_near, near.
  destruct b as [b|], v as [v|]; try done; destruct c as [c|], q as [q|]; try done.
  intros Hv Hq [Hhi Hlo]%andb_prop.
  apply big_le_spec in Hhi, Hlo.
  rewrite BigQ.BigQ.spec_sub, BigQ.BigQ.spec_of_Q, Hv, Hq in Hhi, Hlo.
  by apply Qabs_Qle_condition.
Qed.

Lemma big_at_most_spec (b : option BigQ.BigQ.t) (v : option Q) (q : Q) :
  agrees b v -> big_at_most b q = true -> at_most v q.
Proof.
  unfold agrees, big_at_most, at_most.
  destruct b as [b|], v as [v|]; try done.
  intros Hv Hle%big_le_spec. by rewrite BigQ.BigQ.spec_of_Q, Hv in Hle.
Qed.

(** The check computes what [stick_ok] states. *)
Lemma stick_check_ok (dz x y : Float32.float) :
  stick_check dz x y = true -> stick_ok dz x y.
Proof.
  unfold stick_check, stick_ok. cbv zeta.
  intros [Hclamp Hramp]%andb_prop. split.
  - destruct (Float32.gtb _ (Float32.lit 1)).
    + eapply big_near_spec; [apply big_norm2_agrees| |exact Hclamp].
      apply BigQ.BigQ.spec_1.
    + eapply big_at_most_spec; [apply big_norm2_agrees|exact Hclamp].
  - intros Hr. rewrite Hr in Hramp.
    apply andb_prop in Hramp as [[Hu Hv]%andb_prop Hm].
    repeat split.
    + eapply big_near_spec; [apply big_agrees|apply big_times_scale_agrees|exact Hu].
    + eapply big_near_spec; [apply big_agrees|apply big_times_scale_agrees|exact Hv].
    + eapply big_near_spec; [apply big_norm2_agrees|apply big_ramp2_agrees|exact Hm].
Qed.

End StickExact.

Section StickSymmetry.
Import StickStatements.

Lemma to_unit_circle_neg_l (x y : Float32.float) :
  to_unit_circle (Float32.neg x) y
  = (Float32.neg (to_unit_circle x y).1, (to_unit_circle x y).2).
Proof.
  unfold to_unit_circle. rewrite mul_neg_neg.
  destruct (Float32.gtb _ _); cbn [fst snd]; by rewrite ?div_neg_l.
Qed.

Lemma to_unit_circle_neg_r (x y : Float32.float) :
  to_unit_circle x (Float32.neg y)
  = ((to_unit_circle x y).1, Float32.neg (to_unit_circle x y).2).
Proof.
  unfold to_unit_circle. rewrite mul_neg_neg.
  destruct (Float32.gtb _ _); cbn [fst snd]; by rewrite ?div_neg_l.
Qed.

Lemma radius_neg_l (a b : Float32.float) : radius (Float32.neg a, b) = radius (a, b).
Proof. unfold radius. cbn [fst snd]. by rewrite mul_neg_neg. Qed.

Lemma radius_neg_r (a b : Float32.float) : radius (a, Float32.neg b) = radius (a, b).
Proof. unfold radius. cbn [fst snd]. by rewrite mul_neg_neg. Qed.

Lemma apply_deadzone_neg_l (dz a b : Float32.float) :
  Float32.gtb (radius (a, b)) dz = true ->
  apply_deadzone dz (Float32.neg a, b)
  = (Float32.neg (apply_deadzone dz (a, b)).1, (apply_deadzone dz (a, b)).2).
Proof.
  intros Hr. unfold apply_deadzone. rewrite radius_neg_l, Hr. cbn [fst snd].
  by rewrite div_neg_l, mul_neg_l, div_neg_l.
Qed.

Lemma apply_deadzone_neg_r (dz a b : Float32.float) :
  Float32.gtb (radius (a, b)) dz = true ->
  apply_deadzone dz (a, Float32.neg b)
  = ((apply_deadzone dz (a, b)).1, Float32.neg (apply_deadzone dz (a, b)).2).
Proof.
  intros Hr. unfold apply_deadzone. rewrite radius_neg_r, Hr. cbn [fst snd].
  by rewrite div_neg_l, mul_neg_l, div_neg_l.
Qed.

Lemma norm2_neg_l (a b : Float32.float) :
  match norm2 (Float32.neg a, b), norm2 (a, b) with
  | Some v, Some w => (v == w)%Q
  | None, None => True
  | _, _ => False
  end.
Proof.
  unfold norm2. cbn [fst snd]. rewrite to_Q_neg.
  destruct (Float32.to_Q a), (Float32.to_Q b); cbn; try done. ring.
Qed.

Lemma norm2_neg_r (a b : Float32.float) :
  match norm2 (a, Float32.neg b), norm2 (a, b) with
  | Some v, Some w => (v == w)%Q
  | None, None => True
  | _, _ => False
  end.
Proof.
  unfold norm2. cbn [fst snd]. rewrite to_Q_neg.
  destruct (Float32.to_Q a), (Float32.to_Q b); cbn; try done. ring.
Qed.

Lemma near_same (eps : Q) (v w q : option Q) :
  match v, w with
  | Some v, Some w => (v == w)%Q
  | None, None => True
  | _, _ => False
  end ->
  near eps w q -> near eps v q.
Proof.
  unfold near. destruct v, w, q; try done. intros H. by rewrite H.
Qed.

Lemma at_most_same (v w : option Q) (q : Q) :
  match v, w with
  | Some v, Some w => (v == w)%Q
  | None, None => True
  | _, _ => False
  end ->
  at_most w q -> at_most v q.
Proof.
  unfold at_most. destruct v, w; try done. intros H. by rewrite H.
Qed.

Lemma near_times_scale_neg (eps : Q) (u a r d : Float32.float) :
  near eps (Float32.to_Q u) (times_scale a r d) ->
  near eps (Float32.to_Q (Float32.neg u)) (times_scale (Float32.neg a) r d).
Proof.
  unfold near, times_scale. rewrite !to_Q_neg.
  destruct (Float32.to_Q u) as [qu|], (Float32.to_Q a) as [qa|],
    (Float32.to_Q r) as [qr|], (Float32.to_Q d) as [qd|];
    cbn [option_map]; try done.
  intros H.
  assert (Heq : (- qu - - qa * ((qr - qd) / (qr * (1 - qd)))
                 == - (qu - qa * ((qr - qd) / (qr * (1 - qd)))))%Q) by ring.
  by rewrite Heq, Qabs_opp.
Qed.

(** The stick is symmetric about both axes. *)
Lemma stick_ok_neg_l (dz x y : Float32.float) :
  stick_ok dz x y -> stick_ok dz (Float32.neg x) y.
Proof.
  unfold stick_ok. cbv zeta. intros [Hclamp Hramp].
  rewrite to_unit_circle_neg_l, mul_neg_neg.
  destruct (to_unit_circle x y) as [a b]. cbn [fst snd] in *.
  rewrite radius_neg_l. split.
  - destruct (Float32.gtb _ (Float32.lit 1)).
    + eapply near_same; [apply norm2_neg_l|exact Hclamp].
    + eapply at_most_same; [apply norm2_neg_l|exact Hclamp].
  - intros Hr. destruct (Hramp Hr) as (Hu & Hv & Hm).
    rewrite (apply_deadzone_neg_l dz a b Hr).
    destruct (apply_deadzone dz (a, b)) as [u v]. cbn [fst snd] in *.
    split; [by apply near_times_scale_neg|]. split; [exact Hv|].
    eapply near_same; [apply norm2_neg_l|exact Hm].
Qed.

Lemma stick_ok_neg_r (dz x y : Float32.float) :
  stick_ok dz x y -> stick_ok dz x (Float32.neg y).
Proof.
  unfold stick_ok. cbv zeta. intros [Hclamp Hramp].
  rewrite to_unit_circle_neg_r, mul_neg_neg.
  destruct (to_unit_circle x y) as [a b]. cbn [fst snd] in *.
  rewrite radius_neg_r. split.
  - destruct (Float32.gtb _ (Float32.lit 1)).
    + eapply near_same; [apply norm2_neg_r|exact Hclamp].
    + eapply at_most_same; [apply norm2_neg_r|exact Hclamp].
  - intros Hr. destruct (Hramp Hr) as (Hu & Hv & Hm).
    rewrite (apply_deadzone_neg_r dz a b Hr).
    destruct (apply_deadzone dz (a, b)) as [u v]. cbn [fst snd] in *.
    split; [exact Hu|]. split; [by apply near_times_scale_neg|].
    eapply near_same; [apply norm2_neg_r|exact Hm].
Qed.

End StickSymmetry.

Section StickPositions.
Import Statements StickStatements.

Lemma upper_half_enum (P : Float32.float -> Float32.float -> bool) :
  (let xs := map axis_of_byte upper_half in
   forallb (fun x => forallb (P x) xs) xs) = true ->
  forall i j : Z, 128 <= i <= 256 -> 128 <= j <= 256 ->
  P (axis_of_byte i) (axis_of_byte j) = true.
Proof.
  cbv zeta. intros Hall i j Hi Hj.
  assert (Hin : forall k, 128 <= k <= 256 ->
            In (axis_of_byte k) (map axis_of_byte upper_half)).
  { intros k Hk. apply in_map. unfold upper_half.
    rewrite <- (Z2Nat.id k) by lia. apply in_map, in_seq. lia. }
  rewrite forallb_forall in Hall. specialize (Hall _ (Hin i Hi)).
  rewrite forallb_forall in Hall. exact (Hall _ (Hin j Hj)).
Qed.

(** Below the centre the normalised value is the opposite of the one as
    far above it. *)
Lemma axis_of_byte_low (v : Z) :
  0 <= v < 128 -> axis_of_byte v = Float32.neg (axis_of_byte (256 - v)).
Proof.
  intros Hv.
  pose proof (byte_enum
    (fun v => (128 <=? v)
              || @bool_decide _ (spec_float_eq_dec (axis_of_byte v)
                                   (Float32.neg (axis_of_byte (256 - v)))))
    ltac:(vm_compute; reflexivity) v ltac:(lia)) as H.
  apply orb_prop in H as [H|H]; [lia|]. by apply bool_decide_eq_true in H.
Qed.

(** Every position of the stick, with the dead zone 0 of a device made
    without one, the dead zone 0.2 and the largest dead zone, 0.99f. *)
Lemma stick_ok_bytes (dz : Float32.float) (raw_x raw_y : Z) :
  dz = Float32.lit 0 \/ dz = Float32.lit (2 # 10) \/ dz = Float32.lit (99 # 100) ->
  0 <= raw_x <= 255 -> 0 <= raw_y <= 255 ->
  stick_ok dz (axis_of_byte raw_x) (axis_of_byte raw_y).
Proof.
  intros Hdz Hx Hy.
  assert (Hup : forall i j, 128 <= i <= 256 -> 128 <= j <= 256 ->
            stick_ok dz (axis_of_byte i) (axis_of_byte j)).
  { intros i j Hi Hj. apply stick_check_ok.
    apply (upper_half_enum (stick_check dz)); [|exact Hi|exact Hj].
    destruct Hdz as [->|[->| ->]]; vm_cast_no_check (eq_refl true). }
  destruct (Z_lt_le_dec raw_x 128) as [Hlx|Hlx], (Z_lt_le_dec raw_y 128) as [Hly|Hly].
  - rewrite (axis_of_byte_low raw_x), (axis_of_byte_low raw_y) by lia.
    apply stick_ok_neg_l, stick_ok_neg_r, Hup; lia.
  - rewrite (axis_of_byte_low raw_x) by lia. apply stick_ok_neg_l, Hup; lia.
  - rewrite (axis_of_byte_low raw_y) by lia. apply stick_ok_neg_r, Hup; lia.
  - apply Hup; lia.
Qed.

End StickPositions.

Section AnalogStickClaim.
Import GCAdapter ParamPackage InputCommon Statements StickStatements.

(** In every arithmetic, a radius that is not above the dead zone gives the
    output (0, 0). *)
Lemma GetStatus_inside_deadzone {F : Type} {arith : Arith.Ops F}
  (d : GCAnalog.t F) (a : Adapter) (x y : F) :
  GCAnalog.GetAnalog d a (GCAnalog.axis_x d) (GCAnalog.axis_y d) = Some (x, y) ->
  Arith.gtb (Arith.sqrt (Arith.add (Arith.mul x x) (Arith.mul y y)))
            (GCAnalog.deadzone d) = false ->
  GCAnalog.GetStatus d a = Some (Arith.lit 0, Arith.lit 0).
Proof.
  intros Hxy Hr. unfold GCAnalog.GetStatus. rewrite Hxy.
  cbn [mbind option_bind]. by rewrite Hr.
Qed.

(** The three steps of the device are the three steps on numbers. *)
Lemma GetAxis_byte (d : GCAnalog.t Float32.float) (a : Adapter) (axis raw : Z) :
  axes_at a (GCAnalog.port d) axis = Some raw ->
  GCAnalog.GetAxis d a axis = Some (axis_of_byte raw).
Proof. intros H. unfold GCAnalog.GetAxis. by rewrite H. Qed.

Lemma GetAnalog_bytes (d : GCAnalog.t Float32.float) (a : Adapter)
  (axis_x axis_y raw_x raw_y : Z) :
  axes_at a (GCAnalog.port d) axis_x = Some raw_x ->
  axes_at a (GCAnalog.port d) axis_y = Some raw_y ->
  GCAnalog.GetAnalog d a axis_x axis_y
  = Some (to_unit_circle (axis_of_byte raw_x) (axis_of_byte raw_y)).
Proof.
  intros Hx Hy. unfold GCAnalog.GetAnalog.
  rewrite (GetAxis_byte d a axis_x raw_x Hx), (GetAxis_byte d a axis_y raw_y Hy).
  cbn [mbind option_bind]. unfold to_unit_circle.
  cbn [Arith.add Arith.mul Arith.gtb Arith.lit Arith.sqrt Arith.div float_arith].
  by destruct (Float32.gtb _ _).
Qed.

Lemma GetStatus_bytes (d : GCAnalog.t Float32.float) (a : Adapter) (raw_x raw_y : Z) :
  axes_at a (GCAnalog.port d) (GCAnalog.axis_x d) = Some raw_x ->
  axes_at a (GCAnalog.port d) (GCAnalog.axis_y d) = Some raw_y ->
  GCAnalog.GetStatus d a
  = Some (apply_deadzone (GCAnalog.deadzone d)
            (to_unit_circle (axis_of_byte raw_x) (axis_of_byte raw_y))).
Proof.
  intros Hx Hy. unfold GCAnalog.GetStatus.
  rewrite (GetAnalog_bytes d a _ _ raw_x raw_y Hx Hy).
  destruct (to_unit_circle _ _) as [cx cy].
  cbn [mbind option_bind]. unfold apply_deadzone, radius. cbn [fst snd].
  cbn [Arith.add Arith.mul Arith.gtb Arith.lit Arith.sqrt Arith.div Arith.sub
       Arith.of_int float_arith].
  by destruct (Float32.gtb _ _).
Qed.

(** The normalised value of a byte is the binary32 number nearest to
    (raw - 128) / 95. *)
Lemma axis_of_byte_near (raw : Z) :
  0 <= raw <= 255 ->
  near (1 # 2 ^ 24) (Float32.to_Q (axis_of_byte raw))
       (Some (inject_Z (raw - 128) / 95)%Q).
Proof.
  intros Hraw.
  pose proof (byte_enum
    (fun v => match Float32.to_Q (axis_of_byte v) with
              | Some q => Qle_bool (Qabs (q - inject_Z (v - 128) / 95)) (1 # 2 ^ 24)
              | None => false
              end)
    ltac:(vm_compute; reflexivity) raw Hraw) as H.
  cbv beta in H. unfold near. destruct (Float32.to_Q _); [|discriminate].
  by apply Qle_bool_iff.
Qed.


End AnalogStickClaim.

Section AnalogStickExamples.
Import GCAdapter ParamPackage InputCommon Statements StickStatements.



(** The two points of the dead-zone test of the spec, in binary32 with the
    dead zone 0.2: the raw vector (147, 128), of radius 0.2, gives (0, 0),
    and the raw vector (223, 128), of radius 1, gives (1, 0). *)
Example radial_deadzone_points_in_binary32 :
  GCAnalog.GetStatus (example_stick (Float32.lit (2 # 10))) (adapter_in_state 147 128)
  = Some (Float32.lit 0, Float32.lit 0) /\
  GCAnalog.GetStatus (example_stick (Float32.lit (2 # 10))) (adapter_in_state 223 128)
  = Some (Float32.lit 1, Float32.lit 0).
Proof. vm_compute. split; reflexivity. Qed.

End AnalogStickExamples.

(* ===================================================================== *)
(** * Further properties of the wall clock                               *)
(* ===================================================================== *)

Section MoreWallClock.
Import Common.

(** X1.  For a steady clock that did not go back, the three readings of the
    elapsed time are the same time truncated: the microseconds are the
    nanoseconds divided by 1000, the milliseconds are the microseconds
    divided by 1000, none is negative, and a later reading is never
    smaller. *)
Theorem elapsed_time_units (c : StandardWallClock) (current later : Z) :
  start_time c <= current -> current <= later ->
  GetTimeUS c current = GetTimeNS c current / 1000 /\
  GetTimeMS c current = GetTimeUS c current / 1000 /\
  0 <= GetTimeMS c current /\
  1000 * GetTimeUS c current <= GetTimeNS c current
    < 1000 * GetTimeUS c current + 1000 /\
  GetTimeNS c current <= GetTimeNS c later /\
  GetTimeUS c current <= GetTimeUS c later /\
  GetTimeMS c current <= GetTimeMS c later.
Proof.
  intros Hstart Hlater. unfold GetTimeUS, GetTimeMS, GetTimeNS.
  rewrite !Z.quot_div_nonneg by lia.
  assert (Hms : (current - start_time c) / 1000000
                = (current - start_time c) / 1000 / 1000)
    by (rewrite Z.div_div by lia; reflexivity).
  repeat split.
  - exact Hms.
  - apply Z.div_pos; lia.
  - pose proof (Z.mul_div_le (current - start_time c) 1000). lia.
  - pose proof (Z.mul_succ_div_gt (current - start_time c) 1000). lia.
  - lia.
  - apply Z.div_le_mono; lia.
  - apply Z.div_le_mono; lia.
Qed.

Lemma elapsed_time_units_witness :
  GetTimeUS Statements.example_clock 2500004 = 2499 /\
  GetTimeMS Statements.example_clock 2500004 = 2.
Proof.
  destruct (elapsed_time_units Statements.example_clock 2500004 2500004)
    as (Hus & Hms & _).
  - cbn. lia.
  - lia.
  - rewrite Hms, Hus. split; reflexivity.
Defined.

(** X2.  Within ten years the cycle counters never run backwards: a later
    reading of the steady clock gives at least as many CPU cycles and at
    least as many clock cycles. *)
Theorem cycles_are_monotone (c : StandardWallClock) (current later : Z) :
  start_time c <= current -> current <= later ->
  later - start_time c <= ten_years_ns ->
  1 <= emulated_cpu_frequency c <= 2 ^ 32 - 1 ->
  1 <= emulated_clock_frequency c <= 2 ^ 32 - 1 ->
  GetCPUCycles c current <= GetCPUCycles c later /\
  GetClockCycles c current <= GetClockCycles c later.
Proof.
  intros Hstart Hlater Hten Hcpu Hclock.
  unfold GetCPUCycles, GetClockCycles, GetTimeNS. cbv zeta.
  destruct (convert_exact (current - start_time c) (emulated_cpu_frequency c))
    as [_ ->]; [lia|lia|].
  destruct (convert_exact (later - start_time c) (emulated_cpu_frequency c))
    as [_ ->]; [lia|lia|].
  destruct (convert_exact (current - start_time c) (emulated_clock_frequency c))
    as [_ ->]; [lia|lia|].
  destruct (convert_exact (later - start_time c) (emulated_clock_frequency c))
    as [_ ->]; [lia|lia|].
  split; apply Z.div_le_mono; nia.
Qed.

Lemma cycles_are_monotone_witness :
  GetCPUCycles Statements.example_clock 1000000005
  <= GetCPUCycles Statements.example_clock 3000000005.
Proof.
  destruct (cycles_are_monotone Statements.example_clock 1000000005 3000000005)
    as [H _].
  - cbn. lia.
  - lia.
  - vm_compute. discriminate.
  - vm_compute. split; discriminate.
  - vm_compute. split; discriminate.
  - exact H.
Defined.

(** X3.  A clock made by [CreateBestMatchingClock] reads no elapsed time and
    no cycles at the instant it is made, and [k] whole seconds later, up to
    ten years, it reads exactly [k] times the frequency it was given (taken
    as a [u32]) in each domain; [Pause] changes none of this. *)
Theorem created_clock_counts_whole_seconds
  (cpu_frequency clock_frequency now k : Z) (is_paused : bool) :
  0 <= k -> k * 1000000000 <= ten_years_ns ->
  GetTimeNS (CreateBestMatchingClock cpu_frequency clock_frequency now) now = 0 /\
  GetCPUCycles (CreateBestMatchingClock cpu_frequency clock_frequency now) now = 0 /\
  GetClockCycles (CreateBestMatchingClock cpu_frequency clock_frequency now) now = 0 /\
  GetCPUCycles
    (Pause (CreateBestMatchingClock cpu_frequency clock_frequency now) is_paused)
    (now + k * 1000000000)
  = k * to_u32 cpu_frequency /\
  GetClockCycles
    (Pause (CreateBestMatchingClock cpu_frequency clock_frequency now) is_paused)
    (now + k * 1000000000)
  = k * to_u32 clock_frequency.
Proof.
  intros Hk Hten.
  assert (Hpow : 2 ^ 32 = 4294967296) by reflexivity.
  assert (Hmod : u64_modulus = 18446744073709551616) by reflexivity.
  assert (Hu : forall n, 0 <= to_u32 n <= 2 ^ 32 - 1).
  { intros n. unfold to_u32. pose proof (Z.mod_pos_bound n (2 ^ 32)). lia. }
  assert (Hw : forall n, to_u64 (to_u32 n) = to_u32 n).
  { intros n. apply to_u64_small. specialize (Hu n). lia. }
  assert (Hgen : forall f t, 0 <= t <= ten_years_ns -> 0 <= f <= 2 ^ 32 - 1 ->
            fst (Divide128On32 (Multiply64Into128 t f) 1000000000)
            = t * f / 1000000000).
  { intros f t Ht Hf. destruct (Z.eq_dec f 0) as [->|Hf0].
    - unfold Multiply64Into128, Divide128On32, u128_value, to_u64. cbn [fst snd].
      rewrite (Z.mod_0_l u64_modulus) by lia. rewrite !Z.mul_0_r.
      reflexivity.
    - apply convert_exact; lia. }
  unfold Pause, GetCPUCycles, GetClockCycles, GetTimeNS, CreateBestMatchingClock.
  cbn [start_time emulated_cpu_frequency emulated_clock_frequency]. cbv zeta.
  rewrite !Hw.
  replace (now - now) with 0 by lia.
  replace (now + k * 1000000000 - now) with (k * 1000000000) by lia.
  assert (H0 : 0 <= 0 <= ten_years_ns) by (vm_compute; split; discriminate).
  rewrite !Hgen by (try apply Hu; lia).
  repeat split; try reflexivity.
  - rewrite <- Z.mul_assoc, (Z.mul_comm 1000000000), Z.mul_assoc.
    apply Z.div_mul. lia.
  - rewrite <- Z.mul_assoc, (Z.mul_comm 1000000000), Z.mul_assoc.
    apply Z.div_mul. lia.
Qed.

Lemma created_clock_counts_whole_seconds_witness :
  GetCPUCycles (CreateBestMatchingClock 1020000000 19200000 77) (77 + 3 * 1000000000)
  = 3 * 1020000000.
Proof.
  destruct (created_clock_counts_whole_seconds 1020000000 19200000 77 3 true)
    as (_ & _ & _ & H & _).
  - lia.
  - vm_compute. discriminate.
  - exact H.
Defined.

End MoreWallClock.

(* ===================================================================== *)
(** * Further properties of the digital capture                          *)
(* ===================================================================== *)

Section MoreButtonCapture.
Import GCAdapter ParamPackage InputCommon Statements MoreStatements.
Import GCButtonFactory.
Context {masks : PadButton}.

Implicit Types (qs : list (list GCPadStatus)) (params : ParamPackage.t).
Implicit Types (i j : nat) (pad : GCPadStatus).

Lemma capture_pad_break i pad params : (capture_pad i pad params).2 = hit pad.
Proof.
  unfold capture_pad, hit.
  destruct (find (pressed pad) button_order); [reflexivity|].
  destruct (GCAdapter.axis pad); [reflexivity|].
  by destruct (128 <? axis_value pad).
Qed.

Lemma capture_while_rest i (q : list GCPadStatus) :
  forall params, (capture_while i q params).1 = after_first_hit q.
Proof.
  induction q as [|pad q IH]; intros params; [reflexivity|].
  cbn [capture_while after_first_hit].
  rewrite <- (capture_pad_break i pad params).
  destruct (capture_pad i pad params) as [params' [|]]; cbn [fst snd];
    [reflexivity|apply IH].
Qed.

Lemma capture_port_rest (s : list (list GCPadStatus) * ParamPackage.t) i :
  (capture_port s i).1 !! i = after_first_hit <$> s.1 !! i.
Proof.
  unfold capture_port. destruct (s.1 !! i) as [q|] eqn:Hq; cbn [fmap option_fmap option_map].
  - pose proof (capture_while_rest i q s.2) as Hr.
    destruct (capture_while i q s.2) as [q' params']. cbn [fst] in *. subst q'.
    apply list_lookup_insert_eq. by eapply lookup_lt_Some.
  - by rewrite Hq.
Qed.

Lemma capture_fold_rest (l : list nat) :
  NoDup l ->
  forall (s : list (list GCPadStatus) * ParamPackage.t) i,
  i ∈ l -> (foldl capture_port s l).1 !! i = after_first_hit <$> s.1 !! i.
Proof.
  induction 1 as [|j l Hj Hnd IH]; intros s i Hi; [by apply elem_of_nil in Hi|].
  cbn [foldl]. apply elem_of_cons in Hi as [->|Hi].
  - rewrite capture_fold_lookup_notin by exact Hj. apply capture_port_rest.
  - rewrite IH by exact Hi. rewrite capture_port_lookup_ne; [reflexivity|].
    intros ->. contradiction.
Qed.

Lemma capture_fold_length (l : list nat) :
  forall s : list (list GCPadStatus) * ParamPackage.t,
  length (foldl capture_port s l).1 = length s.1.
Proof.
  induction l as [|j l IH]; intros s; [reflexivity|].
  cbn [foldl]. rewrite IH. unfold capture_port.
  destruct (s.1 !! j); [|reflexivity].
  destruct (capture_while j _ s.2). cbn [fst]. apply length_insert.
Qed.

Lemma after_first_hit_suffix (q : list GCPadStatus) :
  after_first_hit q `suffix_of` q.
Proof.
  induction q as [|pad q IH]; cbn [after_first_hit]; [done|].
  destruct (hit pad).
  - by apply suffix_cons_r.
  - by apply suffix_cons_r.
Qed.

(** X4.  A call of the digital capture takes from every port, whatever the
    other ports hold, the samples up to and including the first one that has
    a listed button or a defined axis, and all of them when there is none;
    what stays is a suffix of the queue, in order.  The ports beyond the
    fourth, the port states and the capture mode are left alone. *)
Theorem digital_capture_queues (a : Adapter) (i : nat) :
  ((i < 4)%nat ->
   pad_queue (GetNextInput a).2 !! i = after_first_hit <$> pad_queue a !! i) /\
  ((4 <= i)%nat -> pad_queue (GetNextInput a).2 !! i = pad_queue a !! i) /\
  (forall q q', pad_queue a !! i = Some q ->
     pad_queue (GetNextInput a).2 !! i = Some q' -> q' `suffix_of` q) /\
  length (pad_queue (GetNextInput a).2) = length (pad_queue a) /\
  pad_state (GetNextInput a).2 = pad_state a /\
  configuring (GetNextInput a).2 = configuring a.
Proof.
  assert (Hq : pad_queue (GetNextInput a).2
               = (foldl capture_port (pad_queue a, ∅) (seq 0 4)).1).
  { unfold GetNextInput. by destruct (foldl capture_port _ _). }
  assert (Hlt : (i < 4)%nat ->
    pad_queue (GetNextInput a).2 !! i = after_first_hit <$> pad_queue a !! i).
  { intros Hi. rewrite Hq. apply (capture_fold_rest _ (NoDup_seq 0 4)).
    apply elem_of_seq. lia. }
  assert (Hge : (4 <= i)%nat ->
    pad_queue (GetNextInput a).2 !! i = pad_queue a !! i).
  { intros Hi. rewrite Hq. rewrite capture_fold_lookup_notin; [reflexivity|].
    rewrite elem_of_seq. lia. }
  split; [exact Hlt|]. split; [exact Hge|]. split; [|split; [|split]].
  - intros q q' H1 H2. destruct (decide (i < 4)%nat) as [Hi|Hi].
    + rewrite Hlt, H1 in H2 by exact Hi. cbn in H2. injection H2 as <-.
      apply after_first_hit_suffix.
    + rewrite Hge, H1 in H2 by lia. by injection H2 as <-.
  - rewrite Hq. apply capture_fold_length.
  - unfold GetNextInput. by destruct (foldl capture_port _ _).
  - unfold GetNextInput. by destruct (foldl capture_port _ _).
Qed.

Lemma capture_pad_header i pad params :
  (capture_pad i pad params).1 !! "engine"%string = Some (PStr "gcpad") /\
  (capture_pad i pad params).1 !! "port"%string = Some (PInt (Z.of_nat i)).
Proof.
  unfold capture_pad, Set_int, Set_text.
  destruct (find (pressed pad) button_order);
    [|destruct (GCAdapter.axis pad); [|destruct (128 <? axis_value pad)]];
    cbn [fst]; split; by simplify_map_eq.
Qed.

Lemma capture_while_header i (q : list GCPadStatus) :
  q <> [] ->
  forall params,
  (capture_while i q params).2 !! "engine"%string = Some (PStr "gcpad") /\
  (capture_while i q params).2 !! "port"%string = Some (PInt (Z.of_nat i)).
Proof.
  induction q as [|pad q IH]; intros Hne params; [done|].
  cbn [capture_while].
  pose proof (capture_pad_header i pad params) as Hh.
  destruct (capture_pad i pad params) as [params' [|]]; cbn [fst snd] in *;
    [exact Hh|].
  destruct q as [|pad' q]; [exact Hh|]. by apply IH.
Qed.

(** X5.  The parameter set a call returns is empty exactly when none of the
    four queues holds a sample, and then the adapter is left as it is.  As
    soon as one sample is dequeued the set carries engine = "gcpad" and the
    number of the last port that had a sample, whether or not that sample
    named a button or an axis; and it never carries a key other than
    engine, port, button, axis, direction and threshold. *)
Theorem digital_capture_result (a : Adapter) :
  (queues_empty (pad_queue a) -> GetNextInput a = (∅, a)) /\
  (forall i pad (rest : list GCPadStatus),
     (i < 4)%nat -> pad_queue a !! i = Some (pad :: rest) ->
     later_ports_empty (pad_queue a) i ->
     (GetNextInput a).1 !! "engine"%string = Some (PStr "gcpad") /\
     (GetNextInput a).1 !! "port"%string = Some (PInt (Z.of_nat i))) /\
  ((GetNextInput a).1 = ∅ <-> queues_empty (pad_queue a)) /\
  only_binding_keys (GetNextInput a).1.
Proof.
  assert (Hempty : queues_empty (pad_queue a) -> GetNextInput a = (∅, a)).
  { intros He. unfold GetNextInput. rewrite capture_fold_empty.
    - by destruct a.
    - intros j Hj. apply elem_of_seq in Hj. apply He. lia. }
  assert (Hlast : forall i pad (rest : list GCPadStatus),
     (i < 4)%nat -> pad_queue a !! i = Some (pad :: rest) ->
     later_ports_empty (pad_queue a) i ->
     (GetNextInput a).1 !! "engine"%string = Some (PStr "gcpad") /\
     (GetNextInput a).1 !! "port"%string = Some (PInt (Z.of_nat i))).
  { intros i pad rest Hi Hq Hlater. unfold GetNextInput.
    replace (seq 0 4) with (seq 0 i ++ i :: seq (S i) (3 - i)); cycle 1.
    { replace (seq 0 4) with (seq 0 (i + S (3 - i))) by (f_equal; lia).
      rewrite seq_app. reflexivity. }
    rewrite foldl_app. cbn [foldl].
    set (s0 := foldl capture_port (pad_queue a, ∅) (seq 0 i)).
    assert (Hq0 : s0.1 !! i = Some (pad :: rest)).
    { unfold s0. rewrite capture_fold_lookup_notin; [exact Hq|].
      rewrite elem_of_seq. lia. }
    pose proof (capture_while_header i (pad :: rest) ltac:(done) s0.2) as Hh.
    assert (Hstep : exists q', capture_port s0 i
              = (<[i := q']> s0.1, (capture_while i (pad :: rest) s0.2).2)).
    { unfold capture_port. rewrite Hq0.
      destruct (capture_while i (pad :: rest) s0.2) as [q' p']. by exists q'. }
    destruct Hstep as [q' Hstep]. rewrite Hstep.
    rewrite capture_fold_empty; cycle 1.
    { intros j Hj. apply elem_of_seq in Hj. cbn [fst].
      rewrite list_lookup_insert_ne by lia.
      unfold s0. rewrite capture_fold_lookup_notin by (rewrite elem_of_seq; lia).
      apply Hlater; lia. }
    exact Hh. }
  split; [exact Hempty|]. split; [exact Hlast|]. split.
  - split; [|by intros ->%Hempty].
    intros Hnil.
    assert (Hport : forall i, (i < 4)%nat -> later_ports_empty (pad_queue a) i ->
              default [] (pad_queue a !! i) = []).
    { intros i Hi Hlater.
      destruct (pad_queue a !! i) as [[|pad rest]|] eqn:Hq; try reflexivity.
      destruct (Hlast i pad rest Hi Hq Hlater) as [He _].
      rewrite Hnil, lookup_empty in He. discriminate. }
    assert (H3 : default [] (pad_queue a !! 3%nat) = []).
    { apply Hport; [lia|]. intros j ? ?. lia. }
    assert (H2 : default [] (pad_queue a !! 2%nat) = []).
    { apply Hport; [lia|]. intros j ? ?. by assert (j = 3%nat) as -> by lia. }
    assert (H1 : default [] (pad_queue a !! 1%nat) = []).
    { apply Hport; [lia|]. intros j ? ?.
      assert (j = 2%nat \/ j = 3%nat) as [->| ->] by lia; assumption. }
    assert (H0 : default [] (pad_queue a !! 0%nat) = []).
    { apply Hport; [lia|]. intros j ? ?.
      assert (j = 1%nat \/ j = 2%nat \/ j = 3%nat) as [-> | [-> | ->]] by lia;
        assumption. }
    intros i Hi. destruct i as [|[|[|[|i]]]]; try lia; assumption.
  - unfold GetNextInput.
    pose proof (capture_fold_keys (seq 0 4) (pad_queue a, ∅)) as Hk.
    destruct (foldl capture_port _ _) as [qs params]. apply Hk.
    intros k _. apply lookup_empty.
Qed.

End MoreButtonCapture.

Section MoreButtonCaptureWitnesses.
Import GCAdapter ParamPackage InputCommon Statements MoreStatements.
Import GCButtonFactory.

(** Port 1 holds a sample that is passed over, a button sample and one
    more sample: the last one stays. *)
Lemma digital_capture_queues_witness :
  pad_queue
    (@GetNextInput example_masks
       (adapter_with
          [[]; [sample 0 Undefined 255; sample 0x0100 Undefined 255;
                sample 0x0200 Undefined 255]; []; []])).2 !! 1%nat
  = Some [sample 0x0200 Undefined 255].
Proof.
  destruct (@digital_capture_queues example_masks
    (adapter_with
       [[]; [sample 0 Undefined 255; sample 0x0100 Undefined 255;
             sample 0x0200 Undefined 255]; []; []]) 1%nat) as (Hlt & _).
  rewrite Hlt by lia. reflexivity.
Defined.

(** One sample without button and without axis queued on port 2: the set
    that is returned names the engine and the port. *)
Lemma digital_capture_result_witness :
  (@GetNextInput example_masks
     (adapter_with [[]; []; [sample 0 Undefined 255]; []])).1 !! "port"%string
  = Some (PInt 2).
Proof.
  destruct (@digital_capture_result example_masks
    (adapter_with [[]; []; [sample 0 Undefined 255]; []])) as (_ & Hlast & _).
  destruct (Hlast 2%nat (sample 0 Undefined 255) []) as [_ Hp].
  - lia.
  - reflexivity.
  - intros j H2 H4. assert (j = 3%nat) as -> by lia. reflexivity.
  - exact Hp.
Defined.

End MoreButtonCaptureWitnesses.

Section CaptureThenCreate.
Import GCAdapter ParamPackage InputCommon Statements MoreStatements.
Import GCButtonFactory.
Context {masks : PadButton} {reader : ParamReader}.

Implicit Types (qs : list (list GCPadStatus)) (params : ParamPackage.t).
Implicit Types (i j : nat) (pad : GCPadStatus).

Lemma capture_while_passed_over_header i (q : list GCPadStatus) :
  Forall passed_over q ->
  forall params, only_header_keys params ->
  only_header_keys (capture_while i q params).2.
Proof.
  induction 1 as [|pad q Hpad _ IH]; intros params Hk; [exact Hk|].
  cbn [capture_while]. rewrite (capture_pad_passed_over i pad params Hpad).
  apply IH. intros k He Hp. unfold Set_int, Set_text.
  rewrite !lookup_insert_ne by congruence. by apply Hk.
Qed.

Lemma capture_fold_passed_over_header (l : list nat) :
  forall s : list (list GCPadStatus) * ParamPackage.t,
  (forall j, j ∈ l -> Forall passed_over (default [] (s.1 !! j))) ->
  NoDup l ->
  only_header_keys s.2 ->
  only_header_keys (foldl capture_port s l).2.
Proof.
  induction l as [|j l IH]; intros s Hpo Hnd Hk; [exact Hk|].
  cbn [foldl]. apply NoDup_cons in Hnd as [Hj Hnd].
  apply IH; [|exact Hnd|].
  - intros j' Hj'. rewrite capture_port_lookup_ne by (intros ->; contradiction).
    apply Hpo. set_solver.
  - unfold capture_port. destruct (s.1 !! j) as [q|] eqn:Hq; [|exact Hk].
    pose proof (capture_while_passed_over_header j q) as Hw.
    specialize (Hpo j ltac:(set_solver)). rewrite Hq in Hpo. cbn in Hpo.
    specialize (Hw Hpo s.2 Hk).
    by destruct (capture_while j q s.2).
Qed.

Lemma capture_while_first_hit_header i (pre : list GCPadStatus) pad
  (rest : list GCPadStatus) :
  Forall passed_over pre ->
  (forall params, (capture_pad i pad params).2 = true) ->
  forall params, only_header_keys params ->
  exists params0,
    only_header_keys params0 /\
    capture_while i (pre ++ pad :: rest) params
    = (rest, (capture_pad i pad params0).1).
Proof.
  intros Hpre Hbreak. induction Hpre as [|q pre Hq _ IH]; intros params Hk.
  - exists params. split; [exact Hk|]. cbn [app capture_while].
    specialize (Hbreak params).
    destruct (capture_pad i pad params) as [params' b]. cbn [snd fst] in *.
    by subst b.
  - cbn [app capture_while]. rewrite (capture_pad_passed_over i q params Hq).
    apply IH. intros k He Hp. unfold Set_int, Set_text.
    rewrite !lookup_insert_ne by congruence. by apply Hk.
Qed.

(** When the only sample that is not passed over is [pad], the result of
    the call is what the body of the loop makes of it from a set that holds
    at most engine and port. *)
Lemma GetNextInput_only_hit (a : Adapter) i (pre : list GCPadStatus) pad
  (rest : list GCPadStatus) :
  (i < 4)%nat ->
  pad_queue a !! i = Some (pre ++ pad :: rest) ->
  Forall passed_over pre ->
  earlier_ports_passed_over (pad_queue a) i ->
  later_ports_empty (pad_queue a) i ->
  (forall params, (capture_pad i pad params).2 = true) ->
  exists params0,
    only_header_keys params0 /\
    (GetNextInput a).1 = (capture_pad i pad params0).1.
Proof.
  intros Hi Hq Hpre Hearlier Hlater Hbreak. unfold GetNextInput.
  replace (seq 0 4) with (seq 0 i ++ i :: seq (S i) (3 - i)); cycle 1.
  { replace (seq 0 4) with (seq 0 (i + S (3 - i))) by (f_equal; lia).
    rewrite seq_app. reflexivity. }
  rewrite foldl_app. cbn [foldl].
  set (s0 := foldl capture_port (pad_queue a, ∅) (seq 0 i)).
  assert (Hk0 : only_header_keys s0.2).
  { apply capture_fold_passed_over_header.
    - intros j Hj. apply elem_of_seq in Hj. apply Hearlier. cbn. lia.
    - apply NoDup_seq.
    - intros k _ _. apply lookup_empty. }
  assert (Hq0 : s0.1 !! i = Some (pre ++ pad :: rest)).
  { unfold s0. rewrite capture_fold_lookup_notin; [exact Hq|].
    rewrite elem_of_seq. lia. }
  destruct (capture_while_first_hit_header i pre pad rest Hpre Hbreak s0.2 Hk0)
    as (params0 & Hkeys & Hwhile).
  assert (Hstep : capture_port s0 i
                  = (<[i := rest]> s0.1, (capture_pad i pad params0).1)).
  { unfold capture_port. rewrite Hq0. by rewrite Hwhile. }
  rewrite Hstep.
  rewrite capture_fold_empty; cycle 1.
  { intros j Hj. apply elem_of_seq in Hj. cbn [fst].
    rewrite list_lookup_insert_ne by lia.
    unfold s0. rewrite capture_fold_lookup_notin by (rewrite elem_of_seq; lia).
    apply Hlater; lia. }
  exists params0. split; [exact Hkeys|reflexivity].
Qed.

(** X6.  Capture, then construction, of a button.  Let the parameter store
    give back integers and texts as they were set.  Let the queue of port
    [i] hold a sample whose first listed mask is [mask], behind samples
    that the capture passes over; let the ports before [i] hold only
    samples that the capture passes over, and let no sample be queued on
    the ports after [i].  Then the device that [Create] builds from the set
    returned by [GetNextInput] is a plain button on port [i] that reads
    [mask], nothing is logged, and its status is the entry of [mask] in the
    state of port [i]. *)
Theorem captured_button_is_created (a : Adapter) i (pre : list GCPadStatus) pad
  (rest : list GCPadStatus) (before : list Z) (mask : Z) (after : list Z) :
  reads_what_was_set reader ->
  (i < 4)%nat ->
  pad_queue a !! i = Some (pre ++ pad :: rest) ->
  Forall passed_over pre ->
  earlier_ports_passed_over (pad_queue a) i ->
  later_ports_empty (pad_queue a) i ->
  button_order = before ++ mask :: after ->
  (forall m, m ∈ before -> Z.land (GCAdapter.button pad) m = 0) ->
  Z.land (GCAdapter.button pad) mask <> 0 ->
  Create (GetNextInput a).1
  = (Button {| GCButton.port := Z.of_nat i; GCButton.button := mask |}, []) /\
  (forall st : Adapter,
     GCButton.GetStatus
       {| GCButton.port := Z.of_nat i; GCButton.button := mask |} st
     = (s ← pad_state st !! i; buttons s !! mask)).
Proof.
  intros [Hint _] Hi Hq Hpre Hearlier Hlater Ho Hbefore Hm.
  assert (Hbody : forall params, capture_pad i pad params
    = (Set_int "button" mask
         (Set_int "port" (Z.of_nat i) (Set_text "engine" "gcpad" params)), true)).
  { intros params.
    apply (capture_pad_first_match i pad params before mask after Ho).
    - intros m Hin. unfold pressed. by rewrite (Hbefore m Hin).
    - unfold pressed. by apply negb_true_iff, Z.eqb_neq. }
  destruct (GetNextInput_only_hit a i pre pad rest Hi Hq Hpre Hearlier Hlater)
    as (params0 & Hk0 & Hres).
  { intros params. by rewrite Hbody. }
  split.
  - rewrite Hres, Hbody. cbn [fst].
    set (m := Set_int "button" mask _).
    assert (Hax : m !! "axis"%string = None).
    { unfold m, Set_int, Set_text. rewrite !lookup_insert_ne by done.
      by apply Hk0. }
    assert (Hb : m !! "button"%string = Some (PInt mask))
      by (unfold m, Set_int; by simplify_map_eq).
    assert (Hp : m !! "port"%string = Some (PInt (Z.of_nat i)))
      by (unfold m, Set_int; by simplify_map_eq).
    unfold Create, Has, Get_int. rewrite Hax, Hb, Hp. by rewrite !Hint.
  - intros st. unfold GCButton.GetStatus, buttons_at, GetPadState.
    cbn [GCButton.port GCButton.button].
    assert (Hneg : (Z.of_nat i <? 0) = false) by lia. rewrite Hneg.
    by rewrite Nat2Z.id.
Qed.

End CaptureThenCreate.

Section CaptureThenCreateWitness.
Import GCAdapter ParamPackage InputCommon Statements MoreStatements.
Import GCButtonFactory.

(** A sample with the bits of A and B set behind a sample that is passed
    over, on port 2. *)
Lemma captured_button_is_created_witness :
  @Create typed_reader
    (@GetNextInput example_masks
       (adapter_with [[]; []; [sample 0 Undefined 255; sample 0x0300 Undefined 255]; []])).1
  = (Button {| GCButton.port := 2; GCButton.button := 0x0100 |}, []).
Proof.
  destruct (@captured_button_is_created example_masks typed_reader
    (adapter_with [[]; []; [sample 0 Undefined 255; sample 0x0300 Undefined 255]; []])
    2%nat [sample 0 Undefined 255] (sample 0x0300 Undefined 255) []
    [] 0x0100 (tl (@button_order example_masks))) as [H _].
  - split; reflexivity.
  - lia.
  - reflexivity.
  - repeat constructor.
  - intros j Hj. destruct j as [|[|j]]; try lia; constructor.
  - intros j H2 H4. assert (j = 3%nat) as -> by lia. reflexivity.
  - reflexivity.
  - by intros m ?%elem_of_nil.
  - vm_compute. discriminate.
  - exact H.
Defined.

End CaptureThenCreateWitness.

Section CaptureThenCreateAxis.
Import GCAdapter ParamPackage InputCommon Statements MoreStatements.
Import GCButtonFactory.

(** On a byte, the two comparisons of the axis-as-button device are
    [raw >= 141] and [raw <= 115]. *)
Lemma axis_button_on_byte (v : Z) :
  0 <= v <= 255 ->
  Float32.gtb (GCAxisButton.axis_value_of v) (Float32.lit (1 # 10)) = (141 <=? v) /\
  Float32.ltb (GCAxisButton.axis_value_of v) (Float32.neg (Float32.lit (1 # 10)))
  = (v <=? 115).
Proof.
  intros Hv.
  pose proof (byte_enum
    (fun v =>
       Bool.eqb (Float32.gtb (GCAxisButton.axis_value_of v) (Float32.lit (1 # 10)))
                (141 <=? v)
       && Bool.eqb (Float32.ltb (GCAxisButton.axis_value_of v)
                                (Float32.neg (Float32.lit (1 # 10))))
                   (v <=? 115))
    ltac:(vm_compute; reflexivity) v Hv) as H.
  apply andb_prop in H as [H1 H2]. by apply Bool.eqb_prop in H1, H2.
Qed.

Context {masks : PadButton} {reader : ParamReader}.

(** X7.  Capture, then construction, of an axis.  Let the parameter store
    give back integers and texts as they were set.  Let the queue of port
    [i] hold a sample with no listed button and a defined axis, behind
    samples that the capture passes over, and let no sample be queued on
    the ports after [i].  Then [Create] builds from the set returned by
    [GetNextInput] an axis-as-button device on port [i] and on the axis of
    the sample, with some threshold, that triggers upwards exactly when the
    raw value exceeded 128, and logs nothing.  When the captured raw value
    is a byte and the state of port [i] shows it on that axis, this device
    is on exactly when the byte is at least 13 away from 128: a captured
    value from 116 to 140 gives a binding that its own sample does not
    trigger. *)
Theorem captured_axis_is_created (a : Adapter) (i : nat) (pre : list GCPadStatus)
  (pad : GCPadStatus) (rest : list GCPadStatus) (id : Z) :
  reads_what_was_set reader ->
  (i < 4)%nat ->
  pad_queue a !! i = Some (pre ++ pad :: rest) ->
  Forall passed_over pre ->
  later_ports_empty (pad_queue a) i ->
  (forall m, m ∈ button_order -> Z.land (GCAdapter.button pad) m = 0) ->
  GCAdapter.axis pad = Axis id ->
  exists th : Float32.float,
    Create (GetNextInput a).1
    = (AxisButton {| GCAxisButton.port := Z.of_nat i;
                     GCAxisButton.axis := axis_u8 id;
                     GCAxisButton.threshold := th;
                     GCAxisButton.trigger_if_greater := 128 <? axis_value pad |},
       []) /\
    (forall st : Adapter,
       0 <= axis_value pad <= 255 ->
       axes_at st (Z.of_nat i) (axis_u8 id) = Some (axis_value pad) ->
       GCAxisButton.GetStatus
         {| GCAxisButton.port := Z.of_nat i;
            GCAxisButton.axis := axis_u8 id;
            GCAxisButton.threshold := th;
            GCAxisButton.trigger_if_greater := 128 <? axis_value pad |} st
       = Some (13 <=? Z.abs (axis_value pad - 128))).
Proof.
  intros [Hint Htext] Hi Hq Hpre Hlater Hno Hax.
  destruct (GetNextInput_first_hit a i pre pad rest Hi Hq Hpre Hlater)
    as (params0 & Hk0 & Hres & _).
  { intros params. unfold capture_pad.
    rewrite find_no_match; cycle 1.
    { intros m Hm. unfold pressed. by rewrite (Hno m Hm). }
    rewrite Hax. by destruct (128 <? axis_value pad). }
  rewrite Hres, (capture_pad_axis i pad params0 id Hno Hax Hk0). cbn [fst].
  assert (Hcreate : forall dir th : string,
    exists t : Float32.float,
    Create (axis_binding i id dir th)
    = (let '(g, log) :=
         if String.eqb dir "+" then (true, [])
         else if String.eqb dir "-" then (false, [])
         else (true, [LOG_ERROR "Input" ("Unknown direction " ++ dir)]) in
       (AxisButton {| GCAxisButton.port := Z.of_nat i;
                      GCAxisButton.axis := axis_u8 id;
                      GCAxisButton.threshold := t;
                      GCAxisButton.trigger_if_greater := g |}, log))).
  { intros dir th. eexists.
    assert (Hb : axis_binding i id dir th !! "button"%string = Some (PInt PAD_STICK))
      by (unfold axis_binding; by simplify_map_eq).
    assert (Hp : axis_binding i id dir th !! "port"%string
                 = Some (PInt (Z.of_nat i)))
      by (unfold axis_binding; by simplify_map_eq).
    assert (Ha : axis_binding i id dir th !! "axis"%string
                 = Some (PInt (axis_u8 id)))
      by (unfold axis_binding; by simplify_map_eq).
    assert (Hd : axis_binding i id dir th !! "direction"%string = Some (PStr dir))
      by (unfold axis_binding; by simplify_map_eq).
    unfold Create, Has, Get_int, Get_text. rewrite Hb, Hp, Ha, Hd.
    rewrite !Hint, Htext. cbn [default]. reflexivity. }
  destruct (128 <? axis_value pad) eqn:Hgt.
  - destruct (Hcreate "+"%string "0.5"%string) as [t Ht].
    exists t. split; [exact Ht|].
    intros st Hbyte Hraw. unfold GCAxisButton.GetStatus.
    cbn [GCAxisButton.port GCAxisButton.axis GCAxisButton.trigger_if_greater].
    rewrite Hraw. cbn [mbind option_bind].
    destruct (axis_button_on_byte _ Hbyte) as [-> _]. f_equal. lia.
  - destruct (Hcreate "-"%string "-0.5"%string) as [t Ht].
    exists t. split; [exact Ht|].
    intros st Hbyte Hraw. unfold GCAxisButton.GetStatus.
    cbn [GCAxisButton.port GCAxisButton.axis GCAxisButton.trigger_if_greater].
    rewrite Hraw. cbn [mbind option_bind].
    destruct (axis_button_on_byte _ Hbyte) as [_ ->]. f_equal. lia.
Qed.

End CaptureThenCreateAxis.

Section CaptureThenCreateAxisWitness.
Import GCAdapter ParamPackage InputCommon Statements MoreStatements.
Import GCButtonFactory.

(** The sample {buttons = 0, axis = 2, axis_value = 200} on port 0. *)
Lemma captured_axis_is_created_witness :
  exists th : Float32.float,
    @Create typed_reader
      (@GetNextInput example_masks
         (adapter_with [[sample 0 (Axis 2) 200]; []; []; []])).1
    = (AxisButton {| GCAxisButton.port := 0; GCAxisButton.axis := 2;
                     GCAxisButton.threshold := th;
                     GCAxisButton.trigger_if_greater := true |}, []).
Proof.
  destruct (@captured_axis_is_created example_masks typed_reader
    (adapter_with [[sample 0 (Axis 2) 200]; []; []; []])
    0%nat [] (sample 0 (Axis 2) 200) [] 2) as (th & H & _).
  - split; reflexivity.
  - lia.
  - reflexivity.
  - constructor.
  - intros j H0 H4. destruct j as [|[|[|[|j]]]]; try lia; reflexivity.
  - intros m _. reflexivity.
  - reflexivity.
  - exists th. exact H.
Defined.

End CaptureThenCreateAxisWitness.

Section MoreCreate.
Import GCAdapter ParamPackage InputCommon Statements MoreStatements.
Import GCButtonFactory.
Context {reader : ParamReader}.

(** X8.  What [GCButtonFactory::Create] builds and logs.  Without the key
    "axis" the device is a plain button on the stored port and button, 0
    for each one that is missing, and nothing is logged.  With the key
    "axis" the device is an axis-as-button that triggers downwards exactly
    when the direction text is "-".  The log is empty unless the set has an
    axis and a direction text other than "+" and "-", and then it holds the
    one entry that names the text. *)
Theorem create_device_and_log (params : ParamPackage.t) :
  (Has params "axis" = false ->
   Create params
   = (Button {| GCButton.port := Get_int params "port" 0;
                GCButton.button := Get_int params "button" 0 |}, [])) /\
  (Has params "axis" = true ->
   exists d,
     (Create params).1 = AxisButton d /\
     GCAxisButton.port d = Get_int params "port" 0 /\
     GCAxisButton.axis d = Get_int params "axis" 0 /\
     GCAxisButton.threshold d = Get_float params "threshold" (Float32.lit (5 # 10)) /\
     (GCAxisButton.trigger_if_greater d = false <->
      Get_text params "direction" "" = "-"%string)) /\
  ((Create params).2 = [] <->
   Has params "axis" = false \/
   Get_text params "direction" "" = "+"%string \/
   Get_text params "direction" "" = "-"%string) /\
  ((Create params).2 = [] \/
   (Create params).2
   = [LOG_ERROR "Input" ("Unknown direction " ++ Get_text params "direction" "")]) /\
  (params = ∅ ->
   Create params = (Button {| GCButton.port := 0; GCButton.button := 0 |}, [])).
Proof.
  unfold Create.
  destruct (Has params "axis") eqn:Hax.
  - destruct (String.eqb_spec (Get_text params "direction" "") "+") as [Hp|Hp];
      [|destruct (String.eqb_spec (Get_text params "direction" "") "-") as [Hm|Hm]];
      cbn [fst snd].
    + repeat split; try done; try (by left); try (by intros; right; left).
      * eexists. repeat split; try reflexivity; cbn; try done.
        intros Hd. rewrite Hp in Hd. discriminate.
      * intros ->. discriminate Hax.
    + repeat split; try done; try (by left); try (by intros; right; right).
      * eexists. repeat split; try reflexivity; cbn; done.
      * intros ->. discriminate Hax.
    + repeat split; try done; try (by right).
      * eexists. repeat split; try reflexivity; cbn; done.
      * intros [H|[H|H]]; [discriminate|contradiction|contradiction].
      * intros ->. discriminate Hax.
  - repeat split; try done; try (by left).
    intros ->. reflexivity.
Qed.

End MoreCreate.

Section MoreCreateWitness.
Import GCAdapter ParamPackage InputCommon Statements MoreStatements.
Import GCButtonFactory.

(** A stored button binding of port 3. *)
Lemma create_device_and_log_witness :
  @Create typed_reader
    {[ "engine"%string := PStr "gcpad"; "port"%string := PInt 3;
       "button"%string := PInt 0x0100 ]}
  = (Button {| GCButton.port := 3; GCButton.button := 0x0100 |}, []).
Proof.
  destruct (@create_device_and_log typed_reader
    {[ "engine"%string := PStr "gcpad"; "port"%string := PInt 3;
       "button"%string := PInt 0x0100 ]}) as (Hbutton & _).
  rewrite Hbutton; reflexivity.
Defined.

End MoreCreateWitness.

Section ButtonConfiguration.
Import GCAdapter ParamPackage InputCommon Statements MoreStatements.
Import GCButtonFactory.

Lemma cleared_queues_empty (qs : list (list GCPadStatus)) :
  queues_empty (foldl Clear qs (seq 0 4)) /\
  length (foldl Clear qs (seq 0 4)) = length qs /\
  (forall i, (4 <= i)%nat -> foldl Clear qs (seq 0 4) !! i = qs !! i).
Proof.
  unfold Clear. cbn [foldl seq]. split; [|split].
  - intros i Hi.
    destruct (decide (i < length qs)%nat) as [Hl|Hl].
    + destruct i as [|[|[|[|i]]]]; try lia;
        rewrite ?list_lookup_insert_ne by lia;
        rewrite list_lookup_insert_eq by (by rewrite ?length_insert);
        reflexivity.
    + rewrite (proj2 (lookup_ge_None _ _)); [reflexivity|].
      rewrite !length_insert. lia.
  - by rewrite !length_insert.
  - intros i Hi. by rewrite !list_lookup_insert_ne by lia.
Qed.

(** X9.  [BeginConfiguration] and [EndConfiguration] of the button factory
    leave the four queues empty, whatever they held, keep the port states,
    and set the polling flag and the capture mode of the producer on and
    off; a capture called right after either of them returns the empty
    parameter set and changes nothing. *)
Theorem button_configuration_brackets {masks : PadButton}
  (f : GCButtonFactory.t) (a : Adapter) :
  (polling (BeginConfiguration f a).1 = true /\
   configuring (BeginConfiguration f a).2 = true /\
   pad_state (BeginConfiguration f a).2 = pad_state a /\
   queues_empty (pad_queue (BeginConfiguration f a).2) /\
   length (pad_queue (BeginConfiguration f a).2) = length (pad_queue a) /\
   GetNextInput (BeginConfiguration f a).2 = (∅, (BeginConfiguration f a).2)) /\
  (polling (EndConfiguration f a).1 = false /\
   configuring (EndConfiguration f a).2 = false /\
   pad_state (EndConfiguration f a).2 = pad_state a /\
   queues_empty (pad_queue (EndConfiguration f a).2) /\
   length (pad_queue (EndConfiguration f a).2) = length (pad_queue a) /\
   GetNextInput (EndConfiguration f a).2 = (∅, (EndConfiguration f a).2)).
Proof.
  destruct (cleared_queues_empty (pad_queue a)) as (He & Hl & _).
  assert (Hnone : forall a' : Adapter,
            queues_empty (pad_queue a') -> GetNextInput a' = (∅, a')).
  { intros a' Hq. unfold GetNextInput. rewrite capture_fold_empty.
    - by destruct a'.
    - intros j Hj. apply elem_of_seq in Hj. apply Hq. lia. }
  split; (repeat split; [exact He | exact Hl | apply Hnone; exact He]).
Qed.

End ButtonConfiguration.

(* ===================================================================== *)
(** * Further properties of the analog capture                           *)
(* ===================================================================== *)

Section MoreAnalogCapture.
Import GCAdapter ParamPackage InputCommon Statements MoreStatements.
Import GCAnalogFactory.

Implicit Types (qs : list (list GCPadStatus)) (f : GCAnalogFactory.t).
Implicit Types (i j : nat) (pad : GCPadStatus).

Lemma pair_pad_mid_ok i pad f :
  (i < 4)%nat -> factory_mid_ok f -> factory_mid_ok (pair_pad i pad f).
Proof.
  intros Hi Hok. unfold pair_pad.
  destruct (GCAdapter.axis pad) as [|id]; [exact Hok|].
  destruct (in_deadzone _); [exact Hok|].
  pose proof (axis_u8_range id) as Hr.
  unfold factory_mid_ok in *.
  destruct (Z.eqb_spec (analog_x_axis f) (-1)) as [Hx|Hx]; cbn.
  - right. destruct Hok as [(_ & _ & Hy)|(Hx' & _)]; [|lia].
    repeat split; try lia; try (by left).
  - destruct Hok as [(Hx' & _)|(Hxr & Hcr & Hy)]; [contradiction|].
    destruct (Z.eqb_spec (analog_y_axis f) (-1)) as [Hy1|Hy1]; cbn; [|by right].
    destruct (Z.eqb_spec (analog_x_axis f) (axis_u8 id)) as [He|He]; cbn;
      [by right|].
    destruct (controller_number f =? Z.of_nat i); cbn; [|by right].
    right. repeat split; lia.
Qed.

Lemma dequeued_ports qs (l : list nat) (s : nat * GCPadStatus) :
  s ∈ dequeued qs l -> s.1 ∈ l.
Proof.
  unfold dequeued. rewrite list_elem_of_In, in_flat_map.
  intros (i & Hi & Hs). apply in_map_iff in Hs as (pad & <- & _).
  by apply list_elem_of_In.
Qed.

Lemma pair_all_mid_ok (samples : list (nat * GCPadStatus)) :
  (forall s, s ∈ samples -> (s.1 < 4)%nat) ->
  forall f, factory_mid_ok f -> factory_mid_ok (pair_all samples f).
Proof.
  induction samples as [|s samples IH]; intros Hp f Hok; [exact Hok|].
  unfold pair_all in *. cbn [foldl]. apply IH.
  - intros s' Hs'. apply Hp. set_solver.
  - apply pair_pad_mid_ok; [|exact Hok]. apply Hp. set_solver.
Qed.

Lemma factory_ok_mid f : factory_ok f -> factory_mid_ok f.
Proof.
  unfold factory_ok, factory_mid_ok.
  intros (Hy & [(Hx & Hc)|(Hx & Hc)]); [left|right]; repeat split; try lia;
    try (by left).
Qed.

Lemma GetNextInput_mid_ok f (a : Adapter) :
  factory_ok f ->
  factory_mid_ok (pair_all (dequeued (pad_queue a) (seq 0 4)) f).
Proof.
  intros Hok. apply pair_all_mid_ok; [|by apply factory_ok_mid].
  intros s Hs. apply dequeued_ports, elem_of_seq in Hs. lia.
Qed.

Lemma emit_factory_ok f : factory_mid_ok f -> factory_ok (emit f).2.
Proof.
  unfold factory_mid_ok, factory_ok, emit. intros Hok.
  destruct (Z.eqb_spec (analog_x_axis f) (-1)) as [Hx|Hx]; cbn.
  - destruct Hok as [(_ & Hc & Hy)|(Hx' & _)]; [|lia].
    split; [exact Hy|]. by left.
  - destruct Hok as [(Hx' & _)|(Hxr & Hcr & Hy)]; [contradiction|].
    destruct (Z.eqb_spec (analog_y_axis f) (-1)) as [Hy1|Hy1]; cbn.
    + split; [exact Hy1|]. by right.
    + split; [reflexivity|]. by left.
Qed.

Lemma reachable_factory_ok f : reachable f -> factory_ok f.
Proof.
  induction 1 as [|f a _ IH|f a _ IH|f a _ IH].
  - unfold factory_ok. cbn. split; [reflexivity|by left].
  - exact IH.
  - exact IH.
  - rewrite analog_GetNextInput_spec. cbn [fst snd].
    by apply emit_factory_ok, GetNextInput_mid_ok.
Qed.

(** X10.  In every state the analog factory reaches, between two calls no
    second axis is set, and either nothing is pending (axis and port both
    -1) or the pending axis is a byte and the pending port one of the ports
    0 to 3. *)
Theorem analog_factory_invariant f :
  reachable f ->
  analog_y_axis f = -1 /\
  ((analog_x_axis f = -1 /\ controller_number f = -1) \/
   (0 <= analog_x_axis f <= 255 /\ 0 <= controller_number f <= 3)).
Proof. exact (reachable_factory_ok f). Qed.

(** After one sample of port 1 was recorded from the initial state. *)
Lemma analog_factory_invariant_witness :
  analog_y_axis
    (GetNextInput initial (adapter_with [[]; [sample 0 (Axis 0) 200]; []; []])).1.2
  = -1.
Proof.
  destruct (analog_factory_invariant
    (GetNextInput initial (adapter_with [[]; [sample 0 (Axis 0) 200]; []; []])).1.2)
    as [H _].
  - apply reachable_next, reachable_initial.
  - exact H.
Defined.

Lemma pair_pad_keeps_pending i pad f :
  analog_x_axis f <> -1 ->
  analog_x_axis (pair_pad i pad f) = analog_x_axis f /\
  controller_number (pair_pad i pad f) = controller_number f.
Proof.
  intros Hx. unfold pair_pad.
  destruct (GCAdapter.axis pad); [done|].
  destruct (in_deadzone _); [done|].
  apply Z.eqb_neq in Hx. rewrite Hx.
  by destruct (_ && _).
Qed.

Lemma pair_all_keeps_pending (samples : list (nat * GCPadStatus)) :
  forall f, analog_x_axis f <> -1 ->
  analog_x_axis (pair_all samples f) = analog_x_axis f /\
  controller_number (pair_all samples f) = controller_number f.
Proof.
  induction samples as [|s samples IH]; intros f Hx; [done|].
  unfold pair_all in *. cbn [foldl].
  destruct (pair_pad_keeps_pending s.1 s.2 f Hx) as [Hx' Hc'].
  destruct (IH (pair_pad s.1 s.2 f)) as [-> ->]; [congruence|]. done.
Qed.

Lemma GetNextInput_outcome f (a : Adapter) :
  reachable f ->
  ((GetNextInput f a).1.1 = ∅ \/
   exists p x y : Z,
     (GetNextInput f a).1.1 = analog_binding p x y /\
     0 <= p <= 3 /\ 0 <= x <= 255 /\ 0 <= y <= 255 /\ x <> y /\
     analog_x_axis (GetNextInput f a).1.2 = -1 /\
     analog_y_axis (GetNextInput f a).1.2 = -1 /\
     controller_number (GetNextInput f a).1.2 = -1) /\
  queues_empty (pad_queue (GetNextInput f a).2) /\
  polling (GetNextInput f a).1.2 = polling f /\
  pad_state (GetNextInput f a).2 = pad_state a /\
  configuring (GetNextInput f a).2 = configuring a.
Proof.
  intros Hreach. rewrite analog_GetNextInput_spec. cbn [fst snd].
  pose proof (GetNextInput_mid_ok f a (reachable_factory_ok f Hreach)) as Hmid.
  pose proof (pair_all_polling (dequeued (pad_queue a) (seq 0 4)) f) as Hpol.
  set (f' := pair_all (dequeued (pad_queue a) (seq 0 4)) f) in *.
  split; [|split; [|split; [|split]]].
  - destruct (decide (analog_x_axis f' = -1 \/ analog_y_axis f' = -1)) as [Hn|Hb].
    + left. by rewrite emit_nothing.
    + right. assert (Hx : analog_x_axis f' <> -1) by tauto.
      assert (Hy : analog_y_axis f' <> -1) by tauto.
      rewrite emit_pair by assumption. cbn [fst snd].
      exists (controller_number f'), (analog_x_axis f'), (analog_y_axis f').
      unfold factory_mid_ok in Hmid.
      destruct Hmid as [(Hx' & _)|(Hxr & Hcr & [Hy'|(Hyr & Hne)])];
        [contradiction|contradiction|].
      repeat split; try lia; done.
  - cbn. apply cleared_queues_empty.
  - unfold emit. destruct (_ && _); cbn; exact Hpol.
  - reflexivity.
  - reflexivity.
Qed.

(** X11.  What a call of the analog capture can return, in a state the
    factory reaches.  Either the parameter set is empty, or it is exactly
    {engine = "gcpad", port, axis_x, axis_y} with a port from 0 to 3 and two
    different axis bytes, and then nothing is pending afterwards.  In both
    cases the four queues are empty after the call, and the polling flag,
    the port states and the capture mode are as before. *)
Theorem analog_capture_result f (a : Adapter) :
  reachable f ->
  ((GetNextInput f a).1.1 = ∅ \/
   exists p x y : Z,
     (GetNextInput f a).1.1 = analog_binding p x y /\
     0 <= p <= 3 /\ 0 <= x <= 255 /\ 0 <= y <= 255 /\ x <> y /\
     analog_x_axis (GetNextInput f a).1.2 = -1 /\
     analog_y_axis (GetNextInput f a).1.2 = -1 /\
     controller_number (GetNextInput f a).1.2 = -1) /\
  queues_empty (pad_queue (GetNextInput f a).2) /\
  polling (GetNextInput f a).1.2 = polling f /\
  pad_state (GetNextInput f a).2 = pad_state a /\
  configuring (GetNextInput f a).2 = configuring a.
Proof. exact (GetNextInput_outcome f a). Qed.

(** From the initial state with one sample queued: the queue of port 1 is
    empty after the call. *)
Lemma analog_capture_result_witness :
  default []
    (pad_queue
       (GetNextInput initial (adapter_with [[]; [sample 0 (Axis 0) 200]; []; []])).2
     !! 1%nat)
  = [].
Proof.
  destruct (analog_capture_result initial
              (adapter_with [[]; [sample 0 (Axis 0) 200]; []; []]))
    as (_ & Hq & _).
  - apply reachable_initial.
  - apply Hq. lia.
Defined.

(** X12.  A pending axis is never replaced.  In a state the factory
    reaches with an axis pending, a call either returns a binding whose
    axis_x is the pending axis and whose port is the pending port, or
    returns the empty set and leaves the factory exactly as it was. *)
Theorem pending_axis_is_kept f (a : Adapter) :
  reachable f -> analog_x_axis f <> -1 ->
  (exists y : Z,
     (GetNextInput f a).1.1
     = analog_binding (controller_number f) (analog_x_axis f) y) \/
  ((GetNextInput f a).1.1 = ∅ /\ (GetNextInput f a).1.2 = f).
Proof.
  intros Hreach Hx. rewrite analog_GetNextInput_spec. cbn [fst snd].
  destruct (pair_all_keeps_pending (dequeued (pad_queue a) (seq 0 4)) f Hx)
    as [Hx' Hc'].
  pose proof (pair_all_polling (dequeued (pad_queue a) (seq 0 4)) f) as Hpol.
  pose proof (reachable_unset_y f Hreach) as Hy.
  set (f' := pair_all (dequeued (pad_queue a) (seq 0 4)) f) in *.
  destruct (Z.eq_dec (analog_y_axis f') (-1)) as [Hy'|Hy'].
  - right. rewrite emit_nothing by (by right). cbn [fst snd].
    split; [reflexivity|].
    destruct f', f. cbn in *. congruence.
  - left. rewrite emit_pair by congruence. cbn [fst].
    exists (analog_y_axis f'). by rewrite Hx', Hc'.
Qed.

(** Axis 0 of port 1 is pending and axis 2 of port 0 arrives: nothing is
    returned and the factory is as it was. *)
Lemma pending_axis_is_kept_witness :
  (exists y : Z,
     (GetNextInput
        (GetNextInput initial (adapter_with [[]; [sample 0 (Axis 0) 200]; []; []])).1.2
        (adapter_with [[sample 0 (Axis 2) 200]; []; []; []])).1.1
     = analog_binding 1 0 y) \/
  ((GetNextInput
      (GetNextInput initial (adapter_with [[]; [sample 0 (Axis 0) 200]; []; []])).1.2
      (adapter_with [[sample 0 (Axis 2) 200]; []; []; []])).1.1 = ∅ /\
   (GetNextInput
      (GetNextInput initial (adapter_with [[]; [sample 0 (Axis 0) 200]; []; []])).1.2
      (adapter_with [[sample 0 (Axis 2) 200]; []; []; []])).1.2
   = (GetNextInput initial (adapter_with [[]; [sample 0 (Axis 0) 200]; []; []])).1.2).
Proof.
  apply (pending_axis_is_kept
    (GetNextInput initial (adapter_with [[]; [sample 0 (Axis 0) 200]; []; []])).1.2
    (adapter_with [[sample 0 (Axis 2) 200]; []; []; []])).
  - apply reachable_next, reachable_initial.
  - vm_compute. discriminate.
Defined.

(** X13.  Two calls in a row: the first one empties the queues, so a second
    call made before any new sample arrives returns the empty set and
    changes neither the factory nor the adapter. *)
Theorem analog_capture_twice f (a : Adapter) :
  reachable f ->
  GetNextInput (GetNextInput f a).1.2 (GetNextInput f a).2
  = (∅, (GetNextInput f a).1.2, (GetNextInput f a).2).
Proof.
  intros Hreach.
  pose proof (reachable_unset_y _ (reachable_next f a Hreach)) as Hy.
  destruct (GetNextInput_outcome f a Hreach) as (_ & Hq & _).
  set (f1 := (GetNextInput f a).1.2) in *.
  set (a1 := (GetNextInput f a).2) in *.
  rewrite (analog_GetNextInput_spec f1 a1).
  assert (Hd : dequeued (pad_queue a1) (seq 0 4) = []).
  { unfold dequeued. cbn [seq flat_map].
    rewrite !Hq by lia. reflexivity. }
  rewrite Hd. change (pair_all [] f1) with f1.
  rewrite emit_nothing by (by right). cbn [fst snd].
  f_equal. destruct a1 as [qs st cfg]. unfold set_pad_queue. cbn in *. f_equal.
  unfold clear_queues, Clear. cbn [foldl seq].
  apply list_eq. intros i.
  destruct (decide (i < 4)%nat) as [Hi|Hi].
  - specialize (Hq i Hi).
    destruct (decide (i < length qs)%nat) as [Hl|Hl].
    + destruct (lookup_lt_is_Some_2 qs i Hl) as [q Hqi].
      rewrite Hqi in Hq. cbn in Hq. subst q. rewrite Hqi.
      destruct i as [|[|[|[|i]]]]; try lia;
        rewrite ?list_lookup_insert_ne by lia;
        rewrite list_lookup_insert_eq by (by rewrite ?length_insert);
        reflexivity.
    + rewrite (proj2 (lookup_ge_None qs i)) by lia.
      apply lookup_ge_None. rewrite !length_insert. lia.
  - by rewrite !list_lookup_insert_ne by lia.
Qed.

Lemma analog_capture_twice_witness :
  GetNextInput
    (GetNextInput initial (adapter_with [[]; [sample 0 (Axis 0) 200]; []; []])).1.2
    (GetNextInput initial (adapter_with [[]; [sample 0 (Axis 0) 200]; []; []])).2
  = (∅,
     (GetNextInput initial (adapter_with [[]; [sample 0 (Axis 0) 200]; []; []])).1.2,
     (GetNextInput initial (adapter_with [[]; [sample 0 (Axis 0) 200]; []; []])).2).
Proof.
  apply (analog_capture_twice initial
           (adapter_with [[]; [sample 0 (Axis 0) 200]; []; []])).
  apply reachable_initial.
Defined.

End MoreAnalogCapture.

(* ===================================================================== *)
(** * Further properties of the devices                                  *)
(* ===================================================================== *)

Section MoreAnalogCreate.
Import GCAdapter ParamPackage InputCommon Statements MoreStatements.
Context {reader : ParamReader}.

(** X14.  Capture, then construction, of a stick: from a binding
    {engine, port, axis_x, axis_y} [GCAnalogFactory::Create] builds a stick
    on that port and those two axes with the dead zone 0, and so it does
    from every non-empty set that the analog capture returns; from the
    empty set it builds the stick of port 0 on the axes 0 and 1. *)
Theorem captured_stick_is_created (f : GCAnalogFactory.t) (a : Adapter) :
  reads_what_was_set reader ->
  (forall p x y : Z,
     GCAnalogFactory.Create (analog_binding p x y)
     = {| GCAnalog.port := p; GCAnalog.axis_x := x; GCAnalog.axis_y := y;
          GCAnalog.deadzone := Float32.lit 0 |}) /\
  GCAnalogFactory.Create ∅
  = {| GCAnalog.port := 0; GCAnalog.axis_x := 0; GCAnalog.axis_y := 1;
       GCAnalog.deadzone := Float32.lit 0 |} /\
  (reachable f -> (GCAnalogFactory.GetNextInput f a).1.1 <> ∅ ->
   exists p x y : Z,
     0 <= p <= 3 /\ 0 <= x <= 255 /\ 0 <= y <= 255 /\ x <> y /\
     GCAnalogFactory.Create (GCAnalogFactory.GetNextInput f a).1.1
     = {| GCAnalog.port := p; GCAnalog.axis_x := x; GCAnalog.axis_y := y;
          GCAnalog.deadzone := Float32.lit 0 |}).
Proof.
  intros [Hint _].
  assert (Hb : forall p x y : Z,
     GCAnalogFactory.Create (analog_binding p x y)
     = {| GCAnalog.port := p; GCAnalog.axis_x := x; GCAnalog.axis_y := y;
          GCAnalog.deadzone := Float32.lit 0 |}).
  { intros p x y.
    assert (Hp : analog_binding p x y !! "port"%string = Some (PInt p))
      by (unfold analog_binding; by simplify_map_eq).
    assert (Hx : analog_binding p x y !! "axis_x"%string = Some (PInt x))
      by (unfold analog_binding; by simplify_map_eq).
    assert (Hy : analog_binding p x y !! "axis_y"%string = Some (PInt y))
      by (unfold analog_binding; by simplify_map_eq).
    assert (Hd : analog_binding p x y !! "deadzone"%string = None)
      by (unfold analog_binding; by simplify_map_eq).
    unfold GCAnalogFactory.Create, Get_int, Get_float.
    rewrite Hp, Hx, Hy, Hd, !Hint. reflexivity. }
  split; [exact Hb|]. split; [reflexivity|].
  intros Hreach Hne.
  destruct (GetNextInput_outcome f a Hreach) as ([Hnil|Hbind] & _);
    [contradiction|].
  destruct Hbind as (p & x & y & Heq & Hp & Hx & Hy & Hxy & _).
  exists p, x, y. rewrite Heq, Hb. done.
Qed.

End MoreAnalogCreate.

Section MoreAnalogCreateWitness.
Import GCAdapter ParamPackage InputCommon Statements MoreStatements.

Lemma captured_stick_is_created_witness :
  @GCAnalogFactory.Create typed_reader (analog_binding 1 0 1)
  = {| GCAnalog.port := 1; GCAnalog.axis_x := 0; GCAnalog.axis_y := 1;
       GCAnalog.deadzone := Float32.lit 0 |}.
Proof.
  destruct (@captured_stick_is_created typed_reader GCAnalogFactory.initial
              (adapter_with [])) as [H _].
  - split; reflexivity.
  - apply H.
Defined.

End MoreAnalogCreateWitness.

Section Directions.
Import GCAdapter ParamPackage InputCommon Statements MoreStatements.

Lemma not_above_and_below (x c : Float32.float) (m : positive) (e : Z) :
  c = S754_finite false m e ->
  Float32.gtb x c = true -> Float32.ltb x (Float32.neg c) = true -> False.
Proof.
  intros ->. unfold Float32.gtb, Float32.ltb, Float32.neg, SFltb.
  destruct x as [s|s| |s m' e']; cbn; try discriminate;
    destruct s; cbn; discriminate.
Qed.

(** X15.  The stick and its four directions.  In every arithmetic the stick
    has no status exactly when one of its two axes is missing from the state
    of its port, and then it has no direction status either.  In binary32,
    right and left are never both on, nor up and down, and a stick whose
    radius is not above the dead zone is on in no direction. *)
Theorem stick_directions :
  (forall (F : Type) (arith : Arith.Ops F) (d : GCAnalog.t F) (a : Adapter)
          (direction : GCAnalog.AnalogDirection),
     (GCAnalog.GetStatus d a = None <->
      axes_at a (GCAnalog.port d) (GCAnalog.axis_x d) = None \/
      axes_at a (GCAnalog.port d) (GCAnalog.axis_y d) = None) /\
     (GCAnalog.GetAnalogDirectionStatus d a direction = None <->
      GCAnalog.GetStatus d a = None)) /\
  (forall (d : GCAnalog.t Float32.float) (a : Adapter),
     ~ (GCAnalog.GetAnalogDirectionStatus d a GCAnalog.RIGHT = Some true /\
        GCAnalog.GetAnalogDirectionStatus d a GCAnalog.LEFT = Some true) /\
     ~ (GCAnalog.GetAnalogDirectionStatus d a GCAnalog.UP = Some true /\
        GCAnalog.GetAnalogDirectionStatus d a GCAnalog.DOWN = Some true)) /\
  (forall (d : GCAnalog.t Float32.float) (a : Adapter) (x y : Float32.float)
          (direction : GCAnalog.AnalogDirection),
     GCAnalog.GetAnalog d a (GCAnalog.axis_x d) (GCAnalog.axis_y d) = Some (x, y) ->
     Float32.gtb (Float32.sqrt (Float32.add (Float32.mul x x) (Float32.mul y y)))
                 (GCAnalog.deadzone d) = false ->
     GCAnalog.GetAnalogDirectionStatus d a direction = Some false).
Proof.
  split; [|split].
  - intros F arith d a direction. split.
    + unfold GCAnalog.GetStatus, GCAnalog.GetAnalog, GCAnalog.GetAxis.
      destruct (axes_at a (GCAnalog.port d) (GCAnalog.axis_x d)) as [rx|];
        cbn [mbind option_bind]; [|split; [by left|done]].
      destruct (axes_at a (GCAnalog.port d) (GCAnalog.axis_y d)) as [ry|];
        cbn [mbind option_bind]; [|split; [by right|done]].
      destruct (Arith.gtb _ _); cbn [mbind option_bind];
        destruct (Arith.gtb _ _); split; try discriminate; intros [?|?]; discriminate.
    + unfold GCAnalog.GetAnalogDirectionStatus.
      destruct (GCAnalog.GetStatus d a) as [[x y]|]; cbn [mbind option_bind];
        split; done.
  - intros d a. unfold GCAnalog.GetAnalogDirectionStatus.
    destruct (GCAnalog.GetStatus d a) as [[x y]|]; cbn [mbind option_bind];
      [|split; intros [? _]; discriminate].
    cbn [Arith.gtb Arith.ltb Arith.neg Arith.lit float_arith].
    split; intros [H1 H2]; injection H1 as H1; injection H2 as H2.
    + eapply (not_above_and_below x); [|exact H1|exact H2].
      vm_compute. reflexivity.
    + eapply (not_above_and_below y); [|exact H1|exact H2].
      vm_compute. reflexivity.
  - intros d a x y direction Hxy Hr.
    unfold GCAnalog.GetAnalogDirectionStatus.
    rewrite (GetStatus_inside_deadzone d a x y Hxy Hr). cbn [mbind option_bind].
    by destruct direction; vm_compute.
Qed.

(** The stick at rest with the dead zone 0.2, in binary32: not to the
    right. *)
Lemma stick_directions_witness :
  GCAnalog.GetAnalogDirectionStatus (example_stick (Float32.lit (2 # 10)))
    (adapter_in_state 128 128) GCAnalog.RIGHT
  = Some false.
Proof.
  destruct stick_directions as (_ & _ & Hin).
  apply (Hin (example_stick (Float32.lit (2 # 10))) (adapter_in_state 128 128)
             (Float32.lit 0) (Float32.lit 0)).
  - vm_compute. reflexivity.
  - vm_compute. reflexivity.
Defined.

End Directions.

Section MoreAxisButton.
Import GCAdapter ParamPackage InputCommon Statements MoreStatements.

(** X17.  Two axis-as-button devices on the same axis, one built for "+"
    and one for "-", are never on together, whatever the axis holds and
    whatever thresholds they store; for a raw byte the first is on from 141
    upwards and the second from 115 downwards, so from 116 to 140 neither
    is on.  A device whose port or axis is missing from the state has no
    status. *)
Theorem axis_button_pair (port axis : Z) (th_up th_down : Float32.float)
  (a : Adapter) :
  let up := {| GCAxisButton.port := port; GCAxisButton.axis := axis;
               GCAxisButton.threshold := th_up;
               GCAxisButton.trigger_if_greater := true |} in
  let down := {| GCAxisButton.port := port; GCAxisButton.axis := axis;
                 GCAxisButton.threshold := th_down;
                 GCAxisButton.trigger_if_greater := false |} in
  ~ (GCAxisButton.GetStatus up a = Some true /\
     GCAxisButton.GetStatus down a = Some true) /\
  (forall raw, axes_at a port axis = Some raw -> 0 <= raw <= 255 ->
     GCAxisButton.GetStatus up a = Some (141 <=? raw) /\
     GCAxisButton.GetStatus down a = Some (raw <=? 115)) /\
  (axes_at a port axis = None ->
     GCAxisButton.GetStatus up a = None /\ GCAxisButton.GetStatus down a = None).
Proof.
  intros up down. unfold GCAxisButton.GetStatus. cbn.
  destruct (axes_at a port axis) as [raw|]; cbn [mbind option_bind].
  - split; [|split; [|discriminate]].
    + intros [H1 H2]. injection H1 as H1. injection H2 as H2.
      eapply (not_above_and_below (GCAxisButton.axis_value_of raw));
        [|exact H1|exact H2].
      vm_compute. reflexivity.
    + intros raw' Heq Hbyte. injection Heq as <-.
      destruct (axis_button_on_byte raw Hbyte) as [-> ->]. done.
  - split; [|split; [discriminate|done]].
    intros [H _]. discriminate.
Qed.

(** The raw value 130 is in the band where neither device is on. *)
Lemma axis_button_pair_witness :
  GCAxisButton.GetStatus (example_axis_button (Float32.lit (5 # 10)) true)
    (adapter_in_state 130 128) = Some false /\
  GCAxisButton.GetStatus (example_axis_button (Float32.lit (5 # 10)) false)
    (adapter_in_state 130 128) = Some false.
Proof.
  destruct (axis_button_pair 0 0 (Float32.lit (5 # 10)) (Float32.lit (5 # 10))
              (adapter_in_state 130 128)) as (_ & Hbyte & _).
  apply (Hbyte 130); [reflexivity|lia].
Defined.

End MoreAxisButton.

Section AnalogConfiguration.
Import GCAdapter ParamPackage InputCommon Statements MoreStatements.
Import GCAnalogFactory.

Lemma clear_queues_of_empty (qs : list (list GCPadStatus)) :
  queues_empty qs -> clear_queues qs = qs.
Proof.
  intros Hq. unfold clear_queues, Clear. cbn [foldl seq].
  apply list_eq. intros i.
  destruct (decide (i < 4)%nat) as [Hi|Hi].
  - specialize (Hq i Hi).
    destruct (decide (i < length qs)%nat) as [Hl|Hl].
    + destruct (lookup_lt_is_Some_2 qs i Hl) as [q Hqi].
      rewrite Hqi in Hq. cbn in Hq. subst q. rewrite Hqi.
      destruct i as [|[|[|[|i]]]]; try lia;
        rewrite ?list_lookup_insert_ne by lia;
        rewrite list_lookup_insert_eq by (by rewrite ?length_insert);
        reflexivity.
    + rewrite (proj2 (lookup_ge_None qs i)) by lia.
      apply lookup_ge_None. rewrite !length_insert. lia.
  - by rewrite !list_lookup_insert_ne by lia.
Qed.

Lemma analog_nothing_queued (f : GCAnalogFactory.t) (a : Adapter) :
  queues_empty (pad_queue a) -> analog_y_axis f = -1 ->
  GetNextInput f a = (∅, f, a).
Proof.
  intros Hq Hy. rewrite analog_GetNextInput_spec.
  assert (Hd : dequeued (pad_queue a) (seq 0 4) = []).
  { unfold dequeued. cbn [seq flat_map]. rewrite !Hq by lia. reflexivity. }
  rewrite Hd. change (pair_all [] f) with f.
  rewrite emit_nothing by (by right). cbn [fst snd].
  rewrite clear_queues_of_empty by exact Hq. by destruct a.
Qed.

(** X18.  Around a session of the analog capture: in a state the factory
    reaches, a call made right after [BeginConfiguration] or right after
    [EndConfiguration], before a new sample arrives, returns the empty set
    and changes nothing, so an axis that was pending before is pending still;
    and with nothing pending and nothing queued a call does nothing at
    all. *)
Theorem analog_configuration_brackets (f : GCAnalogFactory.t) (a : Adapter) :
  reachable f ->
  GetNextInput (BeginConfiguration f a).1 (BeginConfiguration f a).2
  = (∅, (BeginConfiguration f a).1, (BeginConfiguration f a).2) /\
  GetNextInput (EndConfiguration f a).1 (EndConfiguration f a).2
  = (∅, (EndConfiguration f a).1, (EndConfiguration f a).2) /\
  analog_x_axis (BeginConfiguration f a).1 = analog_x_axis f /\
  controller_number (BeginConfiguration f a).1 = controller_number f /\
  (queues_empty (pad_queue a) -> GetNextInput f a = (∅, f, a)).
Proof.
  intros Hreach. pose proof (reachable_unset_y f Hreach) as Hy.
  destruct (cleared_queues_empty (pad_queue a)) as (He & _).
  repeat split.
  - apply analog_nothing_queued; [exact He|exact Hy].
  - apply analog_nothing_queued; [exact He|exact Hy].
  - intros Hq. by apply analog_nothing_queued.
Qed.

Lemma analog_configuration_brackets_witness :
  GetNextInput
    (BeginConfiguration initial (adapter_with [[sample 0 (Axis 0) 200]; []; []; []])).1
    (BeginConfiguration initial (adapter_with [[sample 0 (Axis 0) 200]; []; []; []])).2
  = (∅,
     (BeginConfiguration initial (adapter_with [[sample 0 (Axis 0) 200]; []; []; []])).1,
     (BeginConfiguration initial (adapter_with [[sample 0 (Axis 0) 200]; []; []; []])).2).
Proof.
  destruct (analog_configuration_brackets initial
              (adapter_with [[sample 0 (Axis 0) 200]; []; []; []])) as [H _].
  - apply reachable_initial.
  - exact H.
Defined.

End AnalogConfiguration.
